(** * ClauseCompass CLI ([cli.py]): session state machine and command dispatch

    A shallow embedding of the command handlers of [cli.py] and of its
    read-dispatch loop.  The process-wide dictionary [APP_STATE] becomes a
    record that is threaded through a small state/exception/output monad;
    the file system, the backend and the requests library are an explicit
    environment.

    Strings are Rocq strings: sequences of code points below 256.  The
    body of a response is a JSON value of any shape.  What is printed is
    one constructor of [message] per [console.print], with the values
    interpolated into it.  Rich reads every text it shows, the prompt of
    [main] included, as markup, and raises on some tags (a closing tag
    that closes nothing among them); only interpolated text can bring
    such a tag in, and the verdict of rich on it is taken from the
    environment.  Left out: the layout of what is printed, the prompts
    as output (only their failure is modelled), the busy indicator of
    [console.status], and the content of request headers other than the
    token. *)

From Stdlib Require Import String Ascii List Bool Arith ZArith Lia.
From Stdlib Require Import Sorted Permutation DecimalString.
Import ListNotations.
Local Open Scope string_scope.
Local Open Scope nat_scope.

(** ** Python [str] methods used by the program *)

Module PyStr.

(** [str.isspace] on one character, for the code points below 256:
    TAB..CR, FS..US, SPACE, NEL and NBSP. *)
Definition isspace (c : ascii) : bool :=
  let n := nat_of_ascii c in
  ((9 <=? n) && (n <=? 13)) || ((28 <=? n) && (n <=? 32))
  || (n =? 133) || (n =? 160).

(** [str.lower] on one character, for the code points below 256:
    A..Z and the Latin-1 capitals (0xC0..0xDE except the multiplication
    sign 0xD7) move up by 32. *)
Definition lower_char (c : ascii) : ascii :=
  let n := nat_of_ascii c in
  if ((65 <=? n) && (n <=? 90))
     || ((192 <=? n) && (n <=? 222) && negb (n =? 215))
  then ascii_of_nat (n + 32) else c.

Fixpoint lower (s : string) : string :=
  match s with
  | EmptyString => EmptyString
  | String c s' => String (lower_char c) (lower s')
  end.

Fixpoint lstrip (s : string) : string :=
  match s with
  | EmptyString => EmptyString
  | String c s' => if isspace c then lstrip s' else s
  end.

(** [rstrip] drops the trailing whitespace: a character survives when it
    is not whitespace or when something survives after it. *)
Fixpoint rstrip (s : string) : string :=
  match s with
  | EmptyString => EmptyString
  | String c s' =>
      match rstrip s' with
      | EmptyString => if isspace c then EmptyString else String c EmptyString
      | r => String c r
      end
  end.

(** [s.strip()] *)
Definition strip (s : string) : string := rstrip (lstrip s).

(** [s.split(' ', 1)]: the part before the first space and, when there is
    a space, the remainder after it ([None] when [len(parts) = 1]). *)
Fixpoint split_space_1 (s : string) : string * option string :=
  match s with
  | EmptyString => (EmptyString, None)
  | String c s' =>
      if Ascii.eqb c " "%char then (EmptyString, Some s')
      else let '(h, t) := split_space_1 s' in (String c h, t)
  end.

(** Truth value of a string: [not s] holds for the empty string only. *)
Definition truthy (s : string) : bool :=
  match s with EmptyString => false | _ => true end.

(** [x in l] for a list of strings. *)
Definition mem (x : string) (l : list string) : bool :=
  existsb (String.eqb x) l.

(** ["[" in s] *)
Fixpoint holds_bracket (s : string) : bool :=
  match s with
  | EmptyString => false
  | String c s' => Ascii.eqb c "["%char || holds_bracket s'
  end.

End PyStr.

(** ** [shlex.split(s)]

    The tokenizer of Python's standard library run the way [shlex.split]
    runs it: POSIX mode, [whitespace_split] on, no comment characters, no
    punctuation characters.  The state of [read_token] is one of: between
    tokens (a space in the source), inside a word (the letter a in the
    source), a quote character, or the escape character together with the
    state to return to ([escapedstate]). *)

Module Shlex.

Inductive lex_state :=
| Between
| InWord
| InQuote (q : ascii)
| Escaped (back : lex_state).

Inductive error := NoClosingQuotation | NoEscapedCharacter.

Definition is_whitespace (c : ascii) : bool :=
  Ascii.eqb c " "%char || Ascii.eqb c "009"%char
  || Ascii.eqb c "013"%char || Ascii.eqb c "010"%char.

(** The double quote, code point 34. *)
Definition dquote : ascii := Eval cbv in ascii_of_nat 34.

Definition is_quote (c : ascii) : bool :=
  Ascii.eqb c "'"%char || Ascii.eqb c dquote.

Definition is_escape (c : ascii) : bool := Ascii.eqb c "\"%char.

(** Only the double quote lets the escape character act inside it. *)
Definition in_escapedquotes (q : ascii) : bool := Ascii.eqb q dquote.

Definition snoc (tok : string) (c : ascii) : string :=
  tok ++ String c EmptyString.

(** [lex st tok quoted s]: the tokens still to come, where [tok] is
    [self.token], [quoted] the flag of the token being read and [s] the
    unread input.  A token is emitted when it is non-empty or quoted. *)
Fixpoint lex (st : lex_state) (tok : string) (quoted : bool) (s : string)
  : error + list string :=
  match s with
  | EmptyString =>
      match st with
      | Between => inr []
      | InWord => inr (if PyStr.truthy tok || quoted then [tok] else [])
      | InQuote _ => inl NoClosingQuotation
      | Escaped _ => inl NoEscapedCharacter
      end
  | String c s' =>
      match st with
      | Between =>
          if is_whitespace c then lex Between EmptyString false s'
          else if is_escape c then lex (Escaped InWord) EmptyString false s'
          else if is_quote c then lex (InQuote c) EmptyString false s'
          else lex InWord (String c EmptyString) false s'
      | InWord =>
          if is_whitespace c then
            if PyStr.truthy tok || quoted then
              match lex Between EmptyString false s' with
              | inl e => inl e
              | inr rest => inr (tok :: rest)
              end
            else lex Between EmptyString false s'
          else if is_quote c then lex (InQuote c) tok quoted s'
          else if is_escape c then lex (Escaped InWord) tok quoted s'
          else lex InWord (snoc tok c) quoted s'
      | InQuote q =>
          if Ascii.eqb c q then lex InWord tok true s'
          else if is_escape c && in_escapedquotes q
               then lex (Escaped (InQuote q)) tok true s'
          else lex (InQuote q) (snoc tok c) true s'
      | Escaped back =>
          match back with
          | InQuote q =>
              (* inside quotes only the quote itself and the escape
                 character are escaped; otherwise the backslash stays *)
              let tok' :=
                if negb (is_escape c) && negb (Ascii.eqb c q)
                then snoc tok "\"%char else tok in
              lex back (snoc tok' c) true s'
          | _ => lex InWord (snoc tok c) quoted s'
          end
      end
  end.

Definition split (s : string) : error + list string :=
  lex Between EmptyString false s.

End Shlex.

Local Open Scope list_scope.

(** ** Data model *)

(** A decoded JSON value, as [response.json()] returns it: [JNull] is
    Python's [None]; an object keeps its members as they were written (a
    later member of the same name wins).  A float is observed through its
    truth value only. *)
#[warnings="-register-all"]
Inductive json_value :=
| JNull
| JBool (b : bool)
| JInt (n : Z)
| JFloat (nonzero : bool)
| JString (s : string)
| JArray (items : list json_value)
| JObject (members : list (string * json_value)).

(** Truth value of a Python value: [not v] holds for [None], [False],
    zero and the empty string, list and dict. *)
Definition truthy (v : json_value) : bool :=
  match v with
  | JNull => false
  | JBool b => b
  | JInt n => negb (n =? 0)%Z
  | JFloat nonzero => nonzero
  | JString s => PyStr.truthy s
  | JArray items => match items with [] => false | _ => true end
  | JObject members => match members with [] => false | _ => true end
  end.

(** The value of [key] in the members of an object. *)
Fixpoint member (key : string) (members : list (string * json_value))
  : option json_value :=
  match members with
  | [] => None
  | (k, v) :: rest =>
      match member key rest with
      | Some later => Some later
      | None => if String.eqb key k then Some v else None
      end
  end.

(** The strings of a list of strings; [None] for any other value. *)
Fixpoint strings_of (items : list json_value) : option (list string) :=
  match items with
  | [] => Some []
  | JString s :: rest =>
      match strings_of rest with
      | Some l => Some (s :: l)
      | None => None
      end
  | _ :: _ => None
  end.

(** Whether the text of a value, as an f-string shows it, can hold an
    opening square bracket: a string when it holds one; lists and
    objects are counted in, numbers, booleans and [None] never do. *)
Definition may_hold_bracket (v : json_value) : bool :=
  match v with
  | JString s => PyStr.holds_bracket s
  | JArray _ | JObject _ => true
  | JNull | JBool _ | JInt _ | JFloat _ => false
  end.

(** [APP_STATE]: the token is whatever value the backend gave, [JNull]
    for Python's [None]; [user_email] is [None] or a typed string; [mode]
    is the string the code stores and compares. *)
Record AppState := mkAppState {
  token : json_value;
  user_email : option string;
  mode : string;
  persistent_docs_context : list string;
  temp_docs_to_upload : list string
}.

Definition APP_STATE : AppState :=
  {| token := JNull; user_email := None; mode := "persistent";
     persistent_docs_context := []; temp_docs_to_upload := [] |}.

Definition set_token (v : json_value) (s : AppState) : AppState :=
  {| token := v; user_email := user_email s; mode := mode s;
     persistent_docs_context := persistent_docs_context s;
     temp_docs_to_upload := temp_docs_to_upload s |}.

Definition set_user_email (v : option string) (s : AppState) : AppState :=
  {| token := token s; user_email := v; mode := mode s;
     persistent_docs_context := persistent_docs_context s;
     temp_docs_to_upload := temp_docs_to_upload s |}.

Definition set_mode (v : string) (s : AppState) : AppState :=
  {| token := token s; user_email := user_email s; mode := v;
     persistent_docs_context := persistent_docs_context s;
     temp_docs_to_upload := temp_docs_to_upload s |}.

Definition set_persistent_docs_context (v : list string) (s : AppState)
  : AppState :=
  {| token := token s; user_email := user_email s; mode := mode s;
     persistent_docs_context := v;
     temp_docs_to_upload := temp_docs_to_upload s |}.

Definition set_temp_docs_to_upload (v : list string) (s : AppState)
  : AppState :=
  {| token := token s; user_email := user_email s; mode := mode s;
     persistent_docs_context := persistent_docs_context s;
     temp_docs_to_upload := v |}.

(** Truth value of [APP_STATE["token"]]. *)
Definition truthy_token (t : json_value) : bool := truthy t.

(** Truth value of a list: false for the empty list only. *)
Definition truthy_list {A : Type} (l : list A) : bool :=
  match l with [] => false | _ => true end.

(** An open file object: the path it was opened from and its rank among
    the files opened by the same query (two opens of one path give two
    objects). *)
Record file_handle := mkHandle { hid : nat; hpath : string }.

(** ** The backend *)

(** A request; [bearer] is the stored token, which the header shows after
    the word Bearer. *)
Inductive request :=
| PostLogin (username password : string)
| PostRegister (userid emailid password : string)
| GetDocuments (bearer : json_value)
| PostEvaluate (bearer : json_value) (query_text : string)
    (source_files : list string)
| PostEvaluateWithDocs (bearer : json_value) (query : string)
    (files : list (string * file_handle)).

(** A response: its status and its body, [None] when the body is not JSON
    ([response.json()] raises). *)
Record response := mkResponse {
  status_code : Z;
  json : option json_value
}.

(** The outcome of [requests.get] / [requests.post]: a response, or no
    response at all (connection refused, timeout, ...). *)
Inductive http_result :=
| NoResponse
| Response (r : response).

(** ** Exceptions, messages, observable events *)

(** [ConnectionError] stands for the transport failures of requests;
    [JSONDecodeError] is the one of requests (2.27 and later), itself a
    [RequestException]. *)
Inductive exn :=
| ConnectionError
| JSONDecodeError
| KeyError
| TypeError
| AttributeError
| MarkupError
| NotRenderableError
| OSError
| ValueError (e : Shlex.error)
| SystemExit
| KeyboardInterrupt
| EOFError.

(** [except (KeyboardInterrupt, EOFError, SystemExit)] of [main]. *)
Definition is_exit_signal (e : exn) : bool :=
  match e with
  | KeyboardInterrupt | EOFError | SystemExit => true
  | _ => false
  end.

(** One constructor per [console.print] of the program, with the values
    interpolated into its text ([MsgHelp] stands for the prints of
    [handle_help], whose texts are fixed). *)
Inductive message :=
| MsgWelcome
| MsgHelp
| MsgModeSwitched (new_mode : string)
| MsgInvalidMode
| MsgLoginSuccessful
| MsgLoginFailed (why : json_value)
| MsgConnectionErrorToApi (url : string)
| MsgRegistrationSuccessful
| MsgRegistrationFailed (why : json_value)
| MsgLoggedOut
| MsgOnlyPersistentMode
| MsgOnlyTemporaryMode
| MsgMustBeLoggedInFirst
| MsgNoDocumentsInKB
| MsgAvailableDocuments (docs : list string)
| MsgErrorFetchingDocuments (why : json_value)
| MsgPersistentContextCleared
| MsgPersistentContextSet (docs : list string)
| MsgAddDocUsage
| MsgStaged (abs_path : string)
| MsgSkippedAlreadyStaged (abs_path : string)
| MsgFileNotFound (file_path : string)
| MsgNoDocumentsSet
| MsgDocsTable (title : string) (docs : list string)
| MsgContextCleared
| MsgMustBeLoggedInToQuery
| MsgNoDocumentsStaged
| MsgErrorStatus (status : Z) (why : json_value)
| MsgConnectionError
| MsgResponsePanel (body : json_value)
| MsgExiting.

(** A text that rich renders as markup and that holds interpolated data:
    [Alone text] is [text] rendered by itself, which is also how rich
    treats a table cell and a text that follows the closed tags of its
    template up to the end; [Within msg] is the data of [msg] inside the
    tags of its template. *)
Inductive rendering :=
| Alone (text : string)
| Within (msg : message).

(** The renderings of a message that can fail.  Rich raises on tags
    only, and a tag starts with an opening square bracket: the fixed
    texts of the program close what they open and nothing else, so a
    message is at risk only where interpolated data holds a bracket. *)
Definition markup_risks (msg : message) : list rendering :=
  match msg with
  | MsgStaged p | MsgSkippedAlreadyStaged p | MsgFileNotFound p =>
      if PyStr.holds_bracket p then [Alone p] else []
  | MsgAvailableDocuments rows | MsgDocsTable _ rows =>
      map Alone (filter PyStr.holds_bracket rows)
  | MsgModeSwitched data | MsgConnectionErrorToApi data =>
      if PyStr.holds_bracket data then [Within msg] else []
  | MsgPersistentContextSet words =>
      if existsb PyStr.holds_bracket words then [Within msg] else []
  | MsgLoginFailed why | MsgRegistrationFailed why
  | MsgErrorFetchingDocuments why | MsgErrorStatus _ why =>
      if may_hold_bracket why then [Within msg] else []
  | MsgWelcome | MsgHelp | MsgInvalidMode | MsgLoginSuccessful
  | MsgRegistrationSuccessful | MsgLoggedOut | MsgOnlyPersistentMode
  | MsgOnlyTemporaryMode | MsgMustBeLoggedInFirst | MsgNoDocumentsInKB
  | MsgPersistentContextCleared | MsgAddDocUsage | MsgNoDocumentsSet
  | MsgContextCleared | MsgMustBeLoggedInToQuery | MsgNoDocumentsStaged
  | MsgConnectionError | MsgResponsePanel _ | MsgExiting => []
  end.

Inductive event :=
| Print (m : message)
| Http (r : request)
| FileOpen (h : file_handle)
| FileClose (h : file_handle).

(** No request was issued. *)
Definition no_network_call (evs : list event) : Prop :=
  forall r, ~ In (Http r) evs.

(** What the keyboard delivers to one [console.input]. *)
Inductive keyboard :=
| Typed (line : string)
| CtrlC
| CtrlD.

(** The session together with the input still to be typed. *)
Record machine := mkMachine {
  session : AppState;
  console_in : list keyboard
}.

(** The host: [os.path], [open], the configured base URL, the backend,
    and the two places where the program depends on what a library makes
    of arbitrary data: whether rich raises on a rendering, and what
    [sorted] and [add_row] make of a document array that is not an array
    of strings (an exception, or the rows of the table). *)
Record Env := mkEnv {
  path_exists : string -> bool;
  path_isfile : string -> bool;
  path_abspath : string -> string;
  path_basename : string -> string;
  can_open : string -> bool;
  base_url : string;
  backend : request -> http_result;
  markup_error : rendering -> bool;
  tabulate : list json_value -> exn + list string
}.

(** [except requests.exceptions.RequestException] *)
Definition is_RequestException (e : exn) : bool :=
  match e with
  | ConnectionError | JSONDecodeError => true
  | _ => false
  end.

(** Whether rich renders a message without raising. *)
Definition renders (env : Env) (msg : message) : bool :=
  negb (existsb (markup_error env) (markup_risks msg)).

(** ** State, exceptions and output *)

Inductive result (A : Type) :=
| Ok (a : A)
| Raise (e : exn).
Arguments Ok {A} a.
Arguments Raise {A} e.

(** A computation over a state [S]: its result, the state it leaves and
    the events it produced, in order. *)
Definition M (S A : Type) : Type := S -> result A * S * list event.

Definition ret {S A} (a : A) : M S A := fun s => (Ok a, s, []).

Definition bind {S A B} (m : M S A) (k : A -> M S B) : M S B :=
  fun s =>
    match m s with
    | (Ok a, s1, ev1) =>
        let '(r, s2, ev2) := k a s1 in (r, s2, ev1 ++ ev2)
    | (Raise e, s1, ev1) => (Raise e, s1, ev1)
    end.

Declare Scope py_scope.
Delimit Scope py_scope with py.
Notation "x <- m ;; k" := (bind m (fun x => k))
  (at level 100, m at next level, right associativity) : py_scope.
Notation "m ;; k" := (bind m (fun _ => k))
  (at level 100, right associativity) : py_scope.
Local Open Scope py_scope.

Definition raise {S A} (e : exn) : M S A := fun s => (Raise e, s, []).
Definition emit {S} (e : event) : M S unit := fun s => (Ok tt, s, [e]).
Definition get {S} : M S S := fun s => (Ok s, s, []).
Definition modify {S} (f : S -> S) : M S unit := fun s => (Ok tt, f s, []).

(** [console.print(...)]: the message appears, unless rich raises on its
    markup. *)
Definition print {S} (env : Env) (msg : message) : M S unit :=
  if renders env msg then emit (Print msg) else raise MarkupError.

(** [try: body except <caught>: handler] *)
Definition try_except {S A} (body : M S A) (caught : exn -> bool)
  (handler : M S A) : M S A :=
  fun s =>
    match body s with
    | (Raise e, s1, ev1) =>
        if caught e
        then let '(r, s2, ev2) := handler s1 in (r, s2, ev1 ++ ev2)
        else (Raise e, s1, ev1)
    | done => done
    end.

(** [try: body finally: cleanup]: the cleanup runs on every exit of the
    body; the body's result (or exception) goes on unless the cleanup
    itself raises. *)
Definition try_finally {S A} (body : M S A) (cleanup : M S unit) : M S A :=
  fun s =>
    let '(r, s1, ev1) := body s in
    match cleanup s1 with
    | (Ok _, s2, ev2) => (r, s2, ev1 ++ ev2)
    | (Raise e, s2, ev2) => (Raise e, s2, ev1 ++ ev2)
    end.

(** [for x in xs: body] *)
Fixpoint for_each {S X} (xs : list X) (body : X -> M S unit) : M S unit :=
  match xs with
  | [] => ret tt
  | x :: xs' => body x ;; for_each xs' body
  end.

(** Local variables of a function that are mutated in place: the body
    runs over the state paired with them. *)
Definition with_locals {S L A} (l0 : L) (body : M (S * L) A) : M S A :=
  fun s => let '(r, (s1, _), ev) := body (s, l0) in (r, s1, ev).

Definition outer {S L A} (m : M S A) : M (S * L) A :=
  fun sl => let '(r, s1, ev) := m (fst sl) in (r, (s1, snd sl), ev).

Definition get_locals {S L} : M (S * L) L := fun sl => (Ok (snd sl), sl, []).

Definition modify_locals {S L} (f : L -> L) : M (S * L) unit :=
  fun sl => (Ok tt, (fst sl, f (snd sl)), []).

(** [str(n)] for a natural number. *)
Definition str_of_nat (n : nat) : string :=
  NilZero.string_of_uint (Nat.to_uint n).

(** How an f-string shows the stored user: the string itself, or the text
    [None] for Python's [None]. *)
Definition format_optional (v : option string) : string :=
  match v with
  | Some text => text
  | None => "None"
  end.

(** [get_current_prompt()].  The key [user_email] is always present in
    [APP_STATE], so [APP_STATE.get] never falls back on its default. *)
Definition get_current_prompt (s : AppState) : string :=
  let user_part := format_optional (user_email s) in
  let mode_part := (" (" ++ mode s ++ ")")%string in
  let docs_list :=
    if String.eqb (mode s) "persistent" then persistent_docs_context s
    else temp_docs_to_upload s in
  let num_docs := length docs_list in
  let docs_part :=
    if 0 <? num_docs then
      let context_type :=
        if String.eqb (mode s) "persistent" then "docs"%string
        else "staged"%string in
      (" [" ++ str_of_nat num_docs ++ " " ++ context_type ++ "]")%string
    else ""%string in
  ("ClauseCompass" ++ mode_part ++ " (" ++ user_part ++ ")" ++ docs_part
     ++ " > ")%string.

(** Whether rich renders the prompt of a session.  The counter of the
    prompt starts with a digit, which starts no tag; so only the mode and
    the user can bring a tag in. *)
Definition prompt_renders (env : Env) (s : AppState) : bool :=
  negb (PyStr.holds_bracket (mode s ++ format_optional (user_email s))
        && markup_error env (Alone (get_current_prompt s))).

(** ** Primitive operations of the program *)

Definition get_app : M machine AppState := fun m => (Ok (session m), m, []).

Definition modify_app (f : AppState -> AppState) : M machine unit :=
  modify (fun m => {| session := f (session m); console_in := console_in m |}).

(** [console.input(...)] with one of the fixed prompts of [login] and
    [register]: the next thing typed; an exhausted input is the end of
    the input stream. *)
Definition console_input : M machine string :=
  fun m =>
    match console_in m with
    | [] => (Raise EOFError, m, [])
    | Typed line :: rest =>
        (Ok line, {| session := session m; console_in := rest |}, [])
    | CtrlC :: rest =>
        (Raise KeyboardInterrupt,
         {| session := session m; console_in := rest |}, [])
    | CtrlD :: rest =>
        (Raise EOFError, {| session := session m; console_in := rest |}, [])
    end.

(** [console.input(get_current_prompt())]: rich shows the prompt, as
    markup, before anything is read. *)
Definition prompt_input (env : Env) : M machine string :=
  fun m =>
    if prompt_renders env (session m) then console_input m
    else (Raise MarkupError, m, []).

(** [response.json()] *)
Definition response_json {S} (r : response) : M S json_value :=
  match json r with
  | Some b => ret b
  | None => raise JSONDecodeError
  end.

(** The value of [key] in an object, [default] when it has none. *)
Definition field (members : list (string * json_value)) (key : string)
  (default : json_value) : json_value :=
  match member key members with
  | Some v => v
  | None => default
  end.

(** [body.get(key, default)]: only an object has [get]. *)
Definition dict_get {S} (body : json_value) (key : string)
  (default : json_value) : M S json_value :=
  match body with
  | JObject members => ret (field members key default)
  | _ => raise AttributeError
  end.

(** [body[key]]: a missing key of an object is a [KeyError]; no other
    value can be indexed by a string. *)
Definition subscript {S} (body : json_value) (key : string)
  : M S json_value :=
  match body with
  | JObject members =>
      match member key members with
      | Some v => ret v
      | None => raise KeyError
      end
  | _ => raise TypeError
  end.

(** [parts[1] if len(parts) > 1 else default] *)
Definition get_default {A} (field : option A) (default : A) : A :=
  match field with Some v => v | None => default end.

(** The one-character strings of a string, and the distinct keys of an
    object: what iterating over them yields. *)
Fixpoint characters (s : string) : list string :=
  match s with
  | EmptyString => []
  | String c s' => String c EmptyString :: characters s'
  end.

Definition keys (members : list (string * json_value)) : list string :=
  nodup string_dec (map fst members).

(** [sorted(docs)] on strings: insertion into increasing order. *)
Fixpoint insert_sorted (x : string) (l : list string) : list string :=
  match l with
  | [] => [x]
  | y :: l' => if String.leb x y then x :: l else y :: insert_sorted x l'
  end.

Definition sorted (l : list string) : list string :=
  fold_right insert_sorted [] l.

(** * The program *)

Section Handlers.

Variable env : Env.

(** [requests.get] / [requests.post]: the request goes out; a transport
    failure raises. *)
Definition requests {S} (r : request) : M S response :=
  fun s =>
    match backend env r with
    | NoResponse => (Raise ConnectionError, s, [Http r])
    | Response resp => (Ok resp, s, [Http r])
    end.

(** [open(file_path, 'rb')], the [n]-th open of the running query. *)
Definition open_rb {S} (n : nat) (file_path : string) : M S file_handle :=
  if can_open env file_path
  then (let h := {| hid := n; hpath := file_path |} in
        emit (FileOpen h) ;; ret h)
  else raise OSError.

Definition close {S} (h : file_handle) : M S unit := emit (FileClose h).

(** *** Command handlers, in the order of the source *)

Definition handle_help (_ : string) : M machine unit := print env MsgHelp.

Definition handle_mode_switch (args_str : string) : M machine unit :=
  let new_mode := PyStr.lower (PyStr.strip args_str) in
  if PyStr.mem new_mode ["persistent"%string; "temporary"%string] then
    modify_app (set_mode new_mode) ;;
    print env (MsgModeSwitched new_mode) ;;
    modify_app (set_persistent_docs_context []) ;;
    modify_app (set_temp_docs_to_upload [])
  else print env MsgInvalidMode.

Definition handle_login (_ : string) : M machine unit :=
  email <- console_input ;;
  password <- console_input ;;
  try_except
    (response <- requests (PostLogin email password) ;;
     if (status_code response =? 200)%Z then
       body <- response_json response ;;
       access_token <- subscript body "access_token" ;;
       modify_app (set_token access_token) ;;
       modify_app (set_user_email (Some email)) ;;
       print env MsgLoginSuccessful
     else
       body <- response_json response ;;
       detail <- dict_get body "detail" (JString "Invalid credentials") ;;
       print env (MsgLoginFailed detail))
    is_RequestException
    (print env (MsgConnectionErrorToApi (base_url env))).

Definition handle_register (_ : string) : M machine unit :=
  userid <- console_input ;;
  email <- console_input ;;
  password <- console_input ;;
  response <- requests (PostRegister userid email password) ;;
  if (status_code response =? 200)%Z
  then print env MsgRegistrationSuccessful
  else
    body <- response_json response ;;
    detail <- dict_get body "detail" (JString "Unknown error") ;;
    print env (MsgRegistrationFailed detail).

Definition handle_logout (_ : string) : M machine unit :=
  modify_app (fun s =>
    set_temp_docs_to_upload []
      (set_persistent_docs_context []
         (set_user_email None (set_token JNull s)))) ;;
  print env MsgLoggedOut.

(** The rows that [for doc in sorted(docs): table.add_row(doc)] gives the
    table, or the exception it raises: an array of strings is sorted; a
    string is iterated character by character and an object key by key;
    [None], a boolean and a number cannot be iterated. *)
Definition table_rows (docs : json_value) : exn + list string :=
  match docs with
  | JArray items =>
      match strings_of items with
      | Some names => inr (sorted names)
      | None => tabulate env items
      end
  | JString s => inr (sorted (characters s))
  | JObject members => inr (sorted (keys members))
  | JNull | JBool _ | JInt _ | JFloat _ => inl TypeError
  end.

Definition handle_list_docs (_ : string) : M machine unit :=
  s <- get_app ;;
  if negb (String.eqb (mode s) "persistent")
  then print env MsgOnlyPersistentMode
  else if negb (truthy_token (token s)) then print env MsgMustBeLoggedInFirst
  else
    response <- requests (GetDocuments (token s)) ;;
    if (status_code response =? 200)%Z then
      body <- response_json response ;;
      docs <- dict_get body "documents" (JArray []) ;;
      if negb (truthy docs) then print env MsgNoDocumentsInKB
      else
        match table_rows docs with
        | inl e => raise e
        | inr rows => print env (MsgAvailableDocuments rows)
        end
    else
      body <- response_json response ;;
      detail <- dict_get body "detail" (JString "Unknown error") ;;
      print env (MsgErrorFetchingDocuments detail).

Definition handle_set_docs (args_str : string) : M machine unit :=
  s <- get_app ;;
  if negb (String.eqb (mode s) "persistent")
  then print env MsgOnlyPersistentMode
  else if negb (PyStr.truthy args_str)
          || String.eqb (PyStr.strip args_str) "*"
  then modify_app (set_persistent_docs_context []) ;;
       print env MsgPersistentContextCleared
  else
    match Shlex.split args_str with
    | inl e => raise (ValueError e)
    | inr words =>
        modify_app (set_persistent_docs_context words) ;;
        print env (MsgPersistentContextSet words)
    end.

(** The body of the loop of [handle_add_doc], for one [file_path]. *)
Definition add_doc_step (file_path : string) : M machine unit :=
  if path_exists env file_path && path_isfile env file_path then
    let abs_path := path_abspath env file_path in
    s <- get_app ;;
    if negb (PyStr.mem abs_path (temp_docs_to_upload s)) then
      modify_app (fun s =>
        set_temp_docs_to_upload (temp_docs_to_upload s ++ [abs_path]) s) ;;
      print env (MsgStaged abs_path)
    else print env (MsgSkippedAlreadyStaged abs_path)
  else print env (MsgFileNotFound file_path).

Definition handle_add_doc (args_str : string) : M machine unit :=
  s <- get_app ;;
  if negb (String.eqb (mode s) "temporary")
  then print env MsgOnlyTemporaryMode
  else if negb (PyStr.truthy args_str) then print env MsgAddDocUsage
  else
    match Shlex.split args_str with
    | inl e => raise (ValueError e)
    | inr files_to_add => for_each files_to_add add_doc_step
    end.

Definition handle_show_docs (_ : string) : M machine unit :=
  s <- get_app ;;
  let '(title, docs_list) :=
    if String.eqb (mode s) "persistent"
    then ("Document Context Set for Persistent Query"%string,
          persistent_docs_context s)
    else ("Local Documents Staged for Temporary Query"%string,
          temp_docs_to_upload s) in
  if negb (truthy_list docs_list) then print env MsgNoDocumentsSet
  else print env (MsgDocsTable title docs_list).

Definition handle_clear_docs (_ : string) : M machine unit :=
  s <- get_app ;;
  (if String.eqb (mode s) "persistent"
   then modify_app (set_persistent_docs_context [])
   else modify_app (set_temp_docs_to_upload [])) ;;
  print env MsgContextCleared.

(** [json.dumps] accepts every decoded JSON value, and the panel shows
    its text as highlighted source, not as markup. *)
Definition display_structured_response {S} (data : json_value) : M S unit :=
  print env (MsgResponsePanel data).

(** What both query functions do with a response. *)
Definition show_response {S} (response : response) : M S unit :=
  if (status_code response =? 200)%Z then
    data <- response_json response ;;
    display_structured_response data
  else
    body <- response_json response ;;
    detail <- dict_get body "detail" (JString "Unknown error") ;;
    print env (MsgErrorStatus (status_code response) detail).

Definition handle_persistent_query (query : string) : M machine unit :=
  s <- get_app ;;
  try_except
    (response <- requests
       (PostEvaluate (token s) query (persistent_docs_context s)) ;;
     show_response response)
    is_RequestException
    (print env MsgConnectionError).

(** The mutable locals of [handle_temporary_query]. *)
Record upload_locals := mkLocals {
  files_payload : list (string * file_handle);
  file_handles : list file_handle
}.

(** The body of the loop of [handle_temporary_query], for one staged
    path: open, remember the handle, add the file part. *)
Definition open_staged_file (file_path : string)
  : M (machine * upload_locals) unit :=
  l <- get_locals ;;
  handle <- open_rb (length (file_handles l)) file_path ;;
  modify_locals (fun l =>
    {| files_payload := files_payload l;
       file_handles := file_handles l ++ [handle] |}) ;;
  modify_locals (fun l =>
    {| files_payload :=
         files_payload l ++ [(path_basename env file_path, handle)];
       file_handles := file_handles l |}).

Definition handle_temporary_query (query : string) : M machine unit :=
  s <- get_app ;;
  if negb (truthy_list (temp_docs_to_upload s)) then
    print env MsgNoDocumentsStaged
  else
    with_locals {| files_payload := []; file_handles := [] |}
      (try_finally
         (try_except
            (for_each (temp_docs_to_upload s) open_staged_file ;;
             l <- get_locals ;;
             response <- requests
               (PostEvaluateWithDocs (token s) query (files_payload l)) ;;
             show_response response)
            is_RequestException
            (print env MsgConnectionError))
         (l <- get_locals ;;
          for_each (file_handles l) close)).

Definition handle_query (query_text : string) : M machine unit :=
  s <- get_app ;;
  if negb (truthy_token (token s)) then print env MsgMustBeLoggedInToQuery
  else if String.eqb (mode s) "persistent"
  then handle_persistent_query query_text
  else handle_temporary_query query_text.

(** The table [COMMANDS]; [exit()] raises [SystemExit]. *)
Definition COMMANDS : list (string * (string -> M machine unit)) :=
  [ ("help"%string, handle_help); ("mode"%string, handle_mode_switch);
    ("register"%string, handle_register); ("login"%string, handle_login);
    ("logout"%string, handle_logout);
    ("list_docs"%string, handle_list_docs);
    ("set_docs"%string, handle_set_docs);
    ("add_doc"%string, handle_add_doc);
    ("show_docs"%string, handle_show_docs);
    ("clear_docs"%string, handle_clear_docs);
    ("exit"%string, fun _ => raise SystemExit);
    ("quit"%string, fun _ => raise SystemExit) ].

Fixpoint lookup {V} (table : list (string * V)) (key : string) : option V :=
  match table with
  | [] => None
  | (k, v) :: rest => if String.eqb key k then Some v else lookup rest key
  end.

(** What one line does once it is read, stripped and found non-empty:
    the body of the loop of [main] after [continue]. *)
Definition dispatch (user_input : string) : M machine unit :=
  let '(part0, rest) := PyStr.split_space_1 user_input in
  let command := PyStr.lower part0 in
  let args := get_default rest ""%string in
  match lookup COMMANDS command with
  | Some handler => handler args
  | None => handle_query user_input
  end.

(** One turn of the [while True] of [main]; [true] is [break]. *)
Definition main_turn : M machine bool :=
  try_except
    (line <- prompt_input env ;;
     let user_input := PyStr.strip line in
     if negb (PyStr.truthy user_input) then ret false
     else dispatch user_input ;; ret false)
    is_exit_signal
    (print env MsgExiting ;; ret true).

(** How a run of the loop ends: it left through [break], or the bound on
    the number of turns was too small. *)
Inductive loop_end := Left_loop | Out_of_turns.

Fixpoint main_loop (turns : nat) : M machine loop_end :=
  match turns with
  | 0 => ret Out_of_turns
  | S turns' =>
      stop <- main_turn ;;
      if stop then ret Left_loop else main_loop turns'
  end.

(** [main()]: every turn consumes typed input or meets its end, so one
    turn more than there are inputs is enough. *)
Definition main : M machine loop_end :=
  print env MsgWelcome ;;
  m <- get ;;
  main_loop (S (length (console_in m))).

End Handlers.

(** * Hosts for the examples *)

(** The path functions of a POSIX host ([posixpath]), a file system given
    by the absolute paths of its regular files (the directories are their
    ancestors), and what rich and [sorted] do on the data where this is
    plain. *)
Module Host.

Definition is_slash (c : ascii) : bool := Ascii.eqb c "/"%char.

(** [p.split('/')] *)
Fixpoint split_slash_from (current p : string) : list string :=
  match p with
  | EmptyString => [current]
  | String c rest =>
      if is_slash c then current :: split_slash_from ""%string rest
      else split_slash_from (current ++ String c EmptyString)%string rest
  end.

Definition split_slash (p : string) : list string :=
  split_slash_from ""%string p.

(** ['/'.join(comps)] *)
Fixpoint join_slash (comps : list string) : string :=
  match comps with
  | [] => ""%string
  | [c] => c
  | c :: rest => (c ++ "/" ++ join_slash rest)%string
  end.

(** [os.path.basename]: what follows the last slash. *)
Definition basename (p : string) : string := last (split_slash p) ""%string.

Definition starts_with_slash (p : string) : bool :=
  match p with
  | String c _ => is_slash c
  | EmptyString => false
  end.

(** The loop of [normpath] over the components, [new_comps] kept in
    reverse. *)
Fixpoint norm_comps (rooted : bool) (comps rev_new : list string)
  : list string :=
  match comps with
  | [] => rev rev_new
  | comp :: rest =>
      if String.eqb comp "" || String.eqb comp "."
      then norm_comps rooted rest rev_new
      else if negb (String.eqb comp "..")
              || (negb rooted && match rev_new with [] => true | _ => false end)
              || match rev_new with
                 | top :: _ => String.eqb top ".."
                 | [] => false
                 end
      then norm_comps rooted rest (comp :: rev_new)
      else norm_comps rooted rest (tl rev_new)
  end.

(** [os.path.normpath]: two leading slashes are kept, three or more are
    one. *)
Definition normpath (p : string) : string :=
  match p with
  | EmptyString => "."%string
  | _ =>
      let initial_slashes :=
        match p with
        | String a (String b (String c _)) =>
            if is_slash a && is_slash b && negb (is_slash c) then 2
            else if is_slash a then 1 else 0
        | String a (String b EmptyString) =>
            if is_slash a && is_slash b then 2
            else if is_slash a then 1 else 0
        | String a EmptyString => if is_slash a then 1 else 0
        | EmptyString => 0
        end in
      let body :=
        join_slash (norm_comps (0 <? initial_slashes) (split_slash p) []) in
      let path :=
        match initial_slashes with
        | 0 => body
        | 1 => ("/" ++ body)%string
        | _ => ("//" ++ body)%string
        end in
      match path with
      | EmptyString => "."%string
      | _ => path
      end
  end.

(** [os.path.abspath] in the working directory [cwd] (an absolute path
    that does not end in a slash). *)
Definition abspath (cwd p : string) : string :=
  normpath (if starts_with_slash p then p else (cwd ++ "/" ++ p)%string).

(** The names from the root to a path, for a normalised absolute path. *)
Definition names (p : string) : list string :=
  filter (fun c => negb (String.eqb c "")) (split_slash p).

Definition same_names (a b : list string) : bool :=
  if list_eq_dec string_dec a b then true else false.

Fixpoint is_proper_prefix (a b : list string) : bool :=
  match a, b with
  | [], _ :: _ => true
  | x :: a', y :: b' => String.eqb x y && is_proper_prefix a' b'
  | _, [] => false
  end.

Definition is_file (files : list string) (at_ : list string) : bool :=
  existsb (fun f => same_names at_ (names f)) files.

(** The root is a directory, and so is every ancestor of a file. *)
Definition is_dir (files : list string) (at_ : list string) : bool :=
  match at_ with
  | [] => true
  | _ => existsb (fun f => is_proper_prefix at_ (names f)) files
  end.

(** Name resolution, component by component: every step needs a
    directory to start from and, for a name, an entry of that name. *)
Fixpoint walk (files : list string) (at_ : list string)
  (comps : list string) : option (list string) :=
  match comps with
  | [] => Some at_
  | comp :: rest =>
      if negb (is_dir files at_) then None
      else if String.eqb comp "" || String.eqb comp "."
      then walk files at_ rest
      else if String.eqb comp ".." then walk files (removelast at_) rest
      else
        let next := at_ ++ [comp] in
        if is_dir files next || is_file files next
        then walk files next rest
        else None
  end.

Definition resolve (cwd : string) (files : list string) (p : string)
  : option (list string) :=
  match p with
  | EmptyString => None
  | _ =>
      walk files (if starts_with_slash p then [] else names cwd)
        (split_slash p)
  end.

(** [os.path.exists] and [os.path.isfile] *)
Definition exists_ (cwd : string) (files : list string) (p : string) : bool :=
  match resolve cwd files p with
  | Some _ => true
  | None => false
  end.

Definition isfile (cwd : string) (files : list string) (p : string) : bool :=
  match resolve cwd files p with
  | Some at_ => is_file files at_
  | None => false
  end.

(** *** Markup *)

(** What can follow the bracket that opens a tag: a small letter, or one
    of the three signs. *)
Definition is_tag_start (c : ascii) : bool :=
  let n := nat_of_ascii c in
  ((97 <=? n) && (n <=? 122))
  || Ascii.eqb c "#"%char || Ascii.eqb c "/"%char || Ascii.eqb c "@"%char.

Definition is_backslash (c : ascii) : bool := (nat_of_ascii c =? 92).

(** Where the search for the first tag stands: in plain text, just after
    an opening bracket, or in the body of a tag. *)
Inductive scan :=
| Plain
| Bracket (escaped : bool)
| Body (escaped closing : bool).

(** The search for the first tag of a text.  A tag is an opening bracket,
    a tag start, then anything up to the first closing bracket with no
    opening bracket before it; an odd number of backslashes just before
    the tag makes it plain text.  [run] counts the backslashes just
    read.  The result is what follows the first tag when this tag is a
    closing one. *)
Fixpoint closing_tag_first_from (st : scan) (run : nat) (text : string)
  : option string :=
  match text with
  | EmptyString => None
  | String c rest =>
      let run' := if is_backslash c then S run else 0 in
      match st with
      | Plain =>
          if Ascii.eqb c "["%char
          then closing_tag_first_from (Bracket (Nat.odd run)) 0 rest
          else closing_tag_first_from Plain run' rest
      | Bracket escaped =>
          if Ascii.eqb c "["%char
          then closing_tag_first_from (Bracket false) 0 rest
          else if is_tag_start c
          then closing_tag_first_from (Body escaped (is_slash c)) 0 rest
          else closing_tag_first_from Plain run' rest
      | Body escaped closing =>
          if Ascii.eqb c "]"%char
          then (if escaped then closing_tag_first_from Plain 0 rest
                else if closing then Some rest else None)
          else if Ascii.eqb c "["%char
          then closing_tag_first_from (Bracket (Nat.odd run)) 0 rest
          else closing_tag_first_from (Body escaped closing) run' rest
      end
  end.

Definition closing_tag_first (text : string) : option string :=
  closing_tag_first_from Plain 0 text.

(** The characters that [repr] shows as they are inside single quotes:
    the printable ASCII characters but the quotes and the backslash. *)
Definition is_plain (c : ascii) : bool :=
  let n := nat_of_ascii c in
  (32 <=? n) && (n <=? 126)
  && negb (n =? 39) && negb (n =? 34) && negb (n =? 92).

Fixpoint all_plain (s : string) : bool :=
  match s with
  | EmptyString => true
  | String c rest => is_plain c && all_plain rest
  end.

(** [repr] of a list of words made of such characters. *)
Fixpoint repr_items (words : list string) : string :=
  match words with
  | [] => ""%string
  | [w] => ("'" ++ w ++ "'")%string
  | w :: rest => ("'" ++ w ++ "', " ++ repr_items rest)%string
  end.

Definition repr_plain (words : list string) : string :=
  ("[" ++ repr_items words ++ "]")%string.

Fixpoint holds_backslash (s : string) : bool :=
  match s with
  | EmptyString => false
  | String c rest => is_backslash c || holds_backslash rest
  end.

(** The first tag of the text is a closing tag, and neither a bracket nor
    a backslash follows it. *)
Definition closes_and_ends (text : string) : bool :=
  match closing_tag_first text with
  | Some rest => negb (PyStr.holds_bracket rest) && negb (holds_backslash rest)
  | None => false
  end.

(** Renderings on which rich raises.  In a text rendered by itself, a
    closing tag before any other tag closes nothing.  In data shown
    inside a tag of the program, such a closing tag closes nothing or
    closes the tag of the program; in the second case the closing tag of
    the program is left without a partner when the data has no other tag
    and no backslash to escape it.  On the other renderings rich is taken
    not to raise, which is what it does where no closing tag comes after
    an opening one. *)
Definition rich_raises (r : rendering) : bool :=
  match r with
  | Alone text =>
      match closing_tag_first text with
      | Some _ => true
      | None => false
      end
  | Within (MsgLoginFailed (JString text))
  | Within (MsgRegistrationFailed (JString text))
  | Within (MsgErrorFetchingDocuments (JString text))
  | Within (MsgErrorStatus _ (JString text))
  | Within (MsgConnectionErrorToApi text)
  | Within (MsgModeSwitched text) => closes_and_ends text
  | Within (MsgPersistentContextSet words) =>
      forallb all_plain words && closes_and_ends (repr_plain words)
  | Within _ => false
  end.

(** *** Document arrays that are not arrays of strings *)

Definition is_number (v : json_value) : bool :=
  match v with
  | JBool _ | JInt _ | JFloat _ => true
  | _ => false
  end.

(** What [sorted] and [add_row] make of them.  One element is not
    compared with anything: [None] gives an empty cell, any other value
    is refused by [add_row].  Several numbers are sorted and the first is
    refused by [add_row].  In every other case some comparison of
    [sorted] is taken to fail, as it does whenever [None], an object, or
    values of two kinds are among the elements. *)
Definition rows_of_other (items : list json_value) : exn + list string :=
  match items with
  | [JNull] => inr [""%string]
  | [_] => inl NotRenderableError
  | _ => if forallb is_number items then inl NotRenderableError
         else inl TypeError
  end.

(** A host with the working directory [/cwd], the regular files [files]
    (absolute paths), of which [unreadable] cannot be opened, and the
    backend [answer] at the default base URL. *)
Definition make (files unreadable : list string)
  (answer : request -> http_result) : Env :=
  {| path_exists := exists_ "/cwd" files;
     path_isfile := isfile "/cwd" files;
     path_abspath := abspath "/cwd";
     path_basename := basename;
     can_open := fun p =>
       isfile "/cwd" files p
       && negb (PyStr.mem (abspath "/cwd" p) unreadable);
     base_url := "http://localhost:8000";
     backend := answer;
     markup_error := rich_raises;
     tabulate := rows_of_other |}.

End Host.

(** * Vocabulary of the statements *)

(** The three components of a run. *)
Definition outcome_of {S A} (x : result A * S * list event) : result A :=
  fst (fst x).
Definition state_of {S A} (x : result A * S * list event) : S := snd (fst x).
Definition events_of {S A} (x : result A * S * list event) : list event :=
  snd x.

(** A machine with its session replaced. *)
Definition with_session (s : AppState) (m : machine) : machine :=
  {| session := s; console_in := console_in m |}.

(** The run of a [console.print]: the message, or [MarkupError] and
    nothing shown. *)
Definition printed {S} (env : Env) (msg : message) (s : S)
  : result unit * S * list event :=
  if renders env msg then (Ok tt, s, [Print msg])
  else (Raise MarkupError, s, []).

(** A run that comes after the events [evs]. *)
Definition after {S A} (evs : list event) (x : result A * S * list event)
  : result A * S * list event :=
  (outcome_of x, state_of x, evs ++ events_of x).

(** Whether a JSON value is an object. *)
Definition is_object (v : json_value) : bool :=
  match v with
  | JObject _ => true
  | _ => false
  end.

(** The session after a successful switch to [new_mode]. *)
Definition switched (new_mode : string) (s : AppState) : AppState :=
  {| token := token s; user_email := user_email s; mode := new_mode;
     persistent_docs_context := []; temp_docs_to_upload := [] |}.

(** The argument string of the scenario of the specification: a quoted
    file name with a space, then a plain one. *)
Definition quoted_args : string :=
  String Shlex.dquote ("a b.pdf" ++ String Shlex.dquote " c.pdf")%string.

(** The key under which [main] looks a line up in [COMMANDS]. *)
Definition command_of (user_input : string) : string :=
  PyStr.lower (fst (PyStr.split_space_1 user_input)).

(** What [show_docs] prints for a collection. *)
Definition shown (title : string) (docs : list string) : message :=
  match docs with
  | [] => MsgNoDocumentsSet
  | _ => MsgDocsTable title docs
  end.

(** A host with no files and no reachable backend. *)
Definition offline_env : Env := Host.make [] [] (fun _ => NoResponse).

(** Two machines with nothing left to type: the initial session, and the
    initial session switched to temporary mode. *)
Definition fresh_machine : machine :=
  {| session := APP_STATE; console_in := [] |}.
Definition temporary_machine : machine :=
  {| session := switched "temporary" APP_STATE; console_in := [] |}.

(** The session with [abs_path] appended to the staged list. *)
Definition stage (abs_path : string) (s : AppState) : AppState :=
  set_temp_docs_to_upload (temp_docs_to_upload s ++ [abs_path]) s.

(** A machine with its staged list replaced. *)
Definition with_staged (staged : list string) (m : machine) : machine :=
  with_session (set_temp_docs_to_upload staged (session m)) m.

(** What the specification says of one path of [add_doc], between the
    machine before it and the machine and report after it. *)
Definition add_doc_outcome (env : Env) (file_path : string)
  (m1 m2 : machine) (report : list event) : Prop :=
  let abs_path := path_abspath env file_path in
  let staged := temp_docs_to_upload (session m1) in
  (path_exists env file_path && path_isfile env file_path = false ->
   m2 = m1 /\ report = [Print (MsgFileNotFound file_path)])
  /\
  (path_exists env file_path && path_isfile env file_path = true ->
   ~ In abs_path staged ->
   m2 = with_session (stage abs_path (session m1)) m1
   /\ report = [Print (MsgStaged abs_path)])
  /\
  (path_exists env file_path && path_isfile env file_path = true ->
   In abs_path staged ->
   m2 = m1 /\ report = [Print (MsgSkippedAlreadyStaged abs_path)]).

(** Whether rich renders the report of [add_doc] on a path.  The staged
    and the skipped report show the same absolute path after their fixed
    text, so the answer does not depend on what is staged. *)
Definition report_renders (env : Env) (file_path : string) : bool :=
  if path_exists env file_path && path_isfile env file_path
  then renders env (MsgStaged (path_abspath env file_path))
  else renders env (MsgFileNotFound file_path).

(** The paths up to the first whose report rich rejects, and that path. *)
Fixpoint rendered_prefix (env : Env) (files_to_add : list string)
  : list string :=
  match files_to_add with
  | [] => []
  | file_path :: rest =>
      if report_renders env file_path
      then file_path :: rendered_prefix env rest
      else []
  end.

Fixpoint first_rejected (env : Env) (files_to_add : list string)
  : option string :=
  match files_to_add with
  | [] => None
  | file_path :: rest =>
      if report_renders env file_path then first_rejected env rest
      else Some file_path
  end.

(** The paths that the loop of [handle_add_doc] gets to. *)
Definition attempted (env : Env) (files_to_add : list string) : list string :=
  rendered_prefix env files_to_add
    ++ match first_rejected env files_to_add with
       | Some file_path => [file_path]
       | None => []
       end.

(** The staged list after the loop of [handle_add_doc] has gone through
    [files_to_add], and the reports of these paths, as functions of the
    staged list before it. *)
Fixpoint staged_after (env : Env) (files_to_add staged : list string)
  : list string :=
  match files_to_add with
  | [] => staged
  | file_path :: rest =>
      staged_after env rest
        (if path_exists env file_path && path_isfile env file_path
         then (if PyStr.mem (path_abspath env file_path) staged then staged
               else staged ++ [path_abspath env file_path])
         else staged)
  end.

Fixpoint add_reports (env : Env) (files_to_add staged : list string)
  : list event :=
  match files_to_add with
  | [] => []
  | file_path :: rest =>
      let abs_path := path_abspath env file_path in
      if path_exists env file_path && path_isfile env file_path
      then (if PyStr.mem abs_path staged
            then Print (MsgSkippedAlreadyStaged abs_path)
                   :: add_reports env rest staged
            else Print (MsgStaged abs_path)
                   :: add_reports env rest (staged ++ [abs_path]))
      else Print (MsgFileNotFound file_path) :: add_reports env rest staged
  end.


(** A host where [a.pdf] and [b.pdf] are readable files of [/cwd] and the
    backend does not answer. *)
Definition two_files_env : Env :=
  Host.make ["/cwd/a.pdf"%string; "/cwd/b.pdf"%string] []
    (fun _ => NoResponse).


(** The handles a query opens, in order: one per staged path, numbered
    from [n], up to the first path that cannot be opened. *)
Fixpoint opened_handles (env : Env) (n : nat) (paths : list string)
  : list file_handle :=
  match paths with
  | [] => []
  | p :: rest =>
      if can_open env p
      then {| hid := n; hpath := p |} :: opened_handles env (S n) rest
      else []
  end.

(** The file part sent for a handle. *)
Definition file_part (env : Env) (h : file_handle) : string * file_handle :=
  (path_basename env (hpath h), h).

(** The handles opened, and the handles closed, in a run. *)
Definition opens (evs : list event) : list file_handle :=
  flat_map (fun e => match e with FileOpen h => [h] | _ => [] end) evs.
Definition closes (evs : list event) : list file_handle :=
  flat_map (fun e => match e with FileClose h => [h] | _ => [] end) evs.

(** An unclosed quotation: a double quote, then [a b.pdf]. *)
Definition unclosed_args : string := String Shlex.dquote "a b.pdf".

(** The reading of the specification for an argument string of
    [set_docs] that is neither empty nor the wildcard: the context after
    the command is the word-splitting of the arguments. *)
Definition set_docs_replaces_context (env : Env) (args_str : string)
  (m : machine) : Prop :=
  exists words,
    Shlex.split args_str = inr words
    /\ persistent_docs_context
         (session (state_of (handle_set_docs env args_str m)))
       = words.

(** A persistent-mode machine whose context is [x.pdf]. *)
Definition context_machine : machine :=
  {| session := set_persistent_docs_context ["x.pdf"%string] APP_STATE;
     console_in := [] |}.

(** What a query function makes of the outcome of its request, as result
    and output: the connection error when there is no response or the
    body is no JSON; the panel for a 200; for another status the status
    and the detail of the body, which must be an object for [get] to
    exist, and whose detail rich must accept. *)
Definition response_run (env : Env) (r : http_result)
  : result unit * list event :=
  match r with
  | NoResponse => (Ok tt, [Print MsgConnectionError])
  | Response resp =>
      match json resp with
      | None => (Ok tt, [Print MsgConnectionError])
      | Some body =>
          if (status_code resp =? 200)%Z
          then (Ok tt, [Print (MsgResponsePanel body)])
          else
            match body with
            | JObject members =>
                let report :=
                  MsgErrorStatus (status_code resp)
                    (field members "detail" (JString "Unknown error")) in
                if renders env report then (Ok tt, [Print report])
                else (Raise MarkupError, [])
            | _ => (Raise AttributeError, [])
            end
      end
  end.

(** The request of an upload query with the handles [hs]. *)
Definition upload_request (env : Env) (s : AppState) (query : string)
  (hs : list file_handle) : request :=
  PostEvaluateWithDocs (token s) query (map (file_part env) hs).

Definition file_handle_eq_dec (h1 h2 : file_handle) : {h1 = h2} + {h1 <> h2}.
Proof. decide equality; [apply string_dec | apply Nat.eq_dec]. Defined.

(** A host where [a.pdf] and [b.pdf] are files of [/cwd] and [b.pdf] can
    no longer be opened. *)
Definition one_unreadable_env : Env :=
  Host.make ["/cwd/a.pdf"%string; "/cwd/b.pdf"%string] ["/cwd/b.pdf"%string]
    (fun _ => NoResponse).

(** A logged-in machine in temporary mode with two staged files. *)
Definition two_staged_machine : machine :=
  {| session :=
       {| token := JString "t"; user_email := Some "u"%string;
          mode := "temporary";
          persistent_docs_context := [];
          temp_docs_to_upload := ["/cwd/a.pdf"%string; "/cwd/b.pdf"%string] |};
     console_in := [] |}.

(** [preserves R f c]: the observation [f] of the state after [c] is
    related by [R] to the one before, whatever [c] returns or raises.
    With equality this is a part of the state that [c] does not touch;
    with [<=] on the length of the pending input it is the fact that [c]
    only consumes input. *)
Definition preserves {B S A} (R : B -> B -> Prop) (f : S -> B) (c : M S A)
  : Prop :=
  forall s, R (f (state_of (c s))) (f s).

(** The part of the session that the invariants on documents speak of. *)
Definition docs_and_mode (m : machine) : string * list string * list string :=
  (mode (session m), persistent_docs_context (session m),
   temp_docs_to_upload (session m)).

(** Each collection is empty unless its own mode is current. *)
Definition other_collection_empty (s : AppState) : Prop :=
  (mode s = "persistent"%string -> temp_docs_to_upload s = [])
  /\ (mode s = "temporary"%string -> persistent_docs_context s = []).

(** One invocation of a command handler: an entry of [COMMANDS] on some
    argument string, or [handle_query] on some text, on some host and with
    some input pending. *)
Inductive invocation : AppState -> AppState -> Prop :=
| invoke_command (env : Env) (key : string)
    (handler : string -> M machine unit) (args : string)
    (s : AppState) (typed : list keyboard) :
    lookup (COMMANDS env) key = Some handler ->
    invocation s
      (session (state_of (handler args {| session := s; console_in := typed |})))
| invoke_query (env : Env) (query_text : string)
    (s : AppState) (typed : list keyboard) :
    invocation s
      (session (state_of (handle_query env query_text
                            {| session := s; console_in := typed |}))).

(** The sessions reachable from the initial one. *)
Inductive reachable : AppState -> Prop :=
| reachable_init : reachable APP_STATE
| reachable_step (s s' : AppState) :
    reachable s -> invocation s s' -> reachable s'.

(** A logged-in machine in persistent mode with [typed] pending. *)
Definition logged_in_machine (typed : list keyboard) : machine :=
  {| session := set_user_email (Some "u"%string)
                  (set_token (JString "t") APP_STATE);
     console_in := typed |}.

(** How much input is still pending. *)
Definition pending (m : machine) : nat := length (console_in m).

(** The session after a successful login that brought the value [tok]. *)
Definition logged_in (tok : json_value) (email : string) (s : AppState)
  : AppState :=
  set_user_email (Some email) (set_token tok s).

(** The session after [logout]. *)
Definition logged_out (s : AppState) : AppState :=
  {| token := JNull; user_email := None; mode := mode s;
     persistent_docs_context := []; temp_docs_to_upload := [] |}.

(** A backend that accepts the password [pw] with the token [tok-1],
    refuses the password [old] with a 401 whose detail reads as a closing
    tag, and every other login with a 401 and a plain detail. *)
Definition login_env : Env :=
  Host.make [] []
    (fun r =>
       match r with
       | PostLogin _ password =>
           if String.eqb password "pw"
           then Response
                  {| status_code := 200;
                     json := Some (JObject
                                     [("access_token"%string, JString "tok-1");
                                      ("token_type"%string, JString "bearer")])
                  |}
           else if String.eqb password "old"
           then Response
                  {| status_code := 401;
                     json := Some (JObject
                                     [("detail"%string, JString "[/expired]")])
                  |}
           else Response
                  {| status_code := 401;
                     json := Some (JObject
                                     [("detail"%string, JString "bad password")])
                  |}
       | _ => NoResponse
       end).

(** The token a request carries in its Authorization header, for the
    requests that have one. *)
Definition bearer_of (r : request) : option json_value :=
  match r with
  | GetDocuments bearer => Some bearer
  | PostEvaluate bearer _ _ => Some bearer
  | PostEvaluateWithDocs bearer _ _ => Some bearer
  | PostLogin _ _ | PostRegister _ _ _ => None
  end.

(** The requests issued in a run, in order. *)
Definition requests_of (evs : list event) : list request :=
  flat_map (fun e => match e with Http r => [r] | _ => [] end) evs.

(** The order of [sorted] on strings. *)
Definition str_le (a b : string) : Prop := String.leb a b = true.

(** A backend holding three documents, and one that refuses queries with
    a 403 and a detail. *)
Definition kb_env : Env :=
  Host.make [] []
    (fun r =>
       match r with
       | GetDocuments _ =>
           Response
             {| status_code := 200;
                json := Some (JObject
                                [("documents"%string,
                                  JArray [JString "b.pdf"; JString "c.pdf";
                                          JString "a.pdf"])]) |}
       | _ =>
           Response
             {| status_code := 403;
                json := Some (JObject
                                [("detail"%string, JString "expired token")])
             |}
       end).

(** A backend that answers a query with a 500 whose detail reads as a
    closing tag, the empty query and every upload with a 422 whose body
    is a list, and a login with a 200 whose access token is null; the
    files are those of [two_files_env]. *)
Definition refusing_env : Env :=
  Host.make ["/cwd/a.pdf"%string; "/cwd/b.pdf"%string] []
    (fun r =>
       match r with
       | PostEvaluate _ query _ =>
           if String.eqb query ""
           then Response
                  {| status_code := 422;
                     json := Some (JArray [JString "empty query"]) |}
           else Response
                  {| status_code := 500;
                     json := Some (JObject
                                     [("detail"%string, JString "[/red]")])
                  |}
       | PostEvaluateWithDocs _ _ _ =>
           Response
             {| status_code := 422;
                json := Some (JArray [JString "bad upload"]) |}
       | PostLogin _ _ =>
           Response
             {| status_code := 200;
                json := Some (JObject [("access_token"%string, JNull)]) |}
       | _ => NoResponse
       end).

(** An event that is a message on the console. *)
Definition is_print (e : event) : Prop := exists msg, e = Print msg.

(** The prompt without a document counter. *)
Definition plain_prompt (mode_name user : string) : string :=
  ("ClauseCompass (" ++ mode_name ++ ") (" ++ user ++ ") > ")%string.

(** * Properties *)

(** ** Running a handler *)

(** A [console.print] either shows its message or raises. *)
Lemma print_run {S} (env : Env) (msg : message) (s : S) :
  print env msg s = printed env msg s.
Proof. unfold print, printed. destruct (renders env msg); reflexivity. Qed.

Lemma printed_renders {S} (env : Env) (msg : message) (s : S) :
  renders env msg = true -> printed env msg s = (Ok tt, s, [Print msg]).
Proof. intros H. unfold printed. rewrite H. reflexivity. Qed.

Lemma printed_rejected {S} (env : Env) (msg : message) (s : S) :
  renders env msg = false -> printed env msg s = (Raise MarkupError, s, []).
Proof. intros H. unfold printed. rewrite H. reflexivity. Qed.

(** A message whose text holds no interpolated bracket always renders. *)
Lemma renders_no_risk (env : Env) (msg : message) :
  markup_risks msg = [] -> renders env msg = true.
Proof. intros H. unfold renders. rewrite H. reflexivity. Qed.

(** Unfolds the monad so that a run of a handler reduces; the prints of
    fixed messages reduce to their message. *)
Ltac run_monad :=
  unfold bind, ret, raise, print, emit, get, get_app, modify_app, modify,
    try_except, try_finally, with_locals, outer, get_locals, modify_locals;
  cbn [session console_in fst snd renders markup_risks existsb negb].

(** Membership test of Python against [In]. *)
Lemma mem_In (x : string) (l : list string) :
  PyStr.mem x l = true <-> In x l.
Proof.
  unfold PyStr.mem. rewrite existsb_exists. split.
  - intros [y [Hy Heq]]. apply String.eqb_eq in Heq. subst. assumption.
  - intros H. exists x. split; [assumption | apply String.eqb_refl].
Qed.

Lemma mem_false_not_In (x : string) (l : list string) :
  PyStr.mem x l = false <-> ~ In x l.
Proof.
  rewrite <- mem_In. destruct (PyStr.mem x l); split; intros H;
    try reflexivity; try discriminate; try (intros H'; discriminate).
  exfalso; apply H; reflexivity.
Qed.

(** ** Mode switching *)

(** C2. For every host, every session and every argument string of the
    mode command: when the trimmed, lowercased argument is persistent or
    temporary the mode becomes that string and both document collections
    become empty, whatever they held; for any other argument the
    invalid-mode message is printed and the whole machine (session and
    pending input) is left as it was.  Neither case raises or touches the
    network. *)
Theorem mode_switch_sets_mode_and_clears_or_rejects
  (env : Env) (args_str : string) (m : machine) :
  let new_mode := PyStr.lower (PyStr.strip args_str) in
  (new_mode = "persistent"%string \/ new_mode = "temporary"%string ->
   handle_mode_switch env args_str m =
     (Ok tt, with_session (switched new_mode (session m)) m,
      [Print (MsgModeSwitched new_mode)]))
  /\
  (new_mode <> "persistent"%string -> new_mode <> "temporary"%string ->
   handle_mode_switch env args_str m = (Ok tt, m, [Print MsgInvalidMode])).
Proof.
  intros new_mode. unfold handle_mode_switch. fold new_mode. split.
  - intros Hvalid.
    assert (Hmem : PyStr.mem new_mode ["persistent"%string; "temporary"%string]
                   = true).
    { apply mem_In. destruct Hvalid as [-> | ->]; simpl; auto. }
    rewrite Hmem. destruct Hvalid as [-> | ->]; reflexivity.
  - intros Hp Ht.
    assert (Hmem : PyStr.mem new_mode ["persistent"%string; "temporary"%string]
                   = false).
    { apply mem_false_not_In. simpl. intros [H | [H | []]]; congruence. }
    rewrite Hmem. run_monad. reflexivity.
Qed.

(** The scenarios of the specification: a mixed-case argument with spaces
    around it switches and clears; [bogus] changes nothing. *)
Lemma mode_switch_witness :
  handle_mode_switch offline_env "  Temporary "
    {| session := {| token := JString "t"; user_email := Some "u"%string;
                     mode := "persistent";
                     persistent_docs_context := ["x.pdf"%string];
                     temp_docs_to_upload := [] |};
       console_in := [] |}
  = (Ok tt,
     {| session := {| token := JString "t"; user_email := Some "u"%string;
                      mode := "temporary";
                      persistent_docs_context := [];
                      temp_docs_to_upload := [] |};
        console_in := [] |},
     [Print (MsgModeSwitched "temporary")])
  /\
  handle_mode_switch offline_env "bogus"
    {| session := APP_STATE; console_in := [] |}
  = (Ok tt, {| session := APP_STATE; console_in := [] |},
     [Print MsgInvalidMode]).
Proof.
  split.
  - apply (proj1 (mode_switch_sets_mode_and_clears_or_rejects offline_env
             "  Temporary "
             {| session := {| token := JString "t";
                              user_email := Some "u"%string;
                              mode := "persistent";
                              persistent_docs_context := ["x.pdf"%string];
                              temp_docs_to_upload := [] |};
                console_in := [] |})).
    right. reflexivity.
  - apply (proj2 (mode_switch_sets_mode_and_clears_or_rejects offline_env
             "bogus" {| session := APP_STATE; console_in := [] |}));
      vm_compute; discriminate.
Defined.

(** ** Free-text queries that are refused before any request *)

Lemma handle_temporary_query_nothing_staged
  (env : Env) (query : string) (m : machine) :
  temp_docs_to_upload (session m) = [] ->
  handle_temporary_query env query m = (Ok tt, m, [Print MsgNoDocumentsStaged]).
Proof.
  intros Hdocs. unfold handle_temporary_query.
  unfold bind at 1. unfold get_app. cbv beta iota.
  rewrite Hdocs. reflexivity.
Qed.

(** C1. A line whose lowercased first word is no key of [COMMANDS] goes to
    [handle_query] whole.  There, for every query text and machine: when
    the session has no token (the code tests the truth value of what is
    stored, so besides [None] the empty string and every other false
    value count as no token) the must-be-logged-in message is printed;
    when it has one, the mode is temporary and nothing is staged, the
    no-documents-staged message is printed.  In both cases the run
    returns normally, issues no request and leaves the machine as it
    was. *)
Theorem query_refused_without_token_or_staged_docs
  (env : Env) (user_input : string) (m : machine) :
  (lookup (COMMANDS env) (command_of user_input) = None ->
   dispatch env user_input m = handle_query env user_input m)
  /\
  (truthy_token (token (session m)) = false ->
   handle_query env user_input m
     = (Ok tt, m, [Print MsgMustBeLoggedInToQuery])
   /\ no_network_call (events_of (handle_query env user_input m)))
  /\
  (truthy_token (token (session m)) = true ->
   mode (session m) = "temporary"%string ->
   temp_docs_to_upload (session m) = [] ->
   handle_query env user_input m = (Ok tt, m, [Print MsgNoDocumentsStaged])
   /\ no_network_call (events_of (handle_query env user_input m))).
Proof.
  split; [| split].
  - intros Hnone. unfold dispatch, command_of in *.
    destruct (PyStr.split_space_1 user_input) as [part0 rest].
    cbn [fst] in Hnone. rewrite Hnone. reflexivity.
  - intros Htok.
    assert (Hrun : handle_query env user_input m
                   = (Ok tt, m, [Print MsgMustBeLoggedInToQuery])).
    { unfold handle_query. run_monad. rewrite Htok. reflexivity. }
    split; [exact Hrun |].
    rewrite Hrun. intros r [H | []]. discriminate.
  - intros Htok Hmode Hdocs.
    assert (Hrun : handle_query env user_input m
                   = (Ok tt, m, [Print MsgNoDocumentsStaged])).
    { unfold handle_query. run_monad. rewrite Htok, Hmode.
      change (String.eqb "temporary" "persistent") with false.
      cbv beta iota. cbn [negb].
      rewrite (handle_temporary_query_nothing_staged env _ _ Hdocs).
      reflexivity. }
    split; [exact Hrun |].
    rewrite Hrun. intros r [H | []]. discriminate.
Qed.

(** A logged-out session asking a question, and a logged-in one in
    temporary mode with nothing staged. *)
Lemma query_refused_witness :
  handle_query offline_env "what is covered?" fresh_machine
  = (Ok tt, fresh_machine, [Print MsgMustBeLoggedInToQuery])
  /\
  handle_query offline_env "what is covered?"
    {| session := switched "temporary" (set_token (JString "t") APP_STATE);
       console_in := [] |}
  = (Ok tt,
     {| session := switched "temporary" (set_token (JString "t") APP_STATE);
        console_in := [] |},
     [Print MsgNoDocumentsStaged]).
Proof.
  split.
  - apply (proj1 (proj2 (query_refused_without_token_or_staged_docs
                           offline_env "what is covered?" fresh_machine))).
    reflexivity.
  - apply (proj2 (proj2 (query_refused_without_token_or_staged_docs
                           offline_env "what is covered?"
                           {| session := switched "temporary"
                                (set_token (JString "t") APP_STATE);
                              console_in := [] |})));
      reflexivity.
Defined.

(** ** Mode-scoped commands *)

(** [show_docs] is one print of the collection of the current mode. *)
Lemma handle_show_docs_run (env : Env) (args : string) (m : machine) :
  handle_show_docs env args m =
    printed env
      (if String.eqb (mode (session m)) "persistent"
       then shown "Document Context Set for Persistent Query"
              (persistent_docs_context (session m))
       else shown "Local Documents Staged for Temporary Query"
              (temp_docs_to_upload (session m))) m.
Proof.
  unfold handle_show_docs. unfold bind, get_app. cbv beta iota.
  destruct (String.eqb (mode (session m)) "persistent").
  - destruct (persistent_docs_context (session m)) as [| d ds];
      cbn [truthy_list negb shown]; rewrite print_run;
      destruct (printed env _ m) as [[r s] ev]; reflexivity.
  - destruct (temp_docs_to_upload (session m)) as [| d ds];
      cbn [truthy_list negb shown]; rewrite print_run;
      destruct (printed env _ m) as [[r s] ev]; reflexivity.
Qed.



(** ** Staging documents *)

Lemma with_session_same (m : machine) : with_session (session m) m = m.
Proof. destruct m; reflexivity. Qed.

Lemma set_temp_same (s : AppState) :
  set_temp_docs_to_upload (temp_docs_to_upload s) s = s.
Proof. destruct s; reflexivity. Qed.

Lemma with_staged_same (m : machine) :
  with_staged (temp_docs_to_upload (session m)) m = m.
Proof. unfold with_staged. rewrite set_temp_same. apply with_session_same. Qed.

Lemma with_staged_twice (a b : list string) (m : machine) :
  with_staged a (with_staged b m) = with_staged a m.
Proof. reflexivity. Qed.

Lemma staged_with_staged (a : list string) (m : machine) :
  temp_docs_to_upload (session (with_staged a m)) = a.
Proof. reflexivity. Qed.

(** One path, as a function of the machine: the staged list is extended
    before the report is printed. *)
Lemma add_doc_step_run (env : Env) (file_path : string) (m : machine) :
  add_doc_step env file_path m =
    if path_exists env file_path && path_isfile env file_path
    then (if PyStr.mem (path_abspath env file_path)
                (temp_docs_to_upload (session m))
          then printed env
                 (MsgSkippedAlreadyStaged (path_abspath env file_path)) m
          else printed env (MsgStaged (path_abspath env file_path))
                 (with_session
                    (stage (path_abspath env file_path) (session m)) m))
    else printed env (MsgFileNotFound file_path) m.
Proof.
  unfold add_doc_step.
  destruct (path_exists env file_path && path_isfile env file_path);
    [| apply print_run].
  unfold bind at 1. unfold get_app. cbv beta iota.
  destruct (PyStr.mem (path_abspath env file_path)
              (temp_docs_to_upload (session m))); cbn [negb].
  - rewrite print_run. destruct (printed env _ m) as [[r s] ev]. reflexivity.
  - unfold bind, modify_app, modify. rewrite print_run.
    unfold printed. destruct (renders env _); reflexivity.
Qed.

(** One path whose report renders, and one whose report rich rejects. *)
Lemma add_doc_step_rendered (env : Env) (file_path : string) (m : machine) :
  report_renders env file_path = true ->
  add_doc_step env file_path m =
    (Ok tt,
     with_staged
       (staged_after env [file_path] (temp_docs_to_upload (session m))) m,
     add_reports env [file_path] (temp_docs_to_upload (session m))).
Proof.
  unfold report_renders. intros Hr. rewrite add_doc_step_run.
  cbn [staged_after add_reports].
  destruct (path_exists env file_path && path_isfile env file_path).
  - destruct (PyStr.mem (path_abspath env file_path)
                (temp_docs_to_upload (session m))).
    + rewrite with_staged_same. apply printed_renders. exact Hr.
    + apply printed_renders. exact Hr.
  - rewrite with_staged_same. apply printed_renders. exact Hr.
Qed.

Lemma add_doc_step_rejected (env : Env) (file_path : string) (m : machine) :
  report_renders env file_path = false ->
  add_doc_step env file_path m =
    (Raise MarkupError,
     with_staged
       (staged_after env [file_path] (temp_docs_to_upload (session m))) m,
     []).
Proof.
  unfold report_renders. intros Hr. rewrite add_doc_step_run.
  cbn [staged_after].
  destruct (path_exists env file_path && path_isfile env file_path).
  - destruct (PyStr.mem (path_abspath env file_path)
                (temp_docs_to_upload (session m))).
    + rewrite with_staged_same. apply printed_rejected. exact Hr.
    + apply printed_rejected. exact Hr.
  - rewrite with_staged_same. apply printed_rejected. exact Hr.
Qed.

(** A loop over a concatenation is the loop over the first part, then,
    unless that raised, the loop over the second. *)
Lemma for_each_app {S X} (xs ys : list X) (body : X -> M S unit) (s : S) :
  for_each (xs ++ ys) body s =
    match for_each xs body s with
    | (Ok _, s1, ev1) =>
        let '(r, s2, ev2) := for_each ys body s1 in (r, s2, ev1 ++ ev2)
    | (Raise e, s1, ev1) => (Raise e, s1, ev1)
    end.
Proof.
  revert s. induction xs as [| x xs IH]; intros s.
  - cbn. destruct (for_each ys body s) as [[r s2] ev2]. reflexivity.
  - cbn [for_each List.app]. unfold bind.
    destruct (body x s) as [[[[] | e] s1] ev1]; [| reflexivity].
    rewrite IH.
    destruct (for_each xs body s1) as [[[[] | e'] s2] ev2]; [| reflexivity].
    destruct (for_each ys body s2) as [[r s3] ev3].
    rewrite app_assoc. reflexivity.
Qed.

(** The whole loop: it goes through the paths up to the first whose
    report rich rejects, touches the staged list only, and reports once
    per path before that one. *)
Lemma add_doc_loop_run (env : Env) (files_to_add : list string) (m : machine) :
  for_each files_to_add (add_doc_step env) m =
    (match first_rejected env files_to_add with
     | None => Ok tt
     | Some _ => Raise MarkupError
     end,
     with_staged
       (staged_after env (attempted env files_to_add)
          (temp_docs_to_upload (session m))) m,
     add_reports env (rendered_prefix env files_to_add)
       (temp_docs_to_upload (session m))).
Proof.
  revert m. induction files_to_add as [| p ps IH]; intros m.
  - cbn. rewrite with_staged_same. reflexivity.
  - cbn [for_each]. unfold bind, attempted.
    cbn [rendered_prefix first_rejected].
    destruct (report_renders env p) eqn:Hp.
    + rewrite (add_doc_step_rendered env p m Hp). rewrite IH.
      rewrite staged_with_staged, with_staged_twice.
      unfold attempted. cbn [List.app staged_after add_reports].
      destruct (path_exists env p && path_isfile env p);
        [destruct (PyStr.mem (path_abspath env p)
                     (temp_docs_to_upload (session m))) |];
        reflexivity.
    + rewrite (add_doc_step_rejected env p m Hp). reflexivity.
Qed.

(** In temporary mode, with arguments that [shlex] splits, the handler is
    its loop. *)
Lemma handle_add_doc_loop
  (env : Env) (args_str : string) (files_to_add : list string) (m : machine) :
  mode (session m) = "temporary"%string ->
  args_str <> ""%string ->
  Shlex.split args_str = inr files_to_add ->
  handle_add_doc env args_str m = for_each files_to_add (add_doc_step env) m.
Proof.
  intros Hmode Hargs Hsplit. unfold handle_add_doc.
  unfold bind at 1. unfold get_app. cbv beta iota.
  rewrite Hmode. change (String.eqb "temporary" "temporary") with true.
  cbn [negb]. destruct args_str as [| c rest]; [congruence |].
  cbn [PyStr.truthy negb]. rewrite Hsplit.
  destruct (for_each files_to_add (add_doc_step env) m) as [[r s] ev].
  reflexivity.
Qed.

(** When every report renders the loop gets to every path. *)
Lemma rendered_prefix_all (env : Env) (files_to_add : list string) :
  forallb (report_renders env) files_to_add = true ->
  rendered_prefix env files_to_add = files_to_add
  /\ first_rejected env files_to_add = None.
Proof.
  induction files_to_add as [| p ps IH]; intros Hall; [split; reflexivity |].
  cbn [forallb] in Hall. apply andb_true_iff in Hall as [Hp Hps].
  cbn [rendered_prefix first_rejected]. rewrite Hp.
  destruct (IH Hps) as [-> ->]. split; reflexivity.
Qed.


(** The loop stops at a rejected report that follows rendered ones. *)
Lemma rendered_prefix_cut
  (env : Env) (before : list string) (file_path : string)
  (after : list string) :
  forallb (report_renders env) before = true ->
  report_renders env file_path = false ->
  rendered_prefix env (before ++ file_path :: after) = before
  /\ first_rejected env (before ++ file_path :: after) = Some file_path.
Proof.
  induction before as [| p ps IH]; intros Hall Hrej.
  - cbn. rewrite Hrej. split; reflexivity.
  - cbn [forallb] in Hall. apply andb_true_iff in Hall as [Hp Hps].
    cbn [List.app rendered_prefix first_rejected]. rewrite Hp.
    destruct (IH Hps Hrej) as [-> ->]. split; reflexivity.
Qed.

Lemma add_doc_loop_rendered
  (env : Env) (files_to_add : list string) (m : machine) :
  forallb (report_renders env) files_to_add = true ->
  for_each files_to_add (add_doc_step env) m =
    (Ok tt,
     with_staged
       (staged_after env files_to_add (temp_docs_to_upload (session m))) m,
     add_reports env files_to_add (temp_docs_to_upload (session m))).
Proof.
  intros Hall. rewrite add_doc_loop_run. unfold attempted.
  destruct (rendered_prefix_all env files_to_add Hall) as [-> ->].
  rewrite app_nil_r. reflexivity.
Qed.

Lemma add_doc_step_outcome (env : Env) (file_path : string) (m : machine) :
  report_renders env file_path = true ->
  add_doc_outcome env file_path m
    (state_of (add_doc_step env file_path m))
    (events_of (add_doc_step env file_path m)).
Proof.
  intros Hr. unfold add_doc_outcome.
  rewrite (add_doc_step_rendered env file_path m Hr).
  cbn [state_of events_of fst snd staged_after add_reports].
  destruct (path_exists env file_path && path_isfile env file_path).
  - destruct (PyStr.mem (path_abspath env file_path)
                (temp_docs_to_upload (session m))) eqn:Hmem.
    + apply mem_In in Hmem. rewrite with_staged_same.
      repeat split; try discriminate; tauto.
    + apply mem_false_not_In in Hmem.
      repeat split; try discriminate; tauto.
  - rewrite with_staged_same. repeat split; discriminate.
Qed.

(** C4, on the code: the loop stops where a report cannot be rendered.
    In temporary
    mode, for every argument string that splits into the paths [before],
    then [file_path], then [after]: when the reports of [before] render
    and rich rejects the report of [file_path] (the path is interpolated
    into the markup of the message, and holds a closing tag that closes
    nothing), the command ends with [MarkupError] at [file_path]: the
    paths of [before] have been processed and reported, [file_path]
    itself has been staged if it is a new regular file but has no report,
    and the paths of [after] are not processed at all. *)
Theorem add_doc_stops_at_rejected_report
  (env : Env) (args_str : string) (m : machine)
  (before : list string) (file_path : string) (after : list string) :
  mode (session m) = "temporary"%string ->
  args_str <> ""%string ->
  Shlex.split args_str = inr (before ++ file_path :: after) ->
  forallb (report_renders env) before = true ->
  report_renders env file_path = false ->
  handle_add_doc env args_str m =
    (Raise MarkupError,
     with_staged
       (staged_after env (before ++ [file_path])
          (temp_docs_to_upload (session m))) m,
     add_reports env before (temp_docs_to_upload (session m))).
Proof.
  intros Hmode Hargs Hsplit Hbefore Hrej.
  rewrite (handle_add_doc_loop env args_str _ m Hmode Hargs Hsplit).
  rewrite add_doc_loop_run. unfold attempted.
  destruct (rendered_prefix_cut env before file_path after Hbefore Hrej)
    as [-> ->].
  reflexivity.
Qed.

(** The failing input: [add_doc [/x] a.pdf] where [a.pdf] exists and
    [[/x]] does not.  The command raises at the missing path, with
    nothing printed and nothing staged; [a.pdf], which the same command
    stages when it is given alone, is never looked at. *)
Lemma add_doc_stops_witness :
  handle_add_doc two_files_env "[/x] a.pdf" temporary_machine
  = (Raise MarkupError, temporary_machine, [])
  /\
  handle_add_doc two_files_env "a.pdf" temporary_machine
  = (Ok tt, with_staged ["/cwd/a.pdf"%string] temporary_machine,
     [Print (MsgStaged "/cwd/a.pdf")]).
Proof.
  split.
  - apply (add_doc_stops_at_rejected_report two_files_env "[/x] a.pdf"
             temporary_machine [] "[/x]"%string ["a.pdf"%string]);
      try reflexivity.
    discriminate.
  - reflexivity.
Defined.

(** X23. Where the reports render, [add_doc] does what is expected of
    it.  In temporary mode, for every argument string that splits into
    paths whose reports rich accepts, and every path of that sequence:
    the paths before it are processed first, then the path itself, then
    all the paths after it, none of the three stages raising.  The path
    itself does exactly one of three things: when it does not exist or is
    no regular file, the file-not-found error is reported and the machine
    is left as it is; when it is an existing regular file whose absolute
    path is not staged yet, that absolute path is appended to the staged
    list and reported as staged; when its absolute path is staged
    already, it is reported as skipped and nothing changes. *)
Theorem add_doc_processes_paths_in_order
  (env : Env) (args_str : string) (files_to_add : list string) (m : machine) :
  mode (session m) = "temporary"%string ->
  args_str <> ""%string ->
  Shlex.split args_str = inr files_to_add ->
  forallb (report_renders env) files_to_add = true ->
  forall (before : list string) (file_path : string) (after : list string),
    files_to_add = before ++ file_path :: after ->
    exists m1 ev1 m2 ev2 m3 ev3,
      for_each before (add_doc_step env) m = (Ok tt, m1, ev1)
      /\ add_doc_step env file_path m1 = (Ok tt, m2, ev2)
      /\ add_doc_outcome env file_path m1 m2 ev2
      /\ for_each after (add_doc_step env) m2 = (Ok tt, m3, ev3)
      /\ handle_add_doc env args_str m = (Ok tt, m3, ev1 ++ ev2 ++ ev3).
Proof.
  intros Hmode Hargs Hsplit Hall before file_path after Hcut.
  rewrite (handle_add_doc_loop env args_str files_to_add m Hmode Hargs Hsplit).
  subst files_to_add.
  rewrite forallb_app in Hall. apply andb_true_iff in Hall as [Hbefore Hrest].
  cbn [forallb] in Hrest. apply andb_true_iff in Hrest as [Hpath Hafter].
  pose proof (add_doc_loop_rendered env before m Hbefore) as E1.
  set (m1 := with_staged _ m) in E1. set (ev1 := add_reports _ _ _) in E1.
  pose proof (add_doc_step_rendered env file_path m1 Hpath) as E2.
  set (m2 := with_staged _ m1) in E2. set (ev2 := add_reports _ _ _) in E2.
  pose proof (add_doc_loop_rendered env after m2 Hafter) as E3.
  set (m3 := with_staged _ m2) in E3. set (ev3 := add_reports _ _ _) in E3.
  exists m1, ev1, m2, ev2, m3, ev3.
  split; [exact E1 |]. split; [exact E2 |]. split; [| split].
  - pose proof (add_doc_step_outcome env file_path m1 Hpath) as H.
    rewrite E2 in H. exact H.
  - exact E3.
  - rewrite for_each_app, E1. cbn [for_each]. unfold bind.
    rewrite E2, E3. reflexivity.
Qed.

(** Three paths in temporary mode: a file, a missing path, the file again.
    The missing path in the middle is reported and the loop goes on. *)
Lemma add_doc_processes_paths_witness :
  exists m1 ev1 m2 ev2 m3 ev3,
    for_each ["a.pdf"%string] (add_doc_step two_files_env) temporary_machine
      = (Ok tt, m1, ev1)
    /\ add_doc_step two_files_env "nope.pdf" m1 = (Ok tt, m2, ev2)
    /\ add_doc_outcome two_files_env "nope.pdf" m1 m2 ev2
    /\ for_each ["a.pdf"%string] (add_doc_step two_files_env) m2
       = (Ok tt, m3, ev3)
    /\ handle_add_doc two_files_env "a.pdf nope.pdf a.pdf" temporary_machine
       = (Ok tt, m3, ev1 ++ ev2 ++ ev3).
Proof.
  apply (add_doc_processes_paths_in_order two_files_env
           "a.pdf nope.pdf a.pdf"
           ["a.pdf"%string; "nope.pdf"%string; "a.pdf"%string]
           temporary_machine);
    try reflexivity.
  discriminate.
Defined.

(** *** Idempotence and absence of duplicates *)





Lemma staged_after_NoDup (env : Env) (files_to_add staged : list string) :
  NoDup staged -> NoDup (staged_after env files_to_add staged).
Proof.
  revert staged. induction files_to_add as [| p ps IH]; intros staged Hnd.
  - exact Hnd.
  - cbn [staged_after].
    destruct (path_exists env p && path_isfile env p); [| apply IH, Hnd].
    destruct (PyStr.mem (path_abspath env p) staged) eqn:Hmem;
      [apply IH, Hnd |].
    apply IH. apply mem_false_not_In in Hmem.
    apply NoDup_rev in Hnd. rewrite <- (rev_involutive (staged ++ _)).
    apply NoDup_rev. rewrite rev_app_distr. cbn [rev List.app].
    constructor; [| exact Hnd].
    rewrite <- in_rev. exact Hmem.
Qed.






(** ** Setting the persistent context *)

(** [set_docs] in persistent mode, as a function of its argument: the
    context is replaced before the confirmation is printed. *)
Lemma handle_set_docs_persistent
  (env : Env) (args_str : string) (m : machine) :
  mode (session m) = "persistent"%string ->
  handle_set_docs env args_str m =
    if negb (PyStr.truthy args_str) || String.eqb (PyStr.strip args_str) "*"
    then (Ok tt, with_session (set_persistent_docs_context [] (session m)) m,
          [Print MsgPersistentContextCleared])
    else match Shlex.split args_str with
         | inl e => (Raise (ValueError e), m, [])
         | inr words =>
             printed env (MsgPersistentContextSet words)
               (with_session
                  (set_persistent_docs_context words (session m)) m)
         end.
Proof.
  intros Hmode. unfold handle_set_docs.
  unfold bind at 1. unfold get_app. cbv beta iota.
  rewrite Hmode. change (String.eqb "persistent" "persistent") with true.
  cbn [negb].
  destruct (negb (PyStr.truthy args_str)
            || String.eqb (PyStr.strip args_str) "*");
    [reflexivity |].
  destruct (Shlex.split args_str) as [e | words]; [reflexivity |].
  unfold bind, modify_app, modify. rewrite print_run.
  unfold printed. destruct (renders env _); reflexivity.
Qed.

(** C6, as amended.  In persistent mode, for every argument string: the
    empty string, and any string that trims to the wildcard, empty the
    context; any other string that [shlex.split] splits replaces the
    context by its words, in order, quoted substrings being single words.
    The replacement is made before the confirmation is printed: the
    command returns with that message, or, when rich rejects the markup
    of a word, ends with [MarkupError], and the context is replaced all
    the same.  The argument made of the quoted name [a b.pdf] followed by
    [c.pdf] gives exactly these two entries.  (Strings that [shlex.split]
    rejects are left out of the statement.) *)
Theorem set_docs_clears_or_sets_context
  (env : Env) (args_str : string) (m : machine) :
  mode (session m) = "persistent"%string ->
  (args_str = ""%string \/ PyStr.strip args_str = "*"%string ->
   handle_set_docs env args_str m
     = (Ok tt, with_session (set_persistent_docs_context [] (session m)) m,
        [Print MsgPersistentContextCleared]))
  /\
  (forall words,
     args_str <> ""%string -> PyStr.strip args_str <> "*"%string ->
     Shlex.split args_str = inr words ->
     handle_set_docs env args_str m
       = printed env (MsgPersistentContextSet words)
           (with_session (set_persistent_docs_context words (session m)) m)
     /\ state_of (handle_set_docs env args_str m)
        = with_session (set_persistent_docs_context words (session m)) m
     /\ set_docs_replaces_context env args_str m)
  /\
  handle_set_docs env quoted_args m
    = (Ok tt,
       with_session
         (set_persistent_docs_context ["a b.pdf"%string; "c.pdf"%string]
            (session m)) m,
       [Print (MsgPersistentContextSet ["a b.pdf"%string; "c.pdf"%string])]).
Proof.
  intros Hmode.
  split; [| split].
  - intros Hclear. rewrite (handle_set_docs_persistent env _ m Hmode).
    destruct Hclear as [-> | Hstar]; [reflexivity |].
    rewrite Hstar. rewrite orb_true_r. reflexivity.
  - intros words Hne Hnostar Hsplit.
    assert (Hrun : handle_set_docs env args_str m
                   = printed env (MsgPersistentContextSet words)
                       (with_session
                          (set_persistent_docs_context words (session m)) m)).
    { rewrite (handle_set_docs_persistent env _ m Hmode).
      destruct args_str as [| c rest]; [congruence |].
      cbn [PyStr.truthy negb orb].
      apply String.eqb_neq in Hnostar. rewrite Hnostar, Hsplit. reflexivity. }
    assert (Hstate : state_of (handle_set_docs env args_str m)
                     = with_session
                         (set_persistent_docs_context words (session m)) m).
    { rewrite Hrun. unfold printed. destruct (renders env _); reflexivity. }
    split; [exact Hrun |]. split; [exact Hstate |].
    exists words. split; [exact Hsplit |]. rewrite Hstate. reflexivity.
  - rewrite (handle_set_docs_persistent env _ m Hmode). reflexivity.
Qed.

(** The wildcard with spaces around it, two plain names, and a word that
    reads as a closing tag: the context is replaced and the command
    raises at its confirmation. *)
Lemma set_docs_witness :
  handle_set_docs offline_env " * " context_machine
  = (Ok tt, fresh_machine, [Print MsgPersistentContextCleared])
  /\
  handle_set_docs offline_env "a.pdf b.pdf" context_machine
  = (Ok tt,
     with_session
       (set_persistent_docs_context ["a.pdf"%string; "b.pdf"%string]
          APP_STATE) fresh_machine,
     [Print (MsgPersistentContextSet ["a.pdf"%string; "b.pdf"%string])])
  /\
  handle_set_docs offline_env "[/x]" context_machine
  = (Raise MarkupError,
     with_session (set_persistent_docs_context ["[/x]"%string] APP_STATE)
       fresh_machine,
     []).
Proof.
  split; [| split].
  - apply (proj1 (set_docs_clears_or_sets_context offline_env " * "
                    context_machine eq_refl)).
    right. reflexivity.
  - exact (proj1 (proj1 (proj2 (set_docs_clears_or_sets_context offline_env
                                  "a.pdf b.pdf" context_machine eq_refl))
                    ["a.pdf"%string; "b.pdf"%string]
                    ltac:(discriminate) ltac:(vm_compute; discriminate)
                    eq_refl)).
  - exact (proj1 (proj1 (proj2 (set_docs_clears_or_sets_context offline_env
                                  "[/x]" context_machine eq_refl))
                    ["[/x]"%string]
                    ltac:(discriminate) ltac:(vm_compute; discriminate)
                    eq_refl)).
Defined.

(** C6 as stated fails on an argument with an unclosed quotation: it is
    neither empty nor the wildcard, yet [shlex.split] raises, the command
    ends with [ValueError] and the context stays what it was. *)
Lemma set_docs_unclosed_quote_counterexample :
  mode (session context_machine) = "persistent"%string
  /\ unclosed_args <> ""%string
  /\ PyStr.strip unclosed_args <> "*"%string
  /\ handle_set_docs offline_env unclosed_args context_machine
     = (Raise (ValueError Shlex.NoClosingQuotation), context_machine, [])
  /\ ~ set_docs_replaces_context offline_env unclosed_args context_machine.
Proof.
  split; [reflexivity |]. split; [discriminate |].
  split; [vm_compute; discriminate |]. split; [reflexivity |].
  intros [words [Hsplit _]]. vm_compute in Hsplit. discriminate.
Qed.

(** ** File handles of an upload query *)

Lemma opens_app (a b : list event) : opens (a ++ b) = opens a ++ opens b.
Proof. unfold opens. apply flat_map_app. Qed.

Lemma closes_app (a b : list event) : closes (a ++ b) = closes a ++ closes b.
Proof. unfold closes. apply flat_map_app. Qed.

Lemma opens_FileOpen (hs : list file_handle) : opens (map FileOpen hs) = hs.
Proof.
  induction hs as [| h hs IH]; [reflexivity |].
  change (h :: opens (map FileOpen hs) = h :: hs). rewrite IH. reflexivity.
Qed.

Lemma closes_FileOpen (hs : list file_handle) : closes (map FileOpen hs) = [].
Proof. induction hs as [| h hs IH]; cbn; [reflexivity | exact IH]. Qed.

Lemma opens_FileClose (hs : list file_handle) : opens (map FileClose hs) = [].
Proof. induction hs as [| h hs IH]; cbn; [reflexivity | exact IH]. Qed.

Lemma closes_FileClose (hs : list file_handle) :
  closes (map FileClose hs) = hs.
Proof.
  induction hs as [| h hs IH]; [reflexivity |].
  change (h :: closes (map FileClose hs) = h :: hs). rewrite IH. reflexivity.
Qed.

(** Handles are numbered upwards from [n]. *)
Lemma opened_handles_hid (env : Env) (paths : list string) (n : nat) :
  forall h, In h (opened_handles env n paths) -> n <= hid h.
Proof.
  revert n. induction paths as [| p ps IH]; intros n h Hin.
  - contradiction.
  - cbn [opened_handles] in Hin. destruct (can_open env p); [| contradiction].
    destruct Hin as [<- | Hin]; [cbn; lia |].
    apply IH in Hin. lia.
Qed.

Lemma opened_handles_NoDup (env : Env) (paths : list string) (n : nat) :
  NoDup (opened_handles env n paths).
Proof.
  revert n. induction paths as [| p ps IH]; intros n.
  - constructor.
  - cbn [opened_handles]. destruct (can_open env p); [| constructor].
    constructor; [| apply IH].
    intros Hin. apply opened_handles_hid in Hin. cbn in Hin. lia.
Qed.

(** When every staged path opens, there is one handle per path, in order. *)
Lemma opened_handles_paths (env : Env) (paths : list string) (n : nat) :
  forallb (can_open env) paths = true ->
  map hpath (opened_handles env n paths) = paths.
Proof.
  revert n. induction paths as [| p ps IH]; intros n Hall.
  - reflexivity.
  - cbn [forallb] in Hall. apply andb_true_iff in Hall as [Hp Hps].
    cbn [opened_handles]. rewrite Hp. cbn [map hpath]. rewrite IH by exact Hps.
    reflexivity.
Qed.

(** The cleanup loop closes each handle of the list once, in order. *)
Lemma close_all_run {S} (hs : list file_handle) (s : S) :
  for_each hs close s = (Ok tt, s, map FileClose hs).
Proof.
  revert s. induction hs as [| h hs IH]; intros s.
  - reflexivity.
  - cbn [for_each map]. unfold bind. unfold close at 1. unfold emit.
    cbv beta iota. rewrite IH. reflexivity.
Qed.

(** One staged path: opened and recorded, or [OSError] with the locals
    untouched. *)
Lemma open_staged_file_run
  (env : Env) (p : string) (m : machine) (l : upload_locals) :
  let h := {| hid := length (file_handles l); hpath := p |} in
  open_staged_file env p (m, l) =
    if can_open env p
    then (Ok tt,
          (m, {| files_payload := files_payload l ++ [file_part env h];
                 file_handles := file_handles l ++ [h] |}),
          [FileOpen h])
    else (Raise OSError, (m, l), []).
Proof.
  intros h. unfold open_staged_file, open_rb.
  destruct (can_open env p); reflexivity.
Qed.

(** The opening loop: it opens the paths in order and stops, raising
    [OSError], at the first that cannot be opened; the locals hold exactly
    the handles opened so far. *)
Lemma open_staged_run
  (env : Env) (paths : list string) (m : machine) (l : upload_locals) :
  let hs := opened_handles env (length (file_handles l)) paths in
  for_each paths (open_staged_file env) (m, l) =
    (if forallb (can_open env) paths then Ok tt else Raise OSError,
     (m, {| files_payload := files_payload l ++ map (file_part env) hs;
            file_handles := file_handles l ++ hs |}),
     map FileOpen hs).
Proof.
  revert l. induction paths as [| p ps IH]; intros l hs.
  - subst hs. cbn. rewrite !app_nil_r. destruct l; reflexivity.
  - subst hs. cbn [for_each opened_handles forallb].
    unfold bind. rewrite open_staged_file_run.
    destruct (can_open env p) eqn:Hopen.
    + rewrite IH. cbn [files_payload file_handles andb map].
      rewrite length_app. cbn [length]. rewrite Nat.add_1_r.
      rewrite <- !app_assoc. reflexivity.
    + cbn. rewrite !app_nil_r. destruct l; reflexivity.
Qed.

(** The exits of what a query function makes of a response. *)
Lemma response_run_exits (env : Env) (r : http_result) :
  fst (response_run env r) = Ok tt
  \/ fst (response_run env r) = Raise AttributeError
  \/ fst (response_run env r) = Raise MarkupError.
Proof.
  unfold response_run. destruct r as [| resp]; [left; reflexivity |].
  destruct (json resp) as [body |]; [| left; reflexivity].
  destruct (status_code resp =? 200)%Z; [left; reflexivity |].
  destruct body; try (right; left; reflexivity).
  destruct (renders env _); [left | right; right]; reflexivity.
Qed.

(** A request followed by the display of its response, under the
    [except RequestException] of the two query functions: one request,
    then what the response gives. *)
Lemma guarded_request_run {S} (env : Env) (req : request) (s : S) :
  try_except
    (response <- requests env req ;; show_response env response)
    is_RequestException
    (print env MsgConnectionError) s
  = (fst (response_run env (backend env req)), s,
     Http req :: snd (response_run env (backend env req))).
Proof.
  unfold try_except, bind, requests, show_response, response_run.
  destruct (backend env req) as [| resp]; [reflexivity |].
  unfold bind, response_json, display_structured_response, ret, raise.
  destruct (json resp) as [body |];
    [| destruct (status_code resp =? 200)%Z; reflexivity].
  destruct (status_code resp =? 200)%Z; [reflexivity |].
  destruct body; try reflexivity.
  unfold dict_get, ret. rewrite print_run. unfold printed.
  destruct (renders env _); reflexivity.
Qed.

(** How [try], [finally] and the locals compose with a first step whose
    run is known. *)
Lemma try_except_bind_ok {S A B}
  (first : M S A) (rest : A -> M S B) (caught : exn -> bool)
  (handler : M S B) (s s1 : S) (a : A) (ev1 : list event) :
  first s = (Ok a, s1, ev1) ->
  try_except (x <- first ;; rest x) caught handler s =
    let '(r, s2, ev2) := try_except (rest a) caught handler s1 in
    (r, s2, ev1 ++ ev2).
Proof.
  intros Hfirst. unfold try_except, bind. rewrite Hfirst.
  destruct (rest a s1) as [[[b | e] s2] ev2]; [reflexivity |].
  destruct (caught e); [| reflexivity].
  destruct (handler s2) as [[r s3] ev3]. rewrite app_assoc. reflexivity.
Qed.

Lemma try_except_bind_raise {S A B}
  (first : M S A) (rest : A -> M S B) (caught : exn -> bool)
  (handler : M S B) (s s1 : S) (e : exn) (ev1 : list event) :
  first s = (Raise e, s1, ev1) ->
  caught e = false ->
  try_except (x <- first ;; rest x) caught handler s = (Raise e, s1, ev1).
Proof.
  intros Hfirst Hcaught. unfold try_except, bind.
  rewrite Hfirst, Hcaught. reflexivity.
Qed.

Lemma try_except_get_locals {S L A}
  (rest : L -> M (S * L) A) (caught : exn -> bool)
  (handler : M (S * L) A) (sl : S * L) :
  try_except (l <- get_locals ;; rest l) caught handler sl
    = try_except (rest (snd sl)) caught handler sl.
Proof.
  unfold try_except, bind, get_locals.
  destruct (rest (snd sl) sl) as [[[a | e] s2] ev2]; reflexivity.
Qed.

Lemma try_finally_run {S A}
  (body : M S A) (cleanup : M S unit) (s s1 s2 : S) (r : result A)
  (ev1 ev2 : list event) :
  body s = (r, s1, ev1) ->
  cleanup s1 = (Ok tt, s2, ev2) ->
  try_finally body cleanup s = (r, s2, ev1 ++ ev2).
Proof.
  intros Hbody Hcleanup. unfold try_finally. rewrite Hbody, Hcleanup.
  reflexivity.
Qed.

(** The cleanup of [handle_temporary_query] closes the recorded handles. *)
Lemma cleanup_run {S} (s : S) (l : upload_locals) :
  (l' <- get_locals ;; for_each (file_handles l') close) (s, l)
    = (Ok tt, (s, l), map FileClose (file_handles l)).
Proof.
  unfold bind, get_locals. cbn [snd]. rewrite close_all_run. reflexivity.
Qed.

(** The whole upload query when something is staged. *)
Lemma handle_temporary_query_run (env : Env) (query : string) (m : machine) :
  temp_docs_to_upload (session m) <> [] ->
  let staged := temp_docs_to_upload (session m) in
  let hs := opened_handles env 0 staged in
  let answer := response_run env
                  (backend env (upload_request env (session m) query hs)) in
  handle_temporary_query env query m =
    if forallb (can_open env) staged
    then (fst answer, m,
          (map FileOpen hs
             ++ Http (upload_request env (session m) query hs) :: snd answer)
            ++ map FileClose hs)
    else (Raise OSError, m, map FileOpen hs ++ map FileClose hs).
Proof.
  intros Hstaged staged hs answer. unfold handle_temporary_query.
  unfold bind at 1. unfold get_app. cbv beta iota. fold staged.
  replace (truthy_list staged) with true
    by (subst staged; destruct (temp_docs_to_upload (session m));
        [contradiction | reflexivity]).
  cbn [negb]. unfold with_locals.
  pose proof (open_staged_run env staged m
                {| files_payload := []; file_handles := [] |}) as Hopen.
  cbn [files_payload file_handles length List.app] in Hopen. fold hs in Hopen.
  set (l1 := {| files_payload := map (file_part env) hs;
                file_handles := hs |}) in Hopen.
  destruct (forallb (can_open env) staged) eqn:Hall.
  - match goal with
    | |- context [try_finally ?body ?cleanup ?s] =>
        assert (Hbody : body s =
                  (fst answer, (m, l1),
                   map FileOpen hs
                     ++ Http (upload_request env (session m) query hs)
                          :: snd answer))
    end.
    { erewrite try_except_bind_ok; [| exact Hopen].
      rewrite try_except_get_locals. cbn [snd files_payload l1].
      rewrite guarded_request_run. reflexivity. }
    rewrite (try_finally_run _ _ _ _ _ _ _ _ Hbody (cleanup_run m l1)).
    reflexivity.
  - match goal with
    | |- context [try_finally ?body ?cleanup ?s] =>
        assert (Hbody : body s = (Raise OSError, (m, l1), map FileOpen hs))
    end.
    { eapply try_except_bind_raise; [exact Hopen | reflexivity]. }
    rewrite (try_finally_run _ _ _ _ _ _ _ _ Hbody (cleanup_run m l1)).
    reflexivity.
Qed.

Lemma opens_response (env : Env) (r : http_result) :
  opens (snd (response_run env r)) = []
  /\ closes (snd (response_run env r)) = []
  /\ requests_of (snd (response_run env r)) = [].
Proof.
  unfold response_run. destruct r as [| resp]; [repeat split |].
  destruct (json resp) as [body |]; [| repeat split].
  destruct (status_code resp =? 200)%Z; [repeat split |].
  destruct body; try (repeat split; fail).
  destruct (renders env _); repeat split.
Qed.

Lemma requests_of_app (a b : list event) :
  requests_of (a ++ b) = requests_of a ++ requests_of b.
Proof. unfold requests_of. apply flat_map_app. Qed.

Lemma requests_of_FileOpen (hs : list file_handle) :
  requests_of (map FileOpen hs) = [].
Proof. induction hs as [| h hs IH]; cbn; [reflexivity | exact IH]. Qed.

Lemma requests_of_FileClose (hs : list file_handle) :
  requests_of (map FileClose hs) = [].
Proof. induction hs as [| h hs IH]; cbn; [reflexivity | exact IH]. Qed.

(** C7. For every host, query and machine, in the events of an upload
    query: all closes come at the end, after all the work (opens, request,
    message), and they close exactly the handles that were opened, each
    handle being a distinct object; so every opened handle is closed
    exactly once, on every exit.  The session is left as it was.  The
    exits are: a normal return (a 200, another status whose detail is
    shown, no response); [OSError] when some staged path cannot be
    opened, no request being issued then; [AttributeError] when the body
    of a response with another status is no object; [MarkupError] when
    rich rejects the detail of such a response.  When every staged path
    opens there is exactly one request, with all the files, and the exit
    is the one its response gives. *)
Theorem temporary_query_closes_every_handle_once
  (env : Env) (query : string) (m : machine) :
  let run := handle_temporary_query env query m in
  let staged := temp_docs_to_upload (session m) in
  (exists work,
     events_of run = work ++ map FileClose (opens work)
     /\ closes work = [] /\ NoDup (opens work))
  /\ closes (events_of run) = opens (events_of run)
  /\ (forall h, In h (opens (events_of run)) ->
        count_occ file_handle_eq_dec (closes (events_of run)) h = 1)
  /\ state_of run = m
  /\ (outcome_of run = Ok tt \/ outcome_of run = Raise OSError
      \/ outcome_of run = Raise AttributeError
      \/ outcome_of run = Raise MarkupError)
  /\ (forallb (can_open env) staged = false ->
      outcome_of run = Raise OSError /\ no_network_call (events_of run))
  /\ (forallb (can_open env) staged = true -> staged <> [] ->
      let req := upload_request env (session m) query
                   (opened_handles env 0 staged) in
      requests_of (events_of run) = [req]
      /\ map hpath (opens (events_of run)) = staged
      /\ outcome_of run = fst (response_run env (backend env req))).
Proof.
  intros run staged.
  assert (Hshape : exists work,
            events_of run = work ++ map FileClose (opens work)
            /\ closes work = [] /\ NoDup (opens work)
            /\ state_of run = m
            /\ (outcome_of run = Ok tt \/ outcome_of run = Raise OSError
                \/ outcome_of run = Raise AttributeError
                \/ outcome_of run = Raise MarkupError)
            /\ (forallb (can_open env) staged = false ->
                outcome_of run = Raise OSError /\ no_network_call work)
            /\ (forallb (can_open env) staged = true -> staged <> [] ->
                let req := upload_request env (session m) query
                             (opened_handles env 0 staged) in
                requests_of work = [req]
                /\ map hpath (opens work) = staged
                /\ outcome_of run = fst (response_run env (backend env req)))).
  { assert (Hcase : staged = [] \/ staged <> []).
    { destruct staged; [left; reflexivity | right; discriminate]. }
    destruct Hcase as [Hempty | Hne].
    - (* nothing staged: one message, no handle *)
      exists [Print MsgNoDocumentsStaged]. subst run.
      rewrite (handle_temporary_query_nothing_staged env query m Hempty).
      rewrite Hempty. cbn.
      repeat split; try reflexivity; try constructor; try discriminate;
        try congruence.
    - pose proof (handle_temporary_query_run env query m Hne) as Hrun.
      cbv zeta in Hrun. fold staged in Hrun.
      set (hs := opened_handles env 0 staged) in *.
      set (req := upload_request env (session m) query hs) in *.
      destruct (opens_response env (backend env req)) as [Hro [Hrc Hrr]].
      destruct (forallb (can_open env) staged) eqn:Hall.
      + exists (map FileOpen hs
                  ++ Http req :: snd (response_run env (backend env req))).
        subst run. rewrite Hrun. cbn [events_of state_of outcome_of fst snd].
        assert (Hopens : opens (map FileOpen hs
                                  ++ Http req
                                       :: snd (response_run env
                                                 (backend env req)))
                         = hs).
        { rewrite opens_app, opens_FileOpen.
          change (opens (Http req :: ?l)) with (opens l).
          rewrite Hro, app_nil_r. reflexivity. }
        rewrite Hopens.
        split; [reflexivity |].
        split.
        { rewrite closes_app, closes_FileOpen.
          change (closes (Http req :: ?l)) with (closes l). exact Hrc. }
        split; [apply opened_handles_NoDup |].
        split; [reflexivity |].
        split.
        { destruct (response_run_exits env (backend env req))
            as [H | [H | H]]; rewrite H; auto. }
        split; [discriminate |].
        intros _ _. cbv zeta.
        split.
        { rewrite requests_of_app, requests_of_FileOpen.
          change (requests_of (Http req :: ?l)) with (req :: requests_of l).
          rewrite Hrr. reflexivity. }
        split; [apply opened_handles_paths; exact Hall | reflexivity].
      + exists (map FileOpen hs). subst run. rewrite Hrun.
        cbn [events_of state_of outcome_of fst snd].
        rewrite opens_FileOpen, closes_FileOpen.
        split; [reflexivity |]. split; [reflexivity |].
        split; [apply opened_handles_NoDup |].
        split; [reflexivity |].
        split; [right; left; reflexivity |].
        split; [| discriminate].
        intros _. split; [reflexivity |].
        intros r Hin. apply in_map_iff in Hin as [h [Hh _]]. discriminate. }
  destruct Hshape as [work [Hev [Hcl [Hnd [Hst [Hexits [Hfail Hok]]]]]]].
  assert (Hopens : opens (events_of run) = opens work).
  { rewrite Hev, opens_app, opens_FileClose, app_nil_r. reflexivity. }
  assert (Hcloses : closes (events_of run) = opens work).
  { rewrite Hev, closes_app, closes_FileClose, Hcl. reflexivity. }
  split; [exists work; auto |].
  split; [congruence |].
  split.
  { intros h Hin. rewrite Hcloses. rewrite Hopens in Hin.
    apply NoDup_count_occ'; assumption. }
  split; [exact Hst |].
  split; [exact Hexits |].
  split.
  - intros Hall. destruct (Hfail Hall) as [Hout Hnet].
    split; [exact Hout |].
    intros r Hin. rewrite Hev in Hin. apply in_app_or in Hin as [Hin | Hin].
    + exact (Hnet r Hin).
    + apply in_map_iff in Hin as [h [Hh _]]. discriminate.
  - intros Hall Hne. destruct (Hok Hall Hne) as [Hreq [Hpaths Hout]].
    cbv zeta. rewrite Hopens, Hev, requests_of_app, requests_of_FileClose,
      app_nil_r.
    auto.
Qed.

(** Two staged files of which the second cannot be opened any more: the
    first is opened and closed, nothing is sent, [OSError] goes up.  Two
    staged files sent to a backend that answers with a 422 whose body is
    a list: [AttributeError] goes up after both files are closed. *)
Lemma temporary_query_open_failure_witness :
  handle_temporary_query one_unreadable_env "covered?" two_staged_machine
  = (Raise OSError, two_staged_machine,
     [FileOpen {| hid := 0; hpath := "/cwd/a.pdf" |};
      FileClose {| hid := 0; hpath := "/cwd/a.pdf" |}])
  /\ handle_temporary_query refusing_env "covered?" two_staged_machine
     = (Raise AttributeError, two_staged_machine,
        [FileOpen {| hid := 0; hpath := "/cwd/a.pdf" |};
         FileOpen {| hid := 1; hpath := "/cwd/b.pdf" |};
         Http (PostEvaluateWithDocs (JString "t") "covered?"
                 [("a.pdf"%string, {| hid := 0; hpath := "/cwd/a.pdf" |});
                  ("b.pdf"%string, {| hid := 1; hpath := "/cwd/b.pdf" |})]);
         FileClose {| hid := 0; hpath := "/cwd/a.pdf" |};
         FileClose {| hid := 1; hpath := "/cwd/b.pdf" |}])
  /\ outcome_of (handle_temporary_query one_unreadable_env "covered?"
                   two_staged_machine) = Raise OSError
  /\ no_network_call
       (events_of (handle_temporary_query one_unreadable_env "covered?"
                     two_staged_machine)).
Proof.
  split; [reflexivity |]. split; [reflexivity |].
  apply (proj1 (proj2 (proj2 (proj2 (proj2 (proj2
           (temporary_query_closes_every_handle_once one_unreadable_env
              "covered?" two_staged_machine))))))).
  reflexivity.
Defined.

(** ** What a computation leaves alone *)

Lemma state_of_printed {S} (env : Env) (msg : message) (s : S) :
  state_of (printed env msg s) = s.
Proof. unfold printed. destruct (renders env msg); reflexivity. Qed.

Section Preservation.

Context {B : Type} (R : B -> B -> Prop).
Hypothesis R_refl : forall b, R b b.
Hypothesis R_trans : forall a b c, R a b -> R b c -> R a c.

Lemma preserves_ret {S A} (f : S -> B) (a : A) : preserves R f (ret a).
Proof. intros s. apply R_refl. Qed.

Lemma preserves_raise {S A} (f : S -> B) (e : exn) :
  preserves R f (@raise S A e).
Proof. intros s. apply R_refl. Qed.

Lemma preserves_emit {S} (f : S -> B) (e : event) : preserves R f (emit e).
Proof. intros s. apply R_refl. Qed.

Lemma preserves_print {S} (f : S -> B) (env : Env) (msg : message) :
  preserves R f (print env msg).
Proof. intros s. unfold print. destruct (renders env msg); apply R_refl. Qed.

Lemma preserves_get {S} (f : S -> B) : preserves R f (@get S).
Proof. intros s. apply R_refl. Qed.

Lemma preserves_modify {S} (f : S -> B) (g : S -> S) :
  (forall s, R (f (g s)) (f s)) -> preserves R f (modify g).
Proof. intros Hg s. apply Hg. Qed.

Lemma preserves_bind {S A A'} (f : S -> B) (c : M S A) (k : A -> M S A') :
  preserves R f c -> (forall a, preserves R f (k a)) -> preserves R f (bind c k).
Proof.
  intros Hc Hk s. unfold bind, state_of.
  pose proof (Hc s) as H1. unfold state_of in H1.
  destruct (c s) as [[[a | e] s1] ev1]; cbn [fst snd] in *; [| exact H1].
  pose proof (Hk a s1) as H2. unfold state_of in H2.
  destruct (k a s1) as [[r s2] ev2]; cbn [fst snd] in *.
  eapply R_trans; eassumption.
Qed.

Lemma preserves_try_except {S A} (f : S -> B) (body handler : M S A)
  (caught : exn -> bool) :
  preserves R f body -> preserves R f handler ->
  preserves R f (try_except body caught handler).
Proof.
  intros Hb Hh s. unfold try_except, state_of.
  pose proof (Hb s) as H1. unfold state_of in H1.
  destruct (body s) as [[[a | e] s1] ev1]; cbn [fst snd] in *; [exact H1 |].
  destruct (caught e); [| exact H1].
  pose proof (Hh s1) as H2. unfold state_of in H2.
  destruct (handler s1) as [[r s2] ev2]; cbn [fst snd] in *.
  eapply R_trans; eassumption.
Qed.

Lemma preserves_try_finally {S A} (f : S -> B) (body : M S A)
  (cleanup : M S unit) :
  preserves R f body -> preserves R f cleanup ->
  preserves R f (try_finally body cleanup).
Proof.
  intros Hb Hc s. unfold try_finally, state_of.
  pose proof (Hb s) as H1. unfold state_of in H1.
  destruct (body s) as [[r s1] ev1]; cbn [fst snd] in *.
  pose proof (Hc s1) as H2. unfold state_of in H2.
  destruct (cleanup s1) as [[[[] | e] s2] ev2]; cbn [fst snd] in *;
    eapply R_trans; eassumption.
Qed.

Lemma preserves_for_each {S X} (f : S -> B) (xs : list X)
  (body : X -> M S unit) :
  (forall x, preserves R f (body x)) -> preserves R f (for_each xs body).
Proof.
  intros Hbody. induction xs as [| x xs IH].
  - apply preserves_ret.
  - cbn [for_each]. apply preserves_bind; [apply Hbody | intros _; exact IH].
Qed.

Lemma preserves_with_locals {S L A} (f : S -> B) (l0 : L)
  (body : M (S * L) A) :
  preserves R (fun sl => f (fst sl)) body -> preserves R f (with_locals l0 body).
Proof.
  intros Hb s. unfold with_locals, state_of.
  pose proof (Hb (s, l0)) as H1. unfold state_of in H1.
  destruct (body (s, l0)) as [[r [s1 l1]] ev1]. exact H1.
Qed.

Lemma preserves_get_locals {S L} (f : S -> B) :
  preserves R (fun sl : S * L => f (fst sl)) get_locals.
Proof. intros s. apply R_refl. Qed.

Lemma preserves_modify_locals {S L} (f : S -> B) (g : L -> L) :
  preserves R (fun sl : S * L => f (fst sl)) (modify_locals g).
Proof. intros s. apply R_refl. Qed.

Lemma preserves_response_json {S} (f : S -> B) (r : response) :
  preserves R f (response_json r).
Proof.
  unfold response_json. destruct (json r);
    [apply preserves_ret | apply preserves_raise].
Qed.

Lemma preserves_dict_get {S} (f : S -> B) (body : json_value)
  (key : string) (default : json_value) :
  preserves R f (dict_get body key default).
Proof. intros s. destruct body; apply R_refl. Qed.

Lemma preserves_subscript {S} (f : S -> B) (body : json_value)
  (key : string) :
  preserves R f (subscript body key).
Proof.
  intros s. destruct body; try apply R_refl.
  unfold subscript. destruct (member key members); apply R_refl.
Qed.

Lemma preserves_requests {S} (f : S -> B) (env : Env) (r : request) :
  preserves R f (requests env r).
Proof.
  intros s. unfold requests. destruct (backend env r); apply R_refl.
Qed.

Lemma preserves_get_app (f : machine -> B) : preserves R f get_app.
Proof. intros s. apply R_refl. Qed.

End Preservation.

(** Breaks a computation into its primitive steps; [Hrefl] and [Htrans]
    are reflexivity and transitivity of the relation. *)
Ltac preserve_with Hrefl Htrans :=
  repeat first
    [ apply (preserves_ret _ Hrefl)
    | apply (preserves_raise _ Hrefl)
    | apply (preserves_print _ Hrefl)
    | apply (preserves_emit _ Hrefl)
    | apply (preserves_get _ Hrefl)
    | apply (preserves_get_app _ Hrefl)
    | apply (preserves_get_locals _ Hrefl)
    | apply (preserves_modify_locals _ Hrefl)
    | apply (preserves_response_json _ Hrefl)
    | apply (preserves_dict_get _ Hrefl)
    | apply (preserves_subscript _ Hrefl)
    | apply (preserves_requests _ Hrefl)
    | apply (preserves_bind _ Htrans); [| intros ?]
    | apply (preserves_try_except _ Htrans)
    | apply (preserves_try_finally _ Htrans)
    | apply (preserves_for_each _ Hrefl Htrans); intros ?
    | apply preserves_with_locals
    | match goal with
      | |- preserves _ _ (if ?b then _ else _) => destruct b
      | |- preserves _ _ (match ?x with _ => _ end) => destruct x
      end ].

(** *** Handlers that leave the mode and both collections alone *)

Lemma eq_trans_after {B} (a b c : B) : a = b -> b = c -> a = c.
Proof. congruence. Qed.

Lemma console_input_docs : preserves eq docs_and_mode console_input.
Proof.
  intros m. unfold console_input.
  destruct (console_in m) as [| [line | |] rest]; reflexivity.
Qed.

Lemma set_token_docs (v : json_value) :
  preserves eq docs_and_mode (modify_app (set_token v)).
Proof. intros m. reflexivity. Qed.

Lemma set_user_email_docs (v : option string) :
  preserves eq docs_and_mode (modify_app (set_user_email v)).
Proof. intros m. reflexivity. Qed.

Ltac docs_untouched :=
  preserve_with (@eq_refl (string * list string * list string))
                (@eq_trans_after (string * list string * list string));
  try apply console_input_docs;
  try apply set_token_docs;
  try apply set_user_email_docs.

Lemma handle_help_docs (env : Env) (args : string) :
  preserves eq docs_and_mode (handle_help env args).
Proof. unfold handle_help. docs_untouched. Qed.

Lemma handle_login_docs (env : Env) (args : string) :
  preserves eq docs_and_mode (handle_login env args).
Proof. unfold handle_login. docs_untouched. Qed.

Lemma handle_register_docs (env : Env) (args : string) :
  preserves eq docs_and_mode (handle_register env args).
Proof. unfold handle_register. docs_untouched. Qed.

Lemma handle_list_docs_docs (env : Env) (args : string) :
  preserves eq docs_and_mode (handle_list_docs env args).
Proof. unfold handle_list_docs. docs_untouched. Qed.

Lemma handle_show_docs_docs (env : Env) (args : string) :
  preserves eq docs_and_mode (handle_show_docs env args).
Proof. unfold handle_show_docs. docs_untouched. Qed.

Lemma handle_query_docs (env : Env) (query_text : string) :
  preserves eq docs_and_mode (handle_query env query_text).
Proof.
  unfold handle_query, handle_persistent_query, handle_temporary_query,
    show_response, display_structured_response, open_staged_file, open_rb,
    close.
  docs_untouched.
Qed.

(** ** The collection of the other mode is empty *)

Lemma invariant_of_docs_and_mode (m m' : machine) :
  docs_and_mode m' = docs_and_mode m ->
  other_collection_empty (session m) ->
  other_collection_empty (session m').
Proof.
  unfold docs_and_mode, other_collection_empty.
  intros Heq Hinv. injection Heq as -> -> ->. exact Hinv.
Qed.

(** [mode], as a function of its argument. *)
Lemma handle_mode_switch_run (env : Env) (args_str : string) (m : machine) :
  handle_mode_switch env args_str m =
    if PyStr.mem (PyStr.lower (PyStr.strip args_str))
         ["persistent"%string; "temporary"%string]
    then (Ok tt,
          with_session
            (switched (PyStr.lower (PyStr.strip args_str)) (session m)) m,
          [Print (MsgModeSwitched (PyStr.lower (PyStr.strip args_str)))])
    else (Ok tt, m, [Print MsgInvalidMode]).
Proof.
  unfold handle_mode_switch.
  remember (PyStr.lower (PyStr.strip args_str)) as new_mode eqn:Hnew.
  destruct (PyStr.mem new_mode ["persistent"%string; "temporary"%string])
    eqn:Hmem; [| reflexivity].
  apply mem_In in Hmem. destruct Hmem as [<- | [<- | []]]; reflexivity.
Qed.

Lemma handle_mode_switch_invariant
  (env : Env) (args : string) (m : machine) :
  other_collection_empty (session m) ->
  other_collection_empty (session (state_of (handle_mode_switch env args m))).
Proof.
  intros Hinv. rewrite handle_mode_switch_run.
  destruct (PyStr.mem _ _); [| exact Hinv].
  split; intros _; reflexivity.
Qed.

Lemma handle_logout_invariant (env : Env) (args : string) (m : machine) :
  other_collection_empty (session (state_of (handle_logout env args m))).
Proof. split; intros _; reflexivity. Qed.

Lemma handle_set_docs_invariant (env : Env) (args : string) (m : machine) :
  other_collection_empty (session m) ->
  other_collection_empty (session (state_of (handle_set_docs env args m))).
Proof.
  intros Hinv.
  destruct (String.eqb (mode (session m)) "persistent") eqn:Hmode.
  - apply String.eqb_eq in Hmode.
    rewrite (handle_set_docs_persistent env args m Hmode).
    assert (Hset : forall words,
              other_collection_empty
                (set_persistent_docs_context words (session m))).
    { intros words. destruct Hinv as [Hp _]. split; cbn.
      - exact Hp.
      - intros Ht. rewrite Hmode in Ht. discriminate. }
    destruct (negb (PyStr.truthy args) || String.eqb (PyStr.strip args) "*");
      [apply Hset |].
    destruct (Shlex.split args) as [e | words]; [exact Hinv |].
    rewrite state_of_printed. apply Hset.
  - unfold handle_set_docs. unfold bind at 1. unfold get_app.
    cbv beta iota. rewrite Hmode. exact Hinv.
Qed.

Lemma handle_add_doc_invariant (env : Env) (args : string) (m : machine) :
  other_collection_empty (session m) ->
  other_collection_empty (session (state_of (handle_add_doc env args m))).
Proof.
  intros Hinv. unfold handle_add_doc.
  unfold bind at 1. unfold get_app. cbv beta iota.
  destruct (String.eqb (mode (session m)) "temporary") eqn:Hmode;
    [| exact Hinv].
  apply String.eqb_eq in Hmode. cbn [negb].
  destruct (negb (PyStr.truthy args)); [exact Hinv |].
  destruct (Shlex.split args) as [e | files_to_add]; [exact Hinv |].
  rewrite add_doc_loop_run. destruct Hinv as [_ Ht]. split; cbn.
  - intros Hp. rewrite Hmode in Hp. discriminate.
  - exact Ht.
Qed.

Lemma handle_clear_docs_invariant
  (env : Env) (args : string) (m : machine) :
  other_collection_empty (session m) ->
  other_collection_empty (session (state_of (handle_clear_docs env args m))).
Proof.
  intros [Hp Ht]. unfold handle_clear_docs.
  unfold bind at 1. unfold get_app. cbv beta iota.
  destruct (String.eqb (mode (session m)) "persistent") eqn:Hmode.
  - apply String.eqb_eq in Hmode. split; cbn; auto.
  - apply String.eqb_neq in Hmode. split; cbn; [contradiction | auto].
Qed.

(** Every entry of [COMMANDS] keeps the invariant. *)
Lemma command_invariant
  (env : Env) (key : string) (handler : string -> M machine unit)
  (args : string) (m : machine) :
  lookup (COMMANDS env) key = Some handler ->
  other_collection_empty (session m) ->
  other_collection_empty (session (state_of (handler args m))).
Proof.
  intros Hlookup Hinv. unfold COMMANDS in Hlookup. cbn [lookup] in Hlookup.
  repeat match type of Hlookup with
         | (if ?b then _ else _) = _ => destruct b
         end;
    try discriminate; injection Hlookup as <-.
  - eapply invariant_of_docs_and_mode; [apply handle_help_docs | exact Hinv].
  - apply handle_mode_switch_invariant, Hinv.
  - eapply invariant_of_docs_and_mode; [apply handle_register_docs | exact Hinv].
  - eapply invariant_of_docs_and_mode; [apply handle_login_docs | exact Hinv].
  - apply handle_logout_invariant.
  - eapply invariant_of_docs_and_mode; [apply handle_list_docs_docs | exact Hinv].
  - apply handle_set_docs_invariant, Hinv.
  - apply handle_add_doc_invariant, Hinv.
  - eapply invariant_of_docs_and_mode; [apply handle_show_docs_docs | exact Hinv].
  - apply handle_clear_docs_invariant, Hinv.
  - exact Hinv.
  - exact Hinv.
Qed.

Lemma invocation_invariant (s s' : AppState) :
  invocation s s' -> other_collection_empty s -> other_collection_empty s'.
Proof.
  intros Hstep Hinv. destruct Hstep as [env key handler args s typed Hl
                                        | env query_text s typed].
  - apply (command_invariant env key handler args
             {| session := s; console_in := typed |} Hl Hinv).
  - eapply invariant_of_docs_and_mode; [apply handle_query_docs | exact Hinv].
Qed.

(** C10. In every session reachable from the initial one by invocations
    of command handlers (any entry of [COMMANDS] on any arguments, or
    [handle_query] on any text, on any host, returning or raising), the
    collection of the mode that is not current is empty: in persistent
    mode nothing is staged, in temporary mode the persistent context is
    empty. *)
Theorem reachable_other_collection_empty (s : AppState) :
  reachable s ->
  (mode s = "persistent"%string -> temp_docs_to_upload s = [])
  /\ (mode s = "temporary"%string -> persistent_docs_context s = []).
Proof.
  intros Hreach. change (other_collection_empty s).
  induction Hreach as [| s s' _ IH Hstep].
  - split; intros _; reflexivity.
  - exact (invocation_invariant s s' Hstep IH).
Qed.

(** The session reached by switching to temporary mode and staging a file
    has an empty persistent context. *)
Lemma reachable_witness :
  (mode (session (state_of (handle_add_doc two_files_env "a.pdf"
                              temporary_machine))) = "persistent"%string ->
   temp_docs_to_upload
     (session (state_of (handle_add_doc two_files_env "a.pdf"
                           temporary_machine))) = [])
  /\
  (mode (session (state_of (handle_add_doc two_files_env "a.pdf"
                              temporary_machine))) = "temporary"%string ->
   persistent_docs_context
     (session (state_of (handle_add_doc two_files_env "a.pdf"
                           temporary_machine))) = []).
Proof.
  apply (reachable_other_collection_empty
           (session (state_of (handle_add_doc two_files_env "a.pdf"
                                 temporary_machine)))).
  eapply reachable_step.
  - eapply reachable_step.
    + apply reachable_init.
    + apply (invoke_command offline_env "mode"
               (handle_mode_switch offline_env) "temporary" APP_STATE []).
      reflexivity.
  - apply (invoke_command two_files_env "add_doc"
             (handle_add_doc two_files_env) "a.pdf"
             (switched "temporary" APP_STATE) []).
    reflexivity.
Defined.


(** ** Transport failures *)

(** A persistent query: one request, then what its response gives. *)
Lemma handle_persistent_query_run (env : Env) (query : string) (m : machine) :
  let req := PostEvaluate (token (session m)) query
               (persistent_docs_context (session m)) in
  handle_persistent_query env query m =
    (fst (response_run env (backend env req)), m,
     Http req :: snd (response_run env (backend env req))).
Proof.
  unfold handle_persistent_query. unfold bind at 1. unfold get_app.
  cbv beta iota. rewrite guarded_request_run. reflexivity.
Qed.

(** [login] without a response: the connection error is printed and the
    command returns, the session untouched. *)
Lemma handle_login_no_response
  (env : Env) (args email password : string) (s : AppState)
  (rest : list keyboard) :
  backend env (PostLogin email password) = NoResponse ->
  renders env (MsgConnectionErrorToApi (base_url env)) = true ->
  handle_login env args
    {| session := s; console_in := Typed email :: Typed password :: rest |}
  = (Ok tt, {| session := s; console_in := rest |},
     [Http (PostLogin email password);
      Print (MsgConnectionErrorToApi (base_url env))]).
Proof.
  intros Hdown Hrenders.
  unfold handle_login, bind, console_input, try_except, requests.
  cbn [console_in session]. rewrite Hdown. cbn [is_RequestException].
  rewrite print_run, (printed_renders _ _ _ Hrenders). reflexivity.
Qed.

(** [register] without a response: the exception of requests leaves the
    handler, nothing is printed. *)
Lemma handle_register_no_response
  (env : Env) (args userid email password : string) (s : AppState)
  (rest : list keyboard) :
  backend env (PostRegister userid email password) = NoResponse ->
  handle_register env args
    {| session := s;
       console_in := Typed userid :: Typed email :: Typed password :: rest |}
  = (Raise ConnectionError, {| session := s; console_in := rest |},
     [Http (PostRegister userid email password)]).
Proof.
  intros Hdown. unfold handle_register, bind, console_input, requests.
  cbn [console_in session]. rewrite Hdown. reflexivity.
Qed.

(** [list_docs] without a response, logged in and in persistent mode: the
    exception leaves the handler, nothing is printed. *)
Lemma handle_list_docs_no_response (env : Env) (args : string) (m : machine) :
  mode (session m) = "persistent"%string ->
  truthy_token (token (session m)) = true ->
  backend env (GetDocuments (token (session m))) = NoResponse ->
  handle_list_docs env args m
  = (Raise ConnectionError, m, [Http (GetDocuments (token (session m)))]).
Proof.
  intros Hmode Htok Hdown. unfold handle_list_docs.
  unfold bind at 1. unfold get_app. cbv beta iota.
  rewrite Hmode, Htok. change (String.eqb "persistent" "persistent") with true.
  cbn [negb]. unfold bind, requests. rewrite Hdown. reflexivity.
Qed.

(** C8, on the code.  With the backend unreachable: [login], a persistent
    query and an upload query print their connection error and return,
    leaving the session as it was; [register] and [list_docs] do not:
    the exception of requests leaves the handler with nothing printed,
    and [main], which catches exit signals only, ends with it, the next
    line ([help]) never being read. *)
Theorem transport_failure_escapes_register_and_list_docs :
  (forall (args email password : string) (s : AppState) (rest : list keyboard),
     handle_login offline_env args
       {| session := s; console_in := Typed email :: Typed password :: rest |}
     = (Ok tt, {| session := s; console_in := rest |},
        [Http (PostLogin email password);
         Print (MsgConnectionErrorToApi "http://localhost:8000")]))
  /\
  (forall (query : string) (m : machine),
     handle_persistent_query offline_env query m
     = (Ok tt, m,
        [Http (PostEvaluate (token (session m)) query
                 (persistent_docs_context (session m)));
         Print MsgConnectionError]))
  /\
  outcome_of (handle_temporary_query two_files_env "covered?"
                two_staged_machine) = Ok tt
  /\
  In (Print MsgConnectionError)
     (events_of (handle_temporary_query two_files_env "covered?"
                   two_staged_machine))
  /\
  (forall (args userid email password : string) (s : AppState)
          (rest : list keyboard),
     handle_register offline_env args
       {| session := s;
          console_in := Typed userid :: Typed email :: Typed password :: rest |}
     = (Raise ConnectionError, {| session := s; console_in := rest |},
        [Http (PostRegister userid email password)]))
  /\
  (forall (args : string) (typed : list keyboard),
     handle_list_docs offline_env args (logged_in_machine typed)
     = (Raise ConnectionError, logged_in_machine typed,
        [Http (GetDocuments (JString "t"))]))
  /\
  main offline_env
    {| session := APP_STATE;
       console_in := [Typed "register"; Typed "u"; Typed "e"; Typed "p";
                      Typed "help"] |}
  = (Raise ConnectionError,
     {| session := APP_STATE; console_in := [Typed "help"] |},
     [Print MsgWelcome; Http (PostRegister "u" "e" "p")])
  /\
  main offline_env (logged_in_machine [Typed "list_docs"; Typed "help"])
  = (Raise ConnectionError, logged_in_machine [Typed "help"],
     [Print MsgWelcome; Http (GetDocuments (JString "t"))]).
Proof.
  split; [| split; [| split; [| split; [| split; [| split; [| split]]]]]].
  - intros. apply (handle_login_no_response offline_env); reflexivity.
  - intros. rewrite handle_persistent_query_run. reflexivity.
  - reflexivity.
  - vm_compute. tauto.
  - intros. apply handle_register_no_response. reflexivity.
  - intros. apply handle_list_docs_no_response; reflexivity.
  - reflexivity.
  - reflexivity.
Qed.

(** ** What ends the loop *)

(** C9, on the code.  [exit], the end of the input and an interrupt leave
    the loop through its exit message.  A malformed argument string (an
    unclosed quotation after [add_doc]) and a staged file that cannot be
    opened at upload time do not: [ValueError] and [OSError] are not among
    the exceptions [main] catches, so [main] ends with them and the next
    line ([help]) is never read. *)
Theorem uncaught_errors_end_main :
  main offline_env
    {| session := APP_STATE; console_in := [Typed "exit"; Typed "help"] |}
  = (Ok Left_loop, {| session := APP_STATE; console_in := [Typed "help"] |},
     [Print MsgWelcome; Print MsgExiting])
  /\
  main offline_env fresh_machine
  = (Ok Left_loop, fresh_machine, [Print MsgWelcome; Print MsgExiting])
  /\
  main offline_env
    {| session := APP_STATE; console_in := [CtrlC; Typed "help"] |}
  = (Ok Left_loop, {| session := APP_STATE; console_in := [Typed "help"] |},
     [Print MsgWelcome; Print MsgExiting])
  /\
  main two_files_env
    {| session := APP_STATE;
       console_in := [Typed "mode temporary";
                      Typed ("add_doc " ++ unclosed_args)%string;
                      Typed "help"] |}
  = (Raise (ValueError Shlex.NoClosingQuotation),
     {| session := switched "temporary" APP_STATE;
        console_in := [Typed "help"] |},
     [Print MsgWelcome; Print (MsgModeSwitched "temporary")])
  /\
  main one_unreadable_env
    {| session := session two_staged_machine;
       console_in := [Typed "what is covered?"; Typed "help"] |}
  = (Raise OSError,
     {| session := session two_staged_machine; console_in := [Typed "help"] |},
     [Print MsgWelcome;
      FileOpen {| hid := 0; hpath := "/cwd/a.pdf" |};
      FileClose {| hid := 0; hpath := "/cwd/a.pdf" |}]).
Proof. repeat split. Qed.

(** ** The loop of [main] is total *)

Lemma console_input_pending : preserves le pending console_input.
Proof.
  intros m. unfold console_input, pending, state_of.
  destruct (console_in m) as [| [line | |] rest] eqn:Htape;
    cbn [fst snd console_in]; rewrite ?Htape; cbn [length]; lia.
Qed.

Lemma modify_app_pending (g : AppState -> AppState) :
  preserves le pending (modify_app g).
Proof. intros m. apply Nat.le_refl. Qed.

Ltac only_consumes :=
  preserve_with Nat.le_refl (fun a b c : nat => @Nat.le_trans a b c);
  try apply console_input_pending;
  try apply modify_app_pending.

Lemma add_doc_step_pending (env : Env) (file_path : string) :
  preserves le pending (add_doc_step env file_path).
Proof. unfold add_doc_step. only_consumes. Qed.

(** No entry of [COMMANDS] adds pending input. *)
Lemma command_pending
  (env : Env) (key : string) (handler : string -> M machine unit)
  (args : string) :
  lookup (COMMANDS env) key = Some handler ->
  preserves le pending (handler args).
Proof.
  intros Hlookup. unfold COMMANDS in Hlookup. cbn [lookup] in Hlookup.
  repeat match type of Hlookup with
         | (if ?b then _ else _) = _ => destruct b
         end;
    try discriminate; injection Hlookup as <-;
    unfold handle_help, handle_mode_switch, handle_register, handle_login,
      handle_logout, handle_list_docs, handle_set_docs, handle_add_doc,
      handle_show_docs, handle_clear_docs;
    only_consumes; apply add_doc_step_pending.
Qed.

Lemma handle_query_pending (env : Env) (query_text : string) :
  preserves le pending (handle_query env query_text).
Proof.
  unfold handle_query, handle_persistent_query, handle_temporary_query,
    show_response, display_structured_response, open_staged_file, open_rb,
    close.
  only_consumes.
Qed.

Lemma dispatch_pending (env : Env) (user_input : string) :
  preserves le pending (dispatch env user_input).
Proof.
  unfold dispatch. destruct (PyStr.split_space_1 user_input) as [part0 rest].
  destruct (lookup (COMMANDS env) (PyStr.lower part0)) as [handler |] eqn:Hl.
  - eapply command_pending. exact Hl.
  - apply handle_query_pending.
Qed.

(** One turn: it asks for another turn only after consuming input, it
    never adds input, and what it lets through is no exit signal. *)
Lemma main_turn_progress (env : Env) (m : machine) :
  match main_turn env m with
  | (Ok false, m', _) => pending m' < pending m
  | (Ok true, m', evs) =>
      pending m' <= pending m /\ exists before, evs = before ++ [Print MsgExiting]
  | (Raise e, _, _) => is_exit_signal e = false
  end.
Proof.
  unfold main_turn, try_except. unfold bind at 1. unfold prompt_input.
  destruct (prompt_renders env (session m)); [| reflexivity].
  unfold console_input.
  destruct (console_in m) as [| [line | |] rest] eqn:Htape.
  - cbn. split; [lia | exists []; reflexivity].
  - destruct (negb (PyStr.truthy (PyStr.strip line))).
    + cbn. unfold pending. rewrite Htape. cbn. lia.
    + unfold bind.
      pose proof (dispatch_pending env (PyStr.strip line)
                    {| session := session m; console_in := rest |}) as Hle.
      unfold state_of in Hle. unfold pending at 2 in Hle.
      cbn [console_in] in Hle.
      destruct (dispatch env (PyStr.strip line) _) as [[[[] | e] m1] ev1];
        cbn [fst snd] in Hle.
      * cbn. unfold pending in *. rewrite Htape. cbn. lia.
      * destruct (is_exit_signal e) eqn:Hexit.
        -- cbn. unfold pending in *. rewrite Htape. cbn. split; [lia |].
           exists ([] ++ ev1). rewrite <- !app_assoc. reflexivity.
        -- exact Hexit.
  - cbn. unfold pending. rewrite Htape. cbn.
    split; [lia | exists []; reflexivity].
  - cbn. unfold pending. rewrite Htape. cbn.
    split; [lia | exists []; reflexivity].
Qed.

(** With more turns than pending inputs the loop ends by itself: through
    [break], after the exit message, or with an exception that is no exit
    signal. *)
Lemma main_loop_total (env : Env) (turns : nat) (m : machine) :
  pending m < turns ->
  (outcome_of (main_loop env turns m) = Ok Left_loop
   /\ exists before,
        events_of (main_loop env turns m) = before ++ [Print MsgExiting])
  \/ (exists e, outcome_of (main_loop env turns m) = Raise e
                /\ is_exit_signal e = false).
Proof.
  revert m. induction turns as [| turns IH]; intros m Hlt; [lia |].
  cbn [main_loop]. unfold bind.
  pose proof (main_turn_progress env m) as Hturn.
  destruct (main_turn env m) as [[[[|] | e] m1] ev1].
  - left. destruct Hturn as [_ [before ->]]. cbn.
    split; [reflexivity |]. exists before. rewrite app_nil_r. reflexivity.
  - assert (Hlt1 : pending m1 < turns) by lia.
    destruct (IH m1 Hlt1) as [[Hout [before Hev]] | [e [Hout Hexit]]].
    + left. destruct (main_loop env turns m1) as [[r m2] ev2].
      cbn in *. subst r ev2. split; [reflexivity |].
      exists (ev1 ++ before). rewrite app_assoc. reflexivity.
    + right. exists e. destruct (main_loop env turns m1) as [[r m2] ev2].
      cbn in *. subst r. split; [reflexivity | exact Hexit].
  - right. exists e. split; [reflexivity | exact Hturn].
Qed.

(** X22. [main] ends in one of two ways only, on every host and input:
    it leaves its loop, and then the exit message is the last thing
    printed; or an exception that is none of [KeyboardInterrupt],
    [EOFError] and [SystemExit] goes through it.  One turn more than
    there are typed inputs is always enough for that. *)
Lemma main_total (env : Env) (m : machine) :
  (outcome_of (main env m) = Ok Left_loop
   /\ exists before, events_of (main env m) = before ++ [Print MsgExiting])
  \/ (exists e, outcome_of (main env m) = Raise e
                /\ is_exit_signal e = false).
Proof.
  unfold main, bind, print, emit, get.
  cbn [renders markup_risks existsb negb]. cbv beta iota.
  assert (Hlt : pending m < S (length (console_in m)))
    by (unfold pending; lia).
  destruct (main_loop_total env _ m Hlt) as [[Hout [before Hev]]
                                            | [e [Hout Hexit]]].
  - left. destruct (main_loop env _ m) as [[r m2] ev2]. cbn in *.
    subst r ev2. split; [reflexivity |]. exists (Print MsgWelcome :: before).
    reflexivity.
  - right. exists e. destruct (main_loop env _ m) as [[r m2] ev2]. cbn in *.
    subst r. split; [reflexivity | exact Hexit].
Qed.


(** * Further properties of the handlers *)

(** ** Commands that never change the session *)

Lemma console_input_session : preserves eq session console_input.
Proof.
  intros m. unfold console_input.
  destruct (console_in m) as [| [line | |] rest]; reflexivity.
Qed.

Ltac session_untouched :=
  preserve_with (@eq_refl AppState) (@eq_trans_after AppState);
  try apply console_input_session.

Lemma handle_help_session (env : Env) (args : string) :
  preserves eq session (handle_help env args).
Proof. unfold handle_help. session_untouched. Qed.

Lemma handle_register_session (env : Env) (args : string) :
  preserves eq session (handle_register env args).
Proof. unfold handle_register. session_untouched. Qed.

Lemma handle_list_docs_session (env : Env) (args : string) :
  preserves eq session (handle_list_docs env args).
Proof. unfold handle_list_docs. session_untouched. Qed.

Lemma handle_show_docs_session (env : Env) (args : string) :
  preserves eq session (handle_show_docs env args).
Proof. unfold handle_show_docs. session_untouched. Qed.

Lemma handle_query_session (env : Env) (query_text : string) :
  preserves eq session (handle_query env query_text).
Proof.
  unfold handle_query, handle_persistent_query, handle_temporary_query,
    show_response, display_structured_response, open_staged_file, open_rb,
    close.
  session_untouched.
Qed.

(** X1. [help], [register], [list_docs], [show_docs] and a free-text
    query never change the session: on every host and machine, whatever
    the backend answers and whether the handler returns or raises, the
    token, the user, the mode and both collections are afterwards what
    they were.  In particular a successful registration does not log in. *)
Theorem read_only_commands_keep_session
  (env : Env) (args query_text : string) (m : machine) :
  session (state_of (handle_help env args m)) = session m
  /\ session (state_of (handle_register env args m)) = session m
  /\ session (state_of (handle_list_docs env args m)) = session m
  /\ session (state_of (handle_show_docs env args m)) = session m
  /\ session (state_of (handle_query env query_text m)) = session m.
Proof.
  split; [apply handle_help_session |].
  split; [apply handle_register_session |].
  split; [apply handle_list_docs_session |].
  split; [apply handle_show_docs_session | apply handle_query_session].
Qed.

(** ** Logging in and out *)

(** [login] once an email and a password are typed and the backend has
    answered, as a function of the response. *)
Lemma handle_login_run
  (env : Env) (args email password : string) (s : AppState)
  (rest : list keyboard) :
  let req := PostLogin email password in
  let m' := {| session := s; console_in := rest |} in
  handle_login env args
    {| session := s; console_in := Typed email :: Typed password :: rest |}
  = match backend env req with
    | NoResponse =>
        after [Http req]
          (printed env (MsgConnectionErrorToApi (base_url env)) m')
    | Response resp =>
        match json resp with
        | None =>
            after [Http req]
              (printed env (MsgConnectionErrorToApi (base_url env)) m')
        | Some (JObject members) =>
            if (status_code resp =? 200)%Z
            then match member "access_token" members with
                 | Some tok =>
                     (Ok tt,
                      {| session := logged_in tok email s;
                         console_in := rest |},
                      [Http req; Print MsgLoginSuccessful])
                 | None => (Raise KeyError, m', [Http req])
                 end
            else after [Http req]
                   (printed env
                      (MsgLoginFailed
                         (field members "detail"
                            (JString "Invalid credentials"))) m')
        | Some _ =>
            (Raise (if (status_code resp =? 200)%Z
                    then TypeError else AttributeError),
             m', [Http req])
        end
    end.
Proof.
  intros req m'. subst req m'.
  unfold handle_login, bind, console_input, try_except, requests,
    response_json, after. cbn [console_in session].
  destruct (backend env (PostLogin email password)) as [| resp].
  - cbn [is_RequestException]. rewrite print_run. unfold printed.
    destruct (renders env _); reflexivity.
  - destruct (json resp) as [body |].
    + destruct (status_code resp =? 200)%Z.
      * destruct body; try reflexivity.
        unfold subscript, ret, raise.
        destruct (member "access_token" members); reflexivity.
      * destruct body; try reflexivity.
        unfold dict_get, ret. rewrite print_run. unfold printed.
        destruct (renders env _); reflexivity.
    + destruct (status_code resp =? 200)%Z;
        unfold raise; cbn [is_RequestException]; rewrite print_run;
        unfold printed; destruct (renders env _); reflexivity.
Qed.

(** Whatever is typed and whatever the backend does, [login] leaves the
    session as it was or logs in. *)
Lemma handle_login_session (env : Env) (args : string) (m : machine) :
  session (state_of (handle_login env args m)) = session m
  \/ exists tok email,
       session (state_of (handle_login env args m))
       = logged_in tok email (session m).
Proof.
  destruct m as [s typed].
  destruct typed as [| [email | |] typed]; try (left; reflexivity).
  destruct typed as [| [password | |] typed]; try (left; reflexivity).
  rewrite handle_login_run. cbv zeta. unfold after.
  destruct (backend env (PostLogin email password)) as [| resp].
  - left. cbn [state_of fst snd]. rewrite state_of_printed. reflexivity.
  - destruct (json resp) as [body |].
    + destruct body;
        try (left; reflexivity).
      destruct (status_code resp =? 200)%Z.
      * destruct (member "access_token" members) as [tok |];
          [right; exists tok, email | left]; reflexivity.
      * left. cbn [state_of fst snd]. rewrite state_of_printed. reflexivity.
    + left. cbn [state_of fst snd]. rewrite state_of_printed. reflexivity.
Qed.

(** X2. [login], once an email and a password are typed, sends them and
    acts on the response.  On a 200 whose body is an object with an
    access token, the value of the token, whatever it is (a string, but
    also [null]), and the typed email are stored, nothing else changes
    and success is reported.  On a 200 whose body is an object without
    access token, [KeyError] is raised; on a 200 whose body is no object,
    [TypeError]; on another status whose body is no object,
    [AttributeError]: nothing is stored and nothing is printed then.  On
    another status whose body is an object, the session is left as it was
    and the failure is printed with the detail of the body, or with the
    words Invalid credentials when there is none; when rich rejects the
    markup of that detail, nothing is printed and [MarkupError] is
    raised.  When the body is no JSON the connection error is printed. *)
Theorem login_acts_on_response
  (env : Env) (args email password : string) (s : AppState)
  (rest : list keyboard) (resp : response) :
  backend env (PostLogin email password) = Response resp ->
  let req := PostLogin email password in
  let m := {| session := s;
              console_in := Typed email :: Typed password :: rest |} in
  let m' := {| session := s; console_in := rest |} in
  (forall members tok,
     status_code resp = 200%Z -> json resp = Some (JObject members) ->
     member "access_token" members = Some tok ->
     handle_login env args m
     = (Ok tt, {| session := logged_in tok email s; console_in := rest |},
        [Http req; Print MsgLoginSuccessful]))
  /\
  (forall members,
     status_code resp = 200%Z -> json resp = Some (JObject members) ->
     member "access_token" members = None ->
     handle_login env args m = (Raise KeyError, m', [Http req]))
  /\
  (forall body,
     json resp = Some body -> is_object body = false ->
     handle_login env args m
     = (Raise (if (status_code resp =? 200)%Z
               then TypeError else AttributeError), m', [Http req]))
  /\
  (forall members,
     status_code resp <> 200%Z -> json resp = Some (JObject members) ->
     handle_login env args m
     = after [Http req]
         (printed env
            (MsgLoginFailed
               (field members "detail" (JString "Invalid credentials")))
            m'))
  /\
  (json resp = None ->
   handle_login env args m
   = after [Http req]
       (printed env (MsgConnectionErrorToApi (base_url env)) m')).
Proof.
  intros Hresp req m m'. subst req m m'.
  rewrite handle_login_run. cbv zeta. rewrite Hresp.
  split; [| split; [| split; [| split]]].
  - intros members tok -> -> ->. reflexivity.
  - intros members -> -> ->. reflexivity.
  - intros body -> Hobj. destruct body; try reflexivity. discriminate.
  - intros members Hstatus ->. apply Z.eqb_neq in Hstatus.
    rewrite Hstatus. reflexivity.
  - intros ->. reflexivity.
Qed.

(** The right password logs in; a wrong one is refused with the detail of
    the backend; a refusal whose detail reads as a closing tag makes the
    command raise; and a 200 with a null access token stores the user and
    no token. *)
Lemma login_acts_on_response_witness :
  handle_login login_env ""
    {| session := APP_STATE; console_in := [Typed "me"; Typed "pw"] |}
  = (Ok tt,
     {| session := logged_in (JString "tok-1") "me" APP_STATE;
        console_in := [] |},
     [Http (PostLogin "me" "pw"); Print MsgLoginSuccessful])
  /\
  handle_login login_env ""
    {| session := APP_STATE; console_in := [Typed "me"; Typed "oops"] |}
  = (Ok tt, {| session := APP_STATE; console_in := [] |},
     [Http (PostLogin "me" "oops");
      Print (MsgLoginFailed (JString "bad password"))])
  /\
  handle_login login_env ""
    {| session := APP_STATE; console_in := [Typed "me"; Typed "old"] |}
  = (Raise MarkupError, {| session := APP_STATE; console_in := [] |},
     [Http (PostLogin "me" "old")])
  /\
  handle_login refusing_env ""
    {| session := APP_STATE; console_in := [Typed "me"; Typed "pw"] |}
  = (Ok tt,
     {| session := {| token := JNull; user_email := Some "me"%string;
                      mode := "persistent";
                      persistent_docs_context := [];
                      temp_docs_to_upload := [] |};
        console_in := [] |},
     [Http (PostLogin "me" "pw"); Print MsgLoginSuccessful]).
Proof.
  split; [| split; [| split]].
  - apply (proj1 (login_acts_on_response login_env "" "me" "pw" APP_STATE []
                    _ eq_refl)
             [("access_token"%string, JString "tok-1");
              ("token_type"%string, JString "bearer")]
             (JString "tok-1")); reflexivity.
  - exact (proj1 (proj2 (proj2 (proj2
             (login_acts_on_response login_env "" "me" "oops" APP_STATE []
                _ eq_refl))))
             [("detail"%string, JString "bad password")]
             ltac:(discriminate) eq_refl).
  - exact (proj1 (proj2 (proj2 (proj2
             (login_acts_on_response login_env "" "me" "old" APP_STATE []
                _ eq_refl))))
             [("detail"%string, JString "[/expired]")]
             ltac:(discriminate) eq_refl).
  - apply (proj1 (login_acts_on_response refusing_env "" "me" "pw" APP_STATE
                    [] _ eq_refl)
             [("access_token"%string, JNull)] JNull); reflexivity.
Defined.

(** ** How each command can change the session *)

Lemma handle_mode_switch_session (env : Env) (args : string) (m : machine) :
  session (state_of (handle_mode_switch env args m)) = session m
  \/ exists new_mode,
       (new_mode = "persistent"%string \/ new_mode = "temporary"%string)
       /\ session (state_of (handle_mode_switch env args m))
          = switched new_mode (session m).
Proof.
  rewrite handle_mode_switch_run.
  destruct (PyStr.mem _ _) eqn:Hmem; [| left; reflexivity].
  right. exists (PyStr.lower (PyStr.strip args)). split; [| reflexivity].
  apply mem_In in Hmem. cbn in Hmem. intuition.
Qed.

Lemma handle_logout_session (env : Env) (args : string) (m : machine) :
  session (state_of (handle_logout env args m)) = logged_out (session m).
Proof. reflexivity. Qed.

(** [set_docs] as a function of the machine. *)
Lemma handle_set_docs_run (env : Env) (args : string) (m : machine) :
  handle_set_docs env args m =
    if negb (String.eqb (mode (session m)) "persistent")
    then (Ok tt, m, [Print MsgOnlyPersistentMode])
    else if negb (PyStr.truthy args) || String.eqb (PyStr.strip args) "*"
    then (Ok tt, with_session (set_persistent_docs_context [] (session m)) m,
          [Print MsgPersistentContextCleared])
    else match Shlex.split args with
         | inl e => (Raise (ValueError e), m, [])
         | inr words =>
             printed env (MsgPersistentContextSet words)
               (with_session
                  (set_persistent_docs_context words (session m)) m)
         end.
Proof.
  destruct (String.eqb (mode (session m)) "persistent") eqn:Hmode.
  - apply String.eqb_eq in Hmode.
    rewrite (handle_set_docs_persistent env args m Hmode). reflexivity.
  - unfold handle_set_docs. unfold bind at 1. unfold get_app.
    cbv beta iota. rewrite Hmode. reflexivity.
Qed.

(** [add_doc] as a function of the machine. *)
Lemma handle_add_doc_run (env : Env) (args : string) (m : machine) :
  handle_add_doc env args m =
    if negb (String.eqb (mode (session m)) "temporary")
    then (Ok tt, m, [Print MsgOnlyTemporaryMode])
    else if negb (PyStr.truthy args) then (Ok tt, m, [Print MsgAddDocUsage])
    else match Shlex.split args with
         | inl e => (Raise (ValueError e), m, [])
         | inr files_to_add =>
             (match first_rejected env files_to_add with
              | None => Ok tt
              | Some _ => Raise MarkupError
              end,
              with_staged
                (staged_after env (attempted env files_to_add)
                   (temp_docs_to_upload (session m))) m,
              add_reports env (rendered_prefix env files_to_add)
                (temp_docs_to_upload (session m)))
         end.
Proof.
  unfold handle_add_doc. unfold bind at 1. unfold get_app. cbv beta iota.
  destruct (negb (String.eqb (mode (session m)) "temporary"));
    [reflexivity |].
  destruct (negb (PyStr.truthy args)); [reflexivity |].
  destruct (Shlex.split args) as [e | files_to_add]; [reflexivity |].
  rewrite add_doc_loop_run. reflexivity.
Qed.

(** [clear_docs] as a function of the machine. *)
Lemma handle_clear_docs_run (env : Env) (args : string) (m : machine) :
  handle_clear_docs env args m =
    (Ok tt,
     with_session
       (if String.eqb (mode (session m)) "persistent"
        then set_persistent_docs_context [] (session m)
        else set_temp_docs_to_upload [] (session m)) m,
     [Print MsgContextCleared]).
Proof.
  unfold handle_clear_docs. unfold bind at 1. unfold get_app. cbv beta iota.
  destruct (String.eqb (mode (session m)) "persistent"); reflexivity.
Qed.

Lemma handle_set_docs_session (env : Env) (args : string) (m : machine) :
  session (state_of (handle_set_docs env args m)) = session m
  \/ exists words,
       session (state_of (handle_set_docs env args m))
       = set_persistent_docs_context words (session m).
Proof.
  rewrite handle_set_docs_run.
  destruct (negb (String.eqb (mode (session m)) "persistent"));
    [left; reflexivity |].
  destruct (negb (PyStr.truthy args) || String.eqb (PyStr.strip args) "*");
    [right; exists []; reflexivity |].
  destruct (Shlex.split args) as [e | words]; [left; reflexivity |].
  right; exists words. rewrite state_of_printed. reflexivity.
Qed.

Lemma handle_add_doc_session (env : Env) (args : string) (m : machine) :
  exists staged,
    session (state_of (handle_add_doc env args m))
    = set_temp_docs_to_upload staged (session m)
    /\ (NoDup (temp_docs_to_upload (session m)) -> NoDup staged).
Proof.
  rewrite handle_add_doc_run.
  destruct (negb (String.eqb (mode (session m)) "temporary"));
    [| destruct (negb (PyStr.truthy args));
       [| destruct (Shlex.split args) as [e | files_to_add]]];
    try (exists (temp_docs_to_upload (session m));
         split; [symmetry; apply set_temp_same | auto]).
  eexists. split; [reflexivity |]. apply staged_after_NoDup.
Qed.

Lemma handle_clear_docs_session (env : Env) (args : string) (m : machine) :
  session (state_of (handle_clear_docs env args m))
  = set_persistent_docs_context [] (session m)
  \/ session (state_of (handle_clear_docs env args m))
     = set_temp_docs_to_upload [] (session m).
Proof.
  rewrite handle_clear_docs_run.
  destruct (String.eqb (mode (session m)) "persistent");
    [left | right]; reflexivity.
Qed.

(** A property of sessions that holds initially and that the six
    commands able to change the session keep, holds of every reachable
    session. *)
Lemma reachable_invariant (P : AppState -> Prop) :
  P APP_STATE ->
  (forall s new_mode,
     new_mode = "persistent"%string \/ new_mode = "temporary"%string ->
     P s -> P (switched new_mode s)) ->
  (forall s tok email, P s -> P (logged_in tok email s)) ->
  (forall s, P s -> P (logged_out s)) ->
  (forall s words, P s -> P (set_persistent_docs_context words s)) ->
  (forall s staged,
     (NoDup (temp_docs_to_upload s) -> NoDup staged) ->
     P s -> P (set_temp_docs_to_upload staged s)) ->
  forall s, reachable s -> P s.
Proof.
  intros Hinit Hmode Hlogin Hlogout Hset Hstage s Hreach.
  induction Hreach as [| s s' _ IH Hstep]; [exact Hinit |].
  destruct Hstep as [env key handler args s typed Hlookup
                    | env query_text s typed].
  - set (m := {| session := s; console_in := typed |}).
    change s with (session m) in IH.
    unfold COMMANDS in Hlookup. cbn [lookup] in Hlookup.
    repeat match type of Hlookup with
           | (if ?b then _ else _) = _ => destruct b
           end;
      try discriminate; injection Hlookup as <-.
    + rewrite handle_help_session. exact IH.
    + destruct (handle_mode_switch_session env args m) as [-> | [nm [Hnm ->]]];
        [exact IH | apply Hmode; assumption].
    + rewrite handle_register_session. exact IH.
    + destruct (handle_login_session env args m) as [-> | [tok [email ->]]];
        [exact IH | apply Hlogin; assumption].
    + rewrite handle_logout_session. apply Hlogout, IH.
    + rewrite handle_list_docs_session. exact IH.
    + destruct (handle_set_docs_session env args m) as [-> | [words ->]];
        [exact IH | apply Hset; assumption].
    + destruct (handle_add_doc_session env args m) as [staged [-> Hnd]].
      apply Hstage; assumption.
    + rewrite handle_show_docs_session. exact IH.
    + destruct (handle_clear_docs_session env args m) as [-> | ->].
      * apply Hset, IH.
      * apply Hstage; [intros _; constructor | exact IH].
    + exact IH.
    + exact IH.
  - rewrite (handle_query_session env query_text
               {| session := s; console_in := typed |}).
    exact IH.
Qed.

(** X3. In every session reachable from the initial one the mode is one
    of the two strings [persistent] and [temporary]: no command stores
    anything else there. *)
Theorem reachable_mode_valid (s : AppState) :
  reachable s ->
  mode s = "persistent"%string \/ mode s = "temporary"%string.
Proof.
  apply (reachable_invariant
           (fun s => mode s = "persistent"%string
                     \/ mode s = "temporary"%string)); auto.
Qed.

Lemma reachable_mode_valid_witness :
  mode (switched "temporary" APP_STATE) = "persistent"%string
  \/ mode (switched "temporary" APP_STATE) = "temporary"%string.
Proof.
  apply (reachable_mode_valid (switched "temporary" APP_STATE)).
  eapply reachable_step; [apply reachable_init |].
  apply (invoke_command offline_env "mode" (handle_mode_switch offline_env)
           "temporary" APP_STATE []).
  reflexivity.
Defined.

(** X4. In every reachable session a token is stored only together with
    a user: while no user is stored the token is [None] ([login] stores
    both, [logout] clears both, nothing else touches them).  The converse
    fails: a login answered with a null access token stores the user and
    leaves the token [None]. *)
Theorem reachable_user_before_token (s : AppState) :
  reachable s -> user_email s = None -> token s = JNull.
Proof.
  apply (reachable_invariant
           (fun s => user_email s = None -> token s = JNull));
    try (intros; cbn in *; auto; fail).
  intros s0 tok email _. cbn. discriminate.
Qed.

Lemma reachable_user_before_token_witness :
  token (logged_out (logged_in (JString "tok-1") "me" APP_STATE)) = JNull.
Proof.
  apply (reachable_user_before_token
           (logged_out (logged_in (JString "tok-1") "me" APP_STATE)));
    [| reflexivity].
  eapply reachable_step.
  - eapply reachable_step; [apply reachable_init |].
    apply (invoke_command login_env "login" (handle_login login_env) ""
             APP_STATE [Typed "me"; Typed "pw"]).
    reflexivity.
  - apply (invoke_command offline_env "logout" (handle_logout offline_env) ""
             (logged_in (JString "tok-1") "me" APP_STATE) []).
    reflexivity.
Defined.

(** X5. In every reachable session the staged list has no duplicates,
    whatever commands, on whatever hosts, led there. *)
Theorem reachable_staged_NoDup (s : AppState) :
  reachable s -> NoDup (temp_docs_to_upload s).
Proof.
  apply (reachable_invariant (fun s => NoDup (temp_docs_to_upload s)));
    try (intros; cbn; auto; constructor).
Qed.

Lemma reachable_staged_NoDup_witness :
  NoDup (temp_docs_to_upload
           (session (state_of (handle_add_doc two_files_env "a.pdf a.pdf"
                                 temporary_machine)))).
Proof.
  apply reachable_staged_NoDup.
  eapply reachable_step.
  - eapply reachable_step; [apply reachable_init |].
    apply (invoke_command offline_env "mode"
             (handle_mode_switch offline_env) "temporary" APP_STATE []).
    reflexivity.
  - apply (invoke_command two_files_env "add_doc"
             (handle_add_doc two_files_env) "a.pdf a.pdf"
             (switched "temporary" APP_STATE) []).
    reflexivity.
Defined.

(** ** What [add_doc] can stage *)

Lemma staged_after_appends (env : Env) (files_to_add staged : list string) :
  exists added,
    staged_after env files_to_add staged = staged ++ added
    /\ forall x, In x added ->
         ~ In x staged
         /\ exists file_path,
              In file_path files_to_add
              /\ path_exists env file_path = true
              /\ path_isfile env file_path = true
              /\ x = path_abspath env file_path.
Proof.
  revert staged. induction files_to_add as [| p ps IH]; intros staged.
  - exists []. split; [symmetry; apply app_nil_r | intros x []].
  - cbn [staged_after].
    destruct (path_exists env p && path_isfile env p) eqn:Hok.
    + destruct (PyStr.mem (path_abspath env p) staged) eqn:Hmem.
      * destruct (IH staged) as [added [Heq Hadded]].
        exists added. split; [exact Heq |].
        intros x Hx. destruct (Hadded x Hx) as [Hnew [q [Hq Hrest]]].
        split; [exact Hnew |]. exists q. split; [right; exact Hq | exact Hrest].
      * destruct (IH (staged ++ [path_abspath env p])) as [added [Heq Hadded]].
        exists (path_abspath env p :: added).
        split; [rewrite Heq, <- app_assoc; reflexivity |].
        apply andb_true_iff in Hok as [He Hf].
        apply mem_false_not_In in Hmem.
        intros x [<- | Hx].
        -- split; [exact Hmem |]. exists p. repeat split; auto. left; reflexivity.
        -- destruct (Hadded x Hx) as [Hnew [q [Hq Hrest]]].
           split; [intros Hin; apply Hnew, in_or_app; left; exact Hin |].
           exists q. split; [right; exact Hq | exact Hrest].
    + destruct (IH staged) as [added [Heq Hadded]].
      exists added. split; [exact Heq |].
      intros x Hx. destruct (Hadded x Hx) as [Hnew [q [Hq Hrest]]].
      split; [exact Hnew |]. exists q. split; [right; exact Hq | exact Hrest].
Qed.

Lemma attempted_incl (env : Env) (files_to_add : list string) :
  incl (attempted env files_to_add) files_to_add.
Proof.
  unfold attempted. induction files_to_add as [| p ps IH];
    [intros q []|].
  cbn [rendered_prefix first_rejected].
  destruct (report_renders env p).
  - intros q [<- | Hq]; [left; reflexivity | right; apply IH, Hq].
  - intros q [<- | []]. left; reflexivity.
Qed.

(** X6. [add_doc] only ever appends: on every host, machine and argument
    string the staged list afterwards is the staged list before followed
    by new entries (nothing is removed or reordered), and every new entry
    was not staged before and is the absolute path of one of the words of
    the arguments that named an existing regular file.  This holds in
    every mode and also when the command raises. *)
Theorem add_doc_only_appends_existing_files
  (env : Env) (args_str : string) (m : machine) :
  exists added,
    temp_docs_to_upload (session (state_of (handle_add_doc env args_str m)))
    = temp_docs_to_upload (session m) ++ added
    /\ forall x, In x added ->
         ~ In x (temp_docs_to_upload (session m))
         /\ exists files_to_add file_path,
              Shlex.split args_str = inr files_to_add
              /\ In file_path files_to_add
              /\ path_exists env file_path = true
              /\ path_isfile env file_path = true
              /\ x = path_abspath env file_path.
Proof.
  rewrite handle_add_doc_run.
  destruct (negb (String.eqb (mode (session m)) "temporary"));
    [| destruct (negb (PyStr.truthy args_str));
       [| destruct (Shlex.split args_str) as [e | files_to_add]]];
    try (exists []; split; [symmetry; apply app_nil_r | intros x []]).
  destruct (staged_after_appends env (attempted env files_to_add)
              (temp_docs_to_upload (session m))) as [added [Heq Hadded]].
  exists added. split; [exact Heq |].
  intros x Hx. destruct (Hadded x Hx) as [Hnew [q [Hq Hrest]]].
  split; [exact Hnew |]. exists files_to_add, q.
  split; [reflexivity |].
  split; [apply (attempted_incl env files_to_add q Hq) | exact Hrest].
Qed.

(** ** [set_docs] replaces, it does not accumulate *)

(** X7. The persistent context is whatever the last successful [set_docs]
    gave: for every host, machine and argument strings, when the second
    argument string is one that [shlex.split] accepts, [set_docs] of the
    first followed by [set_docs] of the second leaves the machine that
    [set_docs] of the second alone leaves (in persistent mode the context
    of the second, in temporary mode the untouched machine). *)
Theorem set_docs_last_wins
  (env : Env) (first second : string) (words : list string) (m : machine) :
  Shlex.split second = inr words ->
  state_of (handle_set_docs env second
              (state_of (handle_set_docs env first m)))
  = state_of (handle_set_docs env second m).
Proof.
  intros Hsplit.
  assert (Hsecond : forall m0,
    state_of (handle_set_docs env second m0)
    = if negb (String.eqb (mode (session m0)) "persistent") then m0
      else if negb (PyStr.truthy second)
              || String.eqb (PyStr.strip second) "*"
      then with_session (set_persistent_docs_context [] (session m0)) m0
      else with_session (set_persistent_docs_context words (session m0)) m0).
  { intros m0. rewrite handle_set_docs_run, Hsplit.
    destruct (negb (String.eqb (mode (session m0)) "persistent"));
      [reflexivity |].
    destruct (negb (PyStr.truthy second)
              || String.eqb (PyStr.strip second) "*"); [reflexivity |].
    apply state_of_printed. }
  rewrite !Hsecond. rewrite (handle_set_docs_run env first m).
  destruct (negb (String.eqb (mode (session m)) "persistent")) eqn:Hmode.
  - cbn [state_of fst snd]. rewrite Hmode. reflexivity.
  - assert (Hafter : forall ctx,
      (if negb (String.eqb
                  (mode (session
                           (with_session
                              (set_persistent_docs_context ctx (session m))
                              m)))
                  "persistent")
       then with_session (set_persistent_docs_context ctx (session m)) m
       else if negb (PyStr.truthy second)
               || String.eqb (PyStr.strip second) "*"
       then with_session
              (set_persistent_docs_context []
                 (session
                    (with_session
                       (set_persistent_docs_context ctx (session m)) m)))
              (with_session (set_persistent_docs_context ctx (session m)) m)
       else with_session
              (set_persistent_docs_context words
                 (session
                    (with_session
                       (set_persistent_docs_context ctx (session m)) m)))
              (with_session (set_persistent_docs_context ctx (session m)) m))
      = (if negb (PyStr.truthy second) || String.eqb (PyStr.strip second) "*"
         then with_session (set_persistent_docs_context [] (session m)) m
         else with_session (set_persistent_docs_context words (session m)) m)).
    { intros ctx. cbn [mode session with_session set_persistent_docs_context].
      rewrite Hmode.
      destruct (negb (PyStr.truthy second)
                || String.eqb (PyStr.strip second) "*"); reflexivity. }
    destruct (negb (PyStr.truthy first) || String.eqb (PyStr.strip first) "*").
    + cbn [state_of fst snd]. apply (Hafter []).
    + destruct (Shlex.split first) as [e | ctx].
      * cbn [state_of fst snd]. rewrite Hmode. reflexivity.
      * rewrite state_of_printed. apply (Hafter ctx).
Qed.

(** Two names, then one: only the one remains. *)
Lemma set_docs_last_wins_witness :
  state_of (handle_set_docs offline_env "c.pdf"
              (state_of (handle_set_docs offline_env "a.pdf b.pdf"
                           fresh_machine)))
  = state_of (handle_set_docs offline_env "c.pdf" fresh_machine).
Proof.
  apply (set_docs_last_wins offline_env "a.pdf b.pdf" "c.pdf"
           ["c.pdf"%string] fresh_machine).
  reflexivity.
Defined.

(** ** After [logout] *)

(** X8. [logout] is a full reset of the login and of both collections that
    keeps the mode; and right after it, on every host, a free-text query
    and [list_docs] are refused without any request: the query with the
    must-be-logged-in message, [list_docs] with the same kind of message
    in persistent mode and with the mode-mismatch message otherwise. *)
Theorem logout_resets_and_blocks_requests
  (env : Env) (args query_text : string) (m : machine) :
  let m' := state_of (handle_logout env args m) in
  handle_logout env args m
    = (Ok tt, with_session (logged_out (session m)) m, [Print MsgLoggedOut])
  /\ handle_query env query_text m'
     = (Ok tt, m', [Print MsgMustBeLoggedInToQuery])
  /\ handle_list_docs env args m'
     = (Ok tt, m',
        [Print (if String.eqb (mode (session m)) "persistent"
                then MsgMustBeLoggedInFirst else MsgOnlyPersistentMode)]).
Proof.
  intros m'. split; [reflexivity |]. split.
  - unfold handle_query. unfold bind at 1. reflexivity.
  - unfold handle_list_docs. unfold bind at 1. unfold get_app.
    cbv beta iota. subst m'. cbn [state_of handle_logout fst snd].
    change (mode (session (state_of (handle_logout env args m))))
      with (mode (session m)).
    destruct (String.eqb (mode (session m)) "persistent"); reflexivity.
Qed.


(** ** Queries *)

(** X9. A persistent query always issues exactly one request, to the
    evaluation endpoint, carrying the stored token, the query text as it
    was given and the current persistent context, and never changes the
    machine.  What follows depends on the response: the connection error
    is printed when there is no response or its body is no JSON; the
    panel with the body on a 200; on another status the status and the
    detail of the body (or the words Unknown error) when the body is an
    object and rich accepts the detail.  The query does not always
    return: it ends with [AttributeError] when the body of a response
    with another status is no object, and with [MarkupError], nothing
    printed, when rich rejects the markup of the detail. *)
Theorem persistent_query_request_and_report
  (env : Env) (query : string) (m : machine) :
  let req := PostEvaluate (token (session m)) query
               (persistent_docs_context (session m)) in
  let run := handle_persistent_query env query m in
  state_of run = m
  /\ requests_of (events_of run) = [req]
  /\ (backend env req = NoResponse ->
      run = (Ok tt, m, [Http req; Print MsgConnectionError]))
  /\ (forall resp,
        backend env req = Response resp ->
        (json resp = None ->
         run = (Ok tt, m, [Http req; Print MsgConnectionError]))
        /\ (forall body,
              json resp = Some body -> status_code resp = 200%Z ->
              run = (Ok tt, m, [Http req; Print (MsgResponsePanel body)]))
        /\ (forall members,
              json resp = Some (JObject members) ->
              status_code resp <> 200%Z ->
              run = after [Http req]
                      (printed env
                         (MsgErrorStatus (status_code resp)
                            (field members "detail" (JString "Unknown error")))
                         m))
        /\ (forall body,
              json resp = Some body -> status_code resp <> 200%Z ->
              is_object body = false ->
              run = (Raise AttributeError, m, [Http req]))).
Proof.
  intros req run. subst run. rewrite handle_persistent_query_run.
  cbv zeta. fold req.
  split; [reflexivity |].
  split.
  { cbn [events_of snd].
    change (requests_of (Http req :: ?l)) with (req :: requests_of l).
    destruct (opens_response env (backend env req)) as [_ [_ ->]].
    reflexivity. }
  split; [intros ->; reflexivity |].
  intros resp ->. unfold response_run.
  split; [intros ->; reflexivity |].
  split; [intros body -> ->; reflexivity |].
  split.
  - intros members -> Hstatus. apply Z.eqb_neq in Hstatus. rewrite Hstatus.
    unfold after, printed. destruct (renders env _); reflexivity.
  - intros body -> Hstatus Hobj. apply Z.eqb_neq in Hstatus. rewrite Hstatus.
    destruct body; try reflexivity. discriminate.
Qed.

(** Three queries with the context [x.pdf]: against a backend that
    answers 403 with the detail [expired token]; against one that answers
    500 with a detail that reads as a closing tag; against one that
    answers 422 with a list. *)
Lemma persistent_query_witness :
  handle_persistent_query kb_env "What is the termination clause?"
    context_machine
  = (Ok tt, context_machine,
     [Http (PostEvaluate JNull "What is the termination clause?"
              ["x.pdf"%string]);
      Print (MsgErrorStatus 403 (JString "expired token"))])
  /\
  handle_persistent_query refusing_env "What is the termination clause?"
    context_machine
  = (Raise MarkupError, context_machine,
     [Http (PostEvaluate JNull "What is the termination clause?"
              ["x.pdf"%string])])
  /\
  handle_persistent_query refusing_env "" context_machine
  = (Raise AttributeError, context_machine,
     [Http (PostEvaluate JNull "" ["x.pdf"%string])]).
Proof.
  split; [| split].
  - exact (proj1 (proj2 (proj2 (proj2 (proj2 (proj2
             (persistent_query_request_and_report kb_env
                "What is the termination clause?" context_machine)))
             _ eq_refl)))
             [("detail"%string, JString "expired token")]
             eq_refl ltac:(discriminate)).
  - exact (proj1 (proj2 (proj2 (proj2 (proj2 (proj2
             (persistent_query_request_and_report refusing_env
                "What is the termination clause?" context_machine)))
             _ eq_refl)))
             [("detail"%string, JString "[/red]")]
             eq_refl ltac:(discriminate)).
  - exact (proj2 (proj2 (proj2 (proj2 (proj2 (proj2
             (persistent_query_request_and_report refusing_env
                "" context_machine)))
             _ eq_refl)))
             _ eq_refl ltac:(discriminate) eq_refl).
Defined.

Lemma response_run_prints (env : Env) (r : http_result) :
  Forall is_print (snd (response_run env r)).
Proof.
  assert (Hone : forall msg, Forall is_print [Print msg])
    by (intros msg; constructor; [eexists; reflexivity | constructor]).
  unfold response_run. destruct r as [| resp]; [apply Hone |].
  destruct (json resp) as [body |]; [| apply Hone].
  destruct (status_code resp =? 200)%Z; [apply Hone |].
  destruct body; try constructor.
  destruct (renders env _); [apply Hone | constructor].
Qed.

(** X10. An upload query whose staged files all open issues exactly one
    request, to the upload endpoint, carrying the stored token, the query
    text and one file part per staged path, in the order of the staged
    list, each named by the base name of its path and holding the handle
    opened for that path; the handles are opened before the request and
    closed after what the response makes the query print, if anything;
    the machine is left as it was.  How the query ends is what the
    response gives: it returns, or raises as a persistent query does. *)
Theorem upload_query_sends_staged_files
  (env : Env) (query : string) (m : machine) :
  temp_docs_to_upload (session m) <> [] ->
  forallb (can_open env) (temp_docs_to_upload (session m)) = true ->
  let run := handle_temporary_query env query m in
  exists files shown,
    events_of run
    = (map FileOpen (map snd files)
         ++ Http (PostEvaluateWithDocs (token (session m)) query files)
              :: shown)
        ++ map FileClose (map snd files)
    /\ Forall is_print shown
    /\ requests_of (events_of run)
       = [PostEvaluateWithDocs (token (session m)) query files]
    /\ map fst files
       = map (path_basename env) (temp_docs_to_upload (session m))
    /\ map (fun part => hpath (snd part)) files
       = temp_docs_to_upload (session m)
    /\ state_of run = m
    /\ outcome_of run
       = fst (response_run env
                (backend env
                   (PostEvaluateWithDocs (token (session m)) query files))).
Proof.
  intros Hstaged Hall run. subst run.
  pose proof (handle_temporary_query_run env query m Hstaged) as Hrun.
  cbv zeta in Hrun. rewrite Hall in Hrun.
  set (hs := opened_handles env 0 (temp_docs_to_upload (session m))) in *.
  assert (Hsnd : map snd (map (file_part env) hs) = hs).
  { rewrite map_map. unfold file_part. cbn [snd]. apply map_id. }
  exists (map (file_part env) hs).
  exists (snd (response_run env
                 (backend env (upload_request env (session m) query hs)))).
  rewrite Hrun. cbn [events_of state_of outcome_of fst snd].
  split; [rewrite Hsnd; reflexivity |].
  split; [apply response_run_prints |].
  split.
  { rewrite !requests_of_app, requests_of_FileOpen, requests_of_FileClose.
    change (requests_of (Http ?r :: ?l)) with (r :: requests_of l).
    destruct (opens_response env
                (backend env (upload_request env (session m) query hs)))
      as [_ [_ ->]].
    reflexivity. }
  split.
  { rewrite map_map. unfold file_part. cbn [fst].
    rewrite <- (map_map hpath (path_basename env) hs). unfold hs.
    rewrite (opened_handles_paths env _ 0 Hall). reflexivity. }
  split.
  { rewrite map_map. unfold file_part. cbn [snd].
    apply (opened_handles_paths env _ 0 Hall). }
  split; reflexivity.
Qed.

(** Two readable staged files: two parts, named [a.pdf] and [b.pdf], in
    the staged order. *)
Lemma upload_query_witness :
  exists files shown,
    events_of (handle_temporary_query two_files_env "covered?"
                 two_staged_machine)
    = (map FileOpen (map snd files)
         ++ Http (PostEvaluateWithDocs (JString "t") "covered?" files)
              :: shown)
        ++ map FileClose (map snd files)
    /\ Forall is_print shown
    /\ requests_of
         (events_of (handle_temporary_query two_files_env "covered?"
                       two_staged_machine))
       = [PostEvaluateWithDocs (JString "t") "covered?" files]
    /\ map fst files = ["a.pdf"%string; "b.pdf"%string]
    /\ map (fun part => hpath (snd part)) files
       = ["/cwd/a.pdf"%string; "/cwd/b.pdf"%string]
    /\ state_of (handle_temporary_query two_files_env "covered?"
                   two_staged_machine) = two_staged_machine
    /\ outcome_of (handle_temporary_query two_files_env "covered?"
                     two_staged_machine)
       = Ok tt.
Proof.
  apply (upload_query_sends_staged_files two_files_env "covered?"
           two_staged_machine).
  - discriminate.
  - reflexivity.
Defined.

(** ** [list_docs] *)

(** [sorted] gives an ordered rearrangement of its argument. *)
Lemma insert_sorted_Permutation (x : string) (l : list string) :
  Permutation (x :: l) (insert_sorted x l).
Proof.
  induction l as [| y l IH]; cbn [insert_sorted]; [apply Permutation_refl |].
  destruct (String.leb x y); [apply Permutation_refl |].
  eapply perm_trans; [apply perm_swap | apply perm_skip, IH].
Qed.

Lemma insert_sorted_HdRel (x a : string) (l : list string) :
  str_le a x -> HdRel str_le a l -> HdRel str_le a (insert_sorted x l).
Proof.
  intros Hax Hal. destruct l as [| y l]; cbn [insert_sorted].
  - constructor. exact Hax.
  - destruct (String.leb x y); constructor; [exact Hax |].
    inversion Hal; assumption.
Qed.

Lemma insert_sorted_Sorted (x : string) (l : list string) :
  Sorted str_le l -> Sorted str_le (insert_sorted x l).
Proof.
  induction l as [| y l IH]; intros Hsorted; cbn [insert_sorted].
  - constructor; constructor.
  - destruct (String.leb x y) eqn:Hxy.
    + constructor; [exact Hsorted | constructor; exact Hxy].
    + inversion Hsorted as [| ? ? Hl Hhd]; subst.
      constructor; [apply IH, Hl |].
      apply insert_sorted_HdRel; [| exact Hhd].
      destruct (String.leb_total x y) as [H | H]; [congruence | exact H].
Qed.

Lemma sorted_spec (l : list string) :
  Permutation l (sorted l) /\ Sorted str_le (sorted l).
Proof.
  induction l as [| x l [IHp IHs]]; cbn [sorted fold_right].
  - split; constructor.
  - fold (sorted l). split.
    + eapply perm_trans; [apply perm_skip, IHp | apply insert_sorted_Permutation].
    + apply insert_sorted_Sorted, IHs.
Qed.

(** [list_docs] as a function of the machine. *)
Lemma handle_list_docs_run (env : Env) (args : string) (m : machine) :
  let req := GetDocuments (token (session m)) in
  handle_list_docs env args m =
    if negb (String.eqb (mode (session m)) "persistent")
    then (Ok tt, m, [Print MsgOnlyPersistentMode])
    else if negb (truthy_token (token (session m)))
    then (Ok tt, m, [Print MsgMustBeLoggedInFirst])
    else
      match backend env req with
      | NoResponse => (Raise ConnectionError, m, [Http req])
      | Response resp =>
          match json resp with
          | None => (Raise JSONDecodeError, m, [Http req])
          | Some (JObject members) =>
              if (status_code resp =? 200)%Z
              then
                if negb (truthy (field members "documents" (JArray [])))
                then (Ok tt, m, [Http req; Print MsgNoDocumentsInKB])
                else
                  match table_rows env
                          (field members "documents" (JArray [])) with
                  | inl e => (Raise e, m, [Http req])
                  | inr rows =>
                      after [Http req]
                        (printed env (MsgAvailableDocuments rows) m)
                  end
              else after [Http req]
                     (printed env
                        (MsgErrorFetchingDocuments
                           (field members "detail" (JString "Unknown error")))
                        m)
          | Some _ => (Raise AttributeError, m, [Http req])
          end
      end.
Proof.
  intros req. subst req.
  unfold handle_list_docs. unfold bind at 1. unfold get_app. cbv beta iota.
  destruct (negb (String.eqb (mode (session m)) "persistent"));
    [reflexivity |].
  destruct (negb (truthy_token (token (session m)))); [reflexivity |].
  unfold bind, requests, response_json, after.
  destruct (backend env (GetDocuments (token (session m)))) as [| resp];
    [reflexivity |].
  destruct (json resp) as [body |];
    [| destruct (status_code resp =? 200)%Z; reflexivity].
  destruct (status_code resp =? 200)%Z.
  - destruct body; try reflexivity.
    unfold dict_get, ret.
    destruct (negb (truthy (field members "documents" (JArray []))));
      [reflexivity |].
    destruct (table_rows env (field members "documents" (JArray [])));
      [reflexivity |].
    rewrite print_run. unfold printed. destruct (renders env _); reflexivity.
  - destruct body; try reflexivity.
    unfold dict_get, ret. rewrite print_run. unfold printed.
    destruct (renders env _); reflexivity.
Qed.

Lemma strings_of_strings (names : list string) :
  strings_of (map JString names) = Some names.
Proof.
  induction names as [| n ns IH]; [reflexivity |].
  cbn [map strings_of]. rewrite IH. reflexivity.
Qed.

(** A table whose rows hold no bracket renders. *)
Lemma table_of_plain_rows_renders (env : Env) (rows : list string) :
  Forall (fun row => PyStr.holds_bracket row = false) rows ->
  renders env (MsgAvailableDocuments rows) = true.
Proof.
  intros Hplain. apply renders_no_risk. cbn [markup_risks].
  induction Hplain as [| row rows Hrow _ IH]; [reflexivity |].
  cbn [filter]. rewrite Hrow. exact IH.
Qed.

(** X11. [list_docs] in persistent mode never changes the machine.
    Without a token it prints the must-be-logged-in message and issues no
    request.  With one, on a 200 whose body is an object: when the
    documents are absent or an empty list (or any false value) it prints
    the no-documents message; when they are a non-empty list of names it
    prints one table whose rows are the names rearranged into
    non-decreasing order (each as often as it was listed), provided rich
    accepts the rows, which it does when no name holds a bracket;
    otherwise nothing is printed and [MarkupError] is raised.  A body
    that is no object raises [AttributeError]. *)
Theorem list_docs_shows_sorted_documents
  (env : Env) (args : string) (m : machine) :
  mode (session m) = "persistent"%string ->
  let req := GetDocuments (token (session m)) in
  let run := handle_list_docs env args m in
  (truthy_token (token (session m)) = false ->
   run = (Ok tt, m, [Print MsgMustBeLoggedInFirst]))
  /\
  (forall resp members,
     truthy_token (token (session m)) = true ->
     backend env req = Response resp ->
     status_code resp = 200%Z -> json resp = Some (JObject members) ->
     (truthy (field members "documents" (JArray [])) = false ->
      run = (Ok tt, m, [Http req; Print MsgNoDocumentsInKB]))
     /\
     (forall names,
        names <> [] ->
        field members "documents" (JArray []) = JArray (map JString names) ->
        exists rows,
          run = after [Http req] (printed env (MsgAvailableDocuments rows) m)
          /\ Permutation names rows
          /\ Sorted str_le rows
          /\ (Forall (fun name => PyStr.holds_bracket name = false) names ->
              run = (Ok tt, m, [Http req; Print (MsgAvailableDocuments rows)]))))
  /\
  (forall resp body,
     truthy_token (token (session m)) = true ->
     backend env req = Response resp ->
     json resp = Some body -> is_object body = false ->
     run = (Raise AttributeError, m, [Http req])).
Proof.
  intros Hmode req run. subst run. rewrite handle_list_docs_run. cbv zeta.
  fold req. rewrite Hmode.
  change (negb (String.eqb "persistent" "persistent")) with false.
  cbv iota. split; [| split].
  - intros ->. reflexivity.
  - intros resp members -> -> -> ->. cbn [negb Z.eqb Pos.eqb]. split.
    + intros ->. reflexivity.
    + intros names Hne ->.
      assert (Htruthy : truthy (JArray (map JString names)) = true)
        by (destruct names; [congruence | reflexivity]).
      rewrite Htruthy. cbn [negb table_rows]. rewrite strings_of_strings.
      exists (sorted names).
      split; [reflexivity |].
      split; [apply sorted_spec |]. split; [apply sorted_spec |].
      intros Hplain. unfold after.
      rewrite printed_renders; [reflexivity |].
      apply table_of_plain_rows_renders.
      rewrite Forall_forall in *. intros row Hrow. apply Hplain.
      apply (Permutation_in row (Permutation_sym (proj1 (sorted_spec names)))).
      exact Hrow.
  - intros resp body -> -> -> Hobj. cbn [negb].
    destruct body; try reflexivity. discriminate.
Qed.

(** Three documents listed out of order are shown in order. *)
Lemma list_docs_witness :
  exists rows,
    handle_list_docs kb_env "" (logged_in_machine [])
    = (Ok tt, logged_in_machine [],
       [Http (GetDocuments (JString "t"));
        Print (MsgAvailableDocuments rows)])
    /\ Permutation ["b.pdf"%string; "c.pdf"%string; "a.pdf"%string] rows
    /\ Sorted str_le rows.
Proof.
  destruct (proj2 (proj1 (proj2
              (list_docs_shows_sorted_documents kb_env ""
                 (logged_in_machine []) eq_refl))
              _ [("documents"%string,
                  JArray [JString "b.pdf"; JString "c.pdf"; JString "a.pdf"])]
              eq_refl eq_refl eq_refl eq_refl)
              ["b.pdf"%string; "c.pdf"%string; "a.pdf"%string]
              ltac:(discriminate) eq_refl)
    as [rows [_ [Hperm [Hsorted Hplain]]]].
  exists rows. split; [| split; assumption].
  apply Hplain. repeat constructor.
Defined.

(** ** Requests carry the token *)

(** X12. Every request that a free-text query or [list_docs] issues
    carries the token stored in the session, and none is issued unless
    that token is present (a true value): on every host and machine a
    request among the events means the token is true and is the one
    sent. *)
Theorem requests_carry_session_token
  (env : Env) (args query_text : string) (m : machine) (r : request) :
  In r (requests_of (events_of (handle_query env query_text m)))
  \/ In r (requests_of (events_of (handle_list_docs env args m))) ->
  truthy_token (token (session m)) = true
  /\ bearer_of r = Some (token (session m)).
Proof.
  intros [Hin | Hin].
  - unfold handle_query in Hin. unfold bind at 1 in Hin.
    unfold get_app in Hin. cbv beta iota in Hin.
    destruct (truthy_token (token (session m))) eqn:Htok;
      [| cbn in Hin; contradiction].
    split; [reflexivity |]. cbn [negb] in Hin.
    destruct (String.eqb (mode (session m)) "persistent").
    + rewrite handle_persistent_query_run in Hin. cbv zeta in Hin.
      cbn [events_of snd List.app] in Hin.
      change (requests_of (Http ?q :: ?l)) with (q :: requests_of l) in Hin.
      rewrite (proj2 (proj2 (opens_response env _))) in Hin.
      destruct Hin as [<- | []]. reflexivity.
    + destruct (temp_docs_to_upload (session m)) as [| p ps] eqn:Hstaged.
      * rewrite (handle_temporary_query_nothing_staged env _ _ Hstaged) in Hin.
        cbn in Hin. contradiction.
      * assert (Hne : temp_docs_to_upload (session m) <> [])
          by (rewrite Hstaged; discriminate).
        rewrite (handle_temporary_query_run env query_text m Hne) in Hin.
        cbv zeta in Hin.
        destruct (forallb (can_open env) (temp_docs_to_upload (session m)));
          cbn [events_of snd fst List.app] in Hin;
          rewrite !requests_of_app, ?requests_of_FileOpen,
            ?requests_of_FileClose in Hin; cbn [List.app] in Hin.
        -- change (requests_of (Http ?q :: ?l)) with (q :: requests_of l)
             in Hin.
           rewrite (proj2 (proj2 (opens_response env _))) in Hin.
           destruct Hin as [<- | []]. reflexivity.
        -- contradiction.
  - rewrite handle_list_docs_run in Hin. cbv zeta in Hin.
    destruct (negb (String.eqb (mode (session m)) "persistent"));
      [cbn in Hin; contradiction |].
    destruct (truthy_token (token (session m))) eqn:Htok;
      [| cbn in Hin; contradiction].
    split; [reflexivity |]. cbn [negb] in Hin.
    assert (Hone : forall evs : list event,
              Forall is_print evs ->
              In r (requests_of (Http (GetDocuments (token (session m)))
                                   :: evs)) ->
              bearer_of r = Some (token (session m))).
    { intros evs Hprints Hr.
      change (requests_of (Http ?q :: ?l)) with (q :: requests_of l) in Hr.
      destruct Hr as [<- | Hr]; [reflexivity |].
      exfalso. induction Hprints as [| e evs [msg ->] _ IH];
        [contradiction | apply IH; exact Hr]. }
    assert (Hprinted : forall msg,
              Forall is_print
                (events_of (printed env msg m))).
    { intros msg. unfold printed. destruct (renders env msg);
        repeat constructor. eexists. reflexivity. }
    destruct (backend env (GetDocuments (token (session m)))) as [| resp];
      [apply (Hone []); [constructor | exact Hin] |].
    destruct (json resp) as [body |];
      [| apply (Hone []); [constructor | exact Hin]].
    destruct body; try (apply (Hone []); [constructor | exact Hin]).
    destruct (status_code resp =? 200)%Z.
    + destruct (negb (truthy (field members "documents" (JArray [])))).
      * apply (Hone [Print MsgNoDocumentsInKB]); [| exact Hin].
        repeat constructor. eexists. reflexivity.
      * destruct (table_rows env (field members "documents" (JArray []))).
        -- apply (Hone []); [constructor | exact Hin].
        -- apply (Hone (events_of (printed env (MsgAvailableDocuments l) m)));
             [apply Hprinted | exact Hin].
    + apply (Hone (events_of
                     (printed env
                        (MsgErrorFetchingDocuments
                           (field members "detail" (JString "Unknown error")))
                        m)));
        [apply Hprinted | exact Hin].
Qed.

(** The request of a logged-in [list_docs] carries the token [t]. *)
Lemma requests_carry_session_token_witness :
  truthy_token (token (session (logged_in_machine []))) = true
  /\ bearer_of (GetDocuments (JString "t"))
     = Some (token (session (logged_in_machine []))).
Proof.
  apply (requests_carry_session_token kb_env "" "" (logged_in_machine [])
           (GetDocuments (JString "t"))).
  right. left. reflexivity.
Defined.

(** ** Lines that [main] handles itself *)

(** The first turn of [main], after its greeting. *)
Lemma main_first_turn (env : Env) (m : machine) :
  main env m =
    after [Print MsgWelcome]
      (bind (main_turn env)
         (fun stop : bool =>
            if stop then ret Left_loop
            else main_loop env (length (console_in m))) m).
Proof.
  unfold main, print, emit, get.
  cbn [renders markup_risks existsb negb]. unfold bind at 1 2.
  cbv beta iota. cbn [main_loop].
  destruct (bind (main_turn env) _ m) as [[r m'] evs]. reflexivity.
Qed.

(** When rich rejects the prompt nothing is read. *)
Lemma main_turn_prompt_rejected (env : Env) (m : machine) :
  prompt_renders env (session m) = false ->
  main_turn env m = (Raise MarkupError, m, []).
Proof.
  intros Hprompt. unfold main_turn, try_except. unfold bind at 1.
  unfold prompt_input. rewrite Hprompt. reflexivity.
Qed.

(** So [main] greets and ends with [MarkupError] when rich rejects the
    prompt of the session it starts in. *)
Lemma main_prompt_rejected (env : Env) (m : machine) :
  prompt_renders env (session m) = false ->
  main env m = (Raise MarkupError, m, [Print MsgWelcome]).
Proof.
  intros Hprompt. rewrite main_first_turn. unfold bind.
  rewrite (main_turn_prompt_rejected env m Hprompt). reflexivity.
Qed.

(** A login under an email that reads as a closing tag: the login
    succeeds, and the next prompt, which shows the email, ends [main];
    [exit] is never read. *)
Example main_ends_at_prompt_after_login :
  main login_env
    {| session := APP_STATE;
       console_in := [Typed "login"; Typed "[/x]"; Typed "pw"; Typed "exit"] |}
  = (Raise MarkupError,
     {| session := logged_in (JString "tok-1") "[/x]" APP_STATE;
        console_in := [Typed "exit"] |},
     [Print MsgWelcome; Http (PostLogin "[/x]" "pw");
      Print MsgLoginSuccessful]).
Proof. reflexivity. Qed.

Lemma main_turn_blank
  (env : Env) (s : AppState) (line : string) (rest : list keyboard) :
  prompt_renders env s = true ->
  PyStr.strip line = ""%string ->
  main_turn env {| session := s; console_in := Typed line :: rest |}
  = (Ok false, {| session := s; console_in := rest |}, []).
Proof.
  intros Hprompt Hblank. unfold main_turn, try_except. unfold bind at 1.
  unfold prompt_input, console_input. cbn [console_in session].
  rewrite Hprompt, Hblank. reflexivity.
Qed.

(** X13. A blank line (empty, or made of whitespace only) is skipped: on
    every host and session, [main] with such a line typed first prints
    and ends as [main] without it, and leaves the same session.  When
    rich renders the prompt of the session, the two runs are the same
    altogether; when it does not, neither reads anything, so that the
    blank line is still pending in the first. *)
Theorem main_skips_blank_lines
  (env : Env) (s : AppState) (line : string) (rest : list keyboard) :
  PyStr.strip line = ""%string ->
  let with_blank :=
    main env {| session := s; console_in := Typed line :: rest |} in
  let without := main env {| session := s; console_in := rest |} in
  outcome_of with_blank = outcome_of without
  /\ events_of with_blank = events_of without
  /\ session (state_of with_blank) = session (state_of without)
  /\ (prompt_renders env s = true -> with_blank = without).
Proof.
  intros Hblank with_blank without. subst with_blank without.
  destruct (prompt_renders env s) eqn:Hprompt.
  - assert (Hsame : main env {| session := s;
                                console_in := Typed line :: rest |}
                    = main env {| session := s; console_in := rest |}).
    { rewrite (main_first_turn env {| session := s;
                                     console_in := Typed line :: rest |}).
      rewrite (main_first_turn env {| session := s; console_in := rest |}).
      unfold bind at 1.
      rewrite (main_turn_blank env s line rest Hprompt Hblank).
      cbn [console_in length main_loop].
      destruct (bind (main_turn env) _ {| session := s; console_in := rest |})
        as [[r m'] evs].
      reflexivity. }
    rewrite Hsame. repeat split; reflexivity.
  - rewrite !main_first_turn. unfold bind.
    rewrite !main_turn_prompt_rejected by exact Hprompt.
    repeat split; discriminate.
Qed.

(** Spaces and a tab before [exit]: as [exit] alone. *)
Lemma main_skips_blank_lines_witness :
  main offline_env
    {| session := APP_STATE;
       console_in := [Typed (String " " (String "009" " ")); Typed "exit"] |}
  = main offline_env {| session := APP_STATE; console_in := [Typed "exit"] |}.
Proof.
  apply (proj2 (proj2 (proj2
           (main_skips_blank_lines offline_env APP_STATE
              (String " " (String "009" " ")) [Typed "exit"] eq_refl)))).
  reflexivity.
Defined.

(** X14. [exit] and [quit] are recognised whatever their case, with
    spaces around the line and whatever follows the word: a line whose
    first word lowercases to one of them makes [main] print the exit
    message and return at once, leaving the session as it is and the
    rest of the input unread.  This supposes that the line is read: when
    rich rejects the prompt of the session, [main] ends with
    [MarkupError] after its greeting and reads nothing. *)
Theorem main_exits_on_exit_or_quit
  (env : Env) (s : AppState) (line : string) (rest : list keyboard) :
  command_of (PyStr.strip line) = "exit"%string
  \/ command_of (PyStr.strip line) = "quit"%string ->
  main env {| session := s; console_in := Typed line :: rest |}
  = if prompt_renders env s
    then (Ok Left_loop, {| session := s; console_in := rest |},
          [Print MsgWelcome; Print MsgExiting])
    else (Raise MarkupError,
          {| session := s; console_in := Typed line :: rest |},
          [Print MsgWelcome]).
Proof.
  intros Hcmd.
  destruct (prompt_renders env s) eqn:Hprompt;
    [| apply main_prompt_rejected; exact Hprompt].
  assert (Hturn : main_turn env
                    {| session := s; console_in := Typed line :: rest |}
                  = (Ok true, {| session := s; console_in := rest |},
                     [Print MsgExiting])).
  { unfold main_turn, try_except. unfold bind at 1.
    unfold prompt_input, console_input.
    cbn [console_in session]. rewrite Hprompt.
    destruct (PyStr.strip line) as [| c user_input] eqn:Hline.
    - destruct Hcmd as [H | H]; discriminate.
    - cbn [PyStr.truthy negb]. unfold bind at 1. unfold dispatch.
      unfold command_of in Hcmd.
      destruct (PyStr.split_space_1 (String c user_input)) as [part0 tail].
      cbn [fst] in Hcmd. destruct Hcmd as [-> | ->]; reflexivity. }
  rewrite main_first_turn. unfold bind. rewrite Hturn. reflexivity.
Qed.

(** [QUIT now], with spaces around it, ends the loop; [help] is not read. *)
Lemma main_exits_witness :
  main offline_env
    {| session := APP_STATE;
       console_in := [Typed "  QUIT now "; Typed "help"] |}
  = (Ok Left_loop, {| session := APP_STATE; console_in := [Typed "help"] |},
     [Print MsgWelcome; Print MsgExiting]).
Proof.
  apply (main_exits_on_exit_or_quit offline_env APP_STATE "  QUIT now "
           [Typed "help"]).
  right. reflexivity.
Defined.

(** ** Commands that work offline *)

Lemma add_reports_prints (env : Env) (files_to_add staged : list string) :
  Forall is_print (add_reports env files_to_add staged).
Proof.
  revert staged. induction files_to_add as [| p ps IH]; intros staged;
    cbn [add_reports]; [constructor |].
  destruct (path_exists env p && path_isfile env p);
    [destruct (PyStr.mem (path_abspath env p) staged) |];
    constructor; try apply IH; eexists; reflexivity.
Qed.

Lemma printed_prints {S} (env : Env) (msg : message) (s : S) :
  Forall is_print (events_of (printed env msg s)).
Proof.
  unfold printed. destruct (renders env msg); repeat constructor.
  eexists. reflexivity.
Qed.

(** X15. [help], [mode], [logout], [set_docs], [add_doc], [show_docs] and
    [clear_docs] never contact the backend and never open a file: on
    every host, machine and argument string, everything they do besides
    changing the session is printing messages. *)
Theorem local_commands_only_print
  (env : Env) (args : string) (m : machine) :
  Forall is_print (events_of (handle_help env args m))
  /\ Forall is_print (events_of (handle_mode_switch env args m))
  /\ Forall is_print (events_of (handle_logout env args m))
  /\ Forall is_print (events_of (handle_set_docs env args m))
  /\ Forall is_print (events_of (handle_add_doc env args m))
  /\ Forall is_print (events_of (handle_show_docs env args m))
  /\ Forall is_print (events_of (handle_clear_docs env args m)).
Proof.
  assert (Hone : forall msg, Forall is_print [Print msg])
    by (intros msg; constructor; [eexists; reflexivity | constructor]).
  split; [apply Hone |].
  split.
  { rewrite handle_mode_switch_run. destruct (PyStr.mem _ _); apply Hone. }
  split; [apply Hone |].
  split.
  { rewrite handle_set_docs_run.
    destruct (negb (String.eqb (mode (session m)) "persistent"));
      [apply Hone |].
    destruct (negb (PyStr.truthy args) || String.eqb (PyStr.strip args) "*");
      [apply Hone |].
    destruct (Shlex.split args); [constructor | apply printed_prints]. }
  split.
  { rewrite handle_add_doc_run.
    destruct (negb (String.eqb (mode (session m)) "temporary"));
      [apply Hone |].
    destruct (negb (PyStr.truthy args)); [apply Hone |].
    destruct (Shlex.split args); [constructor | apply add_reports_prints]. }
  split.
  { rewrite handle_show_docs_run. apply printed_prints. }
  rewrite handle_clear_docs_run. apply Hone.
Qed.

(** ** An upload stops at the first file that does not open *)

Lemma opened_handles_stop (env : Env) (paths : list string) (n : nat) :
  forallb (can_open env) paths = false ->
  exists before file_path after,
    paths = before ++ file_path :: after
    /\ forallb (can_open env) before = true
    /\ can_open env file_path = false
    /\ map hpath (opened_handles env n paths) = before.
Proof.
  revert n. induction paths as [| p ps IH]; intros n Hfail; [discriminate |].
  cbn [forallb opened_handles] in *.
  destruct (can_open env p) eqn:Hp.
  - cbn [andb] in Hfail.
    destruct (IH (S n) Hfail) as [before [q [after [-> [Hb [Hq Hh]]]]]].
    exists (p :: before), q, after. cbn [forallb map hpath List.app].
    rewrite Hp, Hb, Hh. repeat split; assumption.
  - exists [], p, ps. repeat split; assumption.
Qed.

(** X16. When some staged file cannot be opened, an upload query opens
    the staged files in order up to the first that fails and none after
    it: the paths of the files it opened are exactly the staged paths
    before that one.  It then raises [OSError]; the query text is never
    sent. *)
Theorem upload_query_stops_at_first_unopenable
  (env : Env) (query : string) (m : machine) :
  forallb (can_open env) (temp_docs_to_upload (session m)) = false ->
  exists before file_path after,
    temp_docs_to_upload (session m) = before ++ file_path :: after
    /\ forallb (can_open env) before = true
    /\ can_open env file_path = false
    /\ map hpath (opens (events_of (handle_temporary_query env query m)))
       = before
    /\ requests_of (events_of (handle_temporary_query env query m)) = []
    /\ outcome_of (handle_temporary_query env query m) = Raise OSError.
Proof.
  intros Hfail.
  assert (Hne : temp_docs_to_upload (session m) <> [])
    by (intros Hnil; rewrite Hnil in Hfail; discriminate).
  destruct (opened_handles_stop env _ 0 Hfail)
    as [before [p [after [Hcut [Hb [Hp Hh]]]]]].
  exists before, p, after.
  rewrite (handle_temporary_query_run env query m Hne). cbv zeta.
  rewrite Hfail. cbn [events_of outcome_of fst snd].
  rewrite opens_app, opens_FileOpen, opens_FileClose, app_nil_r.
  rewrite requests_of_app, requests_of_FileOpen, requests_of_FileClose.
  repeat split; assumption.
Qed.

(** Of two staged files the second no longer opens: only the first is
    opened. *)
Lemma upload_query_stops_witness :
  exists before file_path after,
    temp_docs_to_upload (session two_staged_machine)
    = before ++ file_path :: after
    /\ forallb (can_open one_unreadable_env) before = true
    /\ can_open one_unreadable_env file_path = false
    /\ map hpath
         (opens (events_of (handle_temporary_query one_unreadable_env
                              "covered?" two_staged_machine)))
       = before
    /\ requests_of
         (events_of (handle_temporary_query one_unreadable_env "covered?"
                       two_staged_machine)) = []
    /\ outcome_of (handle_temporary_query one_unreadable_env "covered?"
                     two_staged_machine) = Raise OSError.
Proof.
  apply (upload_query_stops_at_first_unopenable one_unreadable_env "covered?"
           two_staged_machine).
  reflexivity.
Defined.

(** ** The prompt *)

Lemma str_append_assoc (a b c : string) :
  ((a ++ b) ++ c)%string = (a ++ (b ++ c))%string.
Proof. induction a as [| x a IH]; cbn; [| rewrite IH]; reflexivity. Qed.

(** With an empty current collection the prompt has no counter. *)
Lemma prompt_plain (s : AppState) :
  (if String.eqb (mode s) "persistent" then persistent_docs_context s
   else temp_docs_to_upload s) = [] ->
  get_current_prompt s
  = plain_prompt (mode s) (format_optional (user_email s)).
Proof.
  intros Hempty. unfold get_current_prompt, plain_prompt. rewrite Hempty.
  cbn. rewrite !str_append_assoc. reflexivity.
Qed.

(** X17. After [clear_docs], after [logout] and after a successful mode
    switch the prompt shows no document counter, in whatever state the
    command was given: it reads [ClauseCompass], the mode and the user
    only.  After [logout] the user shown is the text [None]: the key
    [user_email] is always present, so the default text of the lookup in
    [get_current_prompt] is never used. *)
Theorem prompt_has_no_counter_after_reset
  (env : Env) (args : string) (m : machine) :
  get_current_prompt (session (state_of (handle_clear_docs env args m)))
  = plain_prompt (mode (session m))
      (format_optional (user_email (session m)))
  /\
  get_current_prompt (session (state_of (handle_logout env args m)))
  = plain_prompt (mode (session m)) "None"
  /\
  (PyStr.lower (PyStr.strip args) = "persistent"%string
   \/ PyStr.lower (PyStr.strip args) = "temporary"%string ->
   get_current_prompt (session (state_of (handle_mode_switch env args m)))
   = plain_prompt (PyStr.lower (PyStr.strip args))
       (format_optional (user_email (session m)))).
Proof.
  split; [| split].
  - rewrite handle_clear_docs_run. cbn [state_of fst snd with_session session].
    destruct (String.eqb (mode (session m)) "persistent") eqn:Hmode;
      rewrite prompt_plain; try reflexivity; cbn; rewrite Hmode; reflexivity.
  - rewrite handle_logout_session, prompt_plain; [reflexivity |].
    cbn. destruct (String.eqb (mode (session m)) "persistent"); reflexivity.
  - intros Hvalid. rewrite handle_mode_switch_run.
    replace (PyStr.mem (PyStr.lower (PyStr.strip args))
               ["persistent"%string; "temporary"%string]) with true
      by (symmetry; apply mem_In; destruct Hvalid as [-> | ->]; cbn; auto).
    cbn [state_of fst snd]. rewrite prompt_plain; [reflexivity |].
    cbn. destruct (String.eqb _ "persistent"); reflexivity.
Qed.

(** Switching a session with a context to temporary mode. *)
Lemma prompt_after_switch_witness :
  get_current_prompt
    (session (state_of (handle_mode_switch offline_env "Temporary"
                          context_machine)))
  = "ClauseCompass (temporary) (None) > "%string.
Proof.
  apply (proj2 (proj2 (prompt_has_no_counter_after_reset offline_env
                         "Temporary" context_machine))).
  right. reflexivity.
Defined.



(** ** Malformed arguments *)

(** X19. An argument string that [shlex.split] rejects changes nothing:
    [set_docs] in persistent mode (unless the string trims to the
    wildcard) and [add_doc] in temporary mode end with the [ValueError]
    of [shlex], print nothing and leave the machine, context and staged
    list included, exactly as it was. *)
Theorem malformed_arguments_change_nothing
  (env : Env) (args_str : string) (e : Shlex.error) (m : machine) :
  Shlex.split args_str = inl e ->
  (mode (session m) = "persistent"%string ->
   PyStr.strip args_str <> "*"%string ->
   handle_set_docs env args_str m = (Raise (ValueError e), m, []))
  /\
  (mode (session m) = "temporary"%string ->
   handle_add_doc env args_str m = (Raise (ValueError e), m, [])).
Proof.
  intros Hsplit.
  assert (Hne : PyStr.truthy args_str = true).
  { destruct args_str; [discriminate Hsplit | reflexivity]. }
  split.
  - intros Hmode Hstar. rewrite handle_set_docs_run, Hmode, Hne, Hsplit.
    apply String.eqb_neq in Hstar. rewrite Hstar. reflexivity.
  - intros Hmode. rewrite handle_add_doc_run, Hmode, Hne, Hsplit. reflexivity.
Qed.

(** An unclosed quotation given to [add_doc] in temporary mode. *)
Lemma malformed_arguments_witness :
  handle_add_doc two_files_env unclosed_args temporary_machine
  = (Raise (ValueError Shlex.NoClosingQuotation), temporary_machine, []).
Proof.
  apply (proj2 (malformed_arguments_change_nothing two_files_env unclosed_args
                  Shlex.NoClosingQuotation temporary_machine eq_refl)).
  reflexivity.
Defined.

(** ** The endpoint of a query follows the mode *)

(** X20. Whatever request a free-text query issues goes to the endpoint
    of the current mode and carries the text unchanged: in persistent
    mode it is the evaluation request with the text and the persistent
    context; in any other mode it is the upload request with the text and
    file parts.  So a query never reaches the endpoint of the other
    mode. *)
Theorem query_request_follows_mode
  (env : Env) (query_text : string) (m : machine) (r : request) :
  In r (requests_of (events_of (handle_query env query_text m))) ->
  (mode (session m) = "persistent"%string ->
   r = PostEvaluate (token (session m)) query_text
         (persistent_docs_context (session m)))
  /\
  (mode (session m) <> "persistent"%string ->
   exists files,
     r = PostEvaluateWithDocs (token (session m)) query_text files
     /\ map (fun part => hpath (snd part)) files
        = temp_docs_to_upload (session m)).
Proof.
  intros Hin. unfold handle_query in Hin. unfold bind at 1 in Hin.
  unfold get_app in Hin. cbv beta iota in Hin.
  destruct (negb (truthy_token (token (session m))));
    [cbn in Hin; contradiction |].
  destruct (String.eqb (mode (session m)) "persistent") eqn:Hmode.
  - rewrite handle_persistent_query_run in Hin. cbv zeta in Hin.
    cbn [events_of snd List.app] in Hin.
    change (requests_of (Http ?q :: ?l)) with (q :: requests_of l) in Hin.
    rewrite (proj2 (proj2 (opens_response env _))) in Hin.
    destruct Hin as [<- | []]. split; [reflexivity |].
    apply String.eqb_eq in Hmode. congruence.
  - split; [apply String.eqb_neq in Hmode; congruence |]. intros _.
    destruct (temp_docs_to_upload (session m)) as [| p ps] eqn:Hstaged.
    + rewrite (handle_temporary_query_nothing_staged env _ _ Hstaged) in Hin.
      cbn in Hin. contradiction.
    + assert (Hne : temp_docs_to_upload (session m) <> [])
        by (rewrite Hstaged; discriminate).
      rewrite (handle_temporary_query_run env query_text m Hne) in Hin.
      cbv zeta in Hin. rewrite <- Hstaged.
      destruct (forallb (can_open env) (temp_docs_to_upload (session m)))
        eqn:Hall;
        cbn [events_of snd fst List.app] in Hin;
        rewrite !requests_of_app, ?requests_of_FileOpen,
          ?requests_of_FileClose in Hin; cbn [List.app] in Hin;
        [| contradiction].
      change (requests_of (Http ?q :: ?l)) with (q :: requests_of l) in Hin.
      rewrite (proj2 (proj2 (opens_response env _))) in Hin.
      destruct Hin as [<- | []]. eexists. split; [reflexivity |].
      rewrite map_map. unfold file_part. cbn [snd].
      apply (opened_handles_paths env _ 0 Hall).
Qed.

(** A logged-in query in persistent mode goes to the evaluation
    endpoint. *)
Lemma query_request_follows_mode_witness :
  PostEvaluate (JString "t") "covered?" []
  = PostEvaluate (token (session (logged_in_machine []))) "covered?"
      (persistent_docs_context (session (logged_in_machine []))).
Proof.
  apply (proj1 (query_request_follows_mode offline_env "covered?"
                  (logged_in_machine [])
                  (PostEvaluate (JString "t") "covered?" [])
                  (or_introl eq_refl))).
  reflexivity.
Defined.

(** ** The input ending inside a command *)

(** X21. When the input ends while [login] or [register] is asking for
    its fields, [main] ends through its exit message: nothing is sent to
    the backend and the session is left as it was.  This supposes that
    the command is read: when rich rejects the prompt of the session,
    [main] ends with [MarkupError] after its greeting and reads
    nothing. *)
Theorem main_exits_when_input_ends_in_login_or_register
  (env : Env) (s : AppState) (line : string) (typed : list string) :
  (command_of (PyStr.strip line) = "login"%string /\ length typed < 2)
  \/ (command_of (PyStr.strip line) = "register"%string /\ length typed < 3) ->
  main env {| session := s; console_in := Typed line :: map Typed typed |}
  = if prompt_renders env s
    then (Ok Left_loop, {| session := s; console_in := [] |},
          [Print MsgWelcome; Print MsgExiting])
    else (Raise MarkupError,
          {| session := s; console_in := Typed line :: map Typed typed |},
          [Print MsgWelcome]).
Proof.
  intros Hcmd.
  destruct (prompt_renders env s) eqn:Hprompt;
    [| apply main_prompt_rejected; exact Hprompt].
  assert (Hturn : main_turn env
                    {| session := s;
                       console_in := Typed line :: map Typed typed |}
                  = (Ok true, {| session := s; console_in := [] |},
                     [Print MsgExiting])).
  { unfold main_turn, try_except. unfold bind at 1.
    unfold prompt_input, console_input.
    cbn [console_in session]. rewrite Hprompt.
    destruct (PyStr.strip line) as [| c user_input] eqn:Hline.
    - destruct Hcmd as [[H _] | [H _]]; discriminate.
    - cbn [PyStr.truthy negb]. unfold bind at 1. unfold dispatch.
      unfold command_of in Hcmd.
      destruct (PyStr.split_space_1 (String c user_input)) as [part0 tail].
      cbn [fst] in Hcmd. destruct Hcmd as [[-> Hlen] | [-> Hlen]].
      + destruct typed as [| email [| password typed]];
          [reflexivity | reflexivity | cbn in Hlen; lia].
      + destruct typed as [| userid [| email [| password typed]]];
          [reflexivity | reflexivity | reflexivity | cbn in Hlen; lia]. }
  rewrite main_first_turn. unfold bind. rewrite Hturn. reflexivity.
Qed.

(** [login], an email, and then the end of the input. *)
Lemma main_exits_in_login_witness :
  main login_env
    {| session := APP_STATE; console_in := [Typed "login"; Typed "me"] |}
  = (Ok Left_loop, {| session := APP_STATE; console_in := [] |},
     [Print MsgWelcome; Print MsgExiting]).
Proof.
  apply (main_exits_when_input_ends_in_login_or_register login_env APP_STATE
           "login" ["me"%string]).
  left. split; [reflexivity | cbn; lia].
Defined.
